(** * LinkedIn Puppeteer service: a shallow embedding of [server.js] and
    [scraper.js], and the properties of its HTTP surface.

    The development follows the two source files:
    - [Js]       the JavaScript values that travel through the handlers
                 (request bodies, query parameters, scrape results), with
                 truthiness, property access, [String(...)] and
                 [JSON.stringify];
    - [Json]     a reader for the JSON texts the server writes, and the
                 lines of a stream;
    - [Str]      the string methods and regular expressions of the scraper;
    - [Run]      the effects of an [async] function: a state monad over the
                 outside world with JavaScript completions (normal / throw),
                 [try]/[catch]/[finally];
    - [Scraper]  [scraper.js]: [createBrowser], [ensureLogin],
                 [looksLikeCaptcha] and the five [scrape...] functions;
    - [Server]   [server.js]: [throttle], the five single-task [GET]
                 handlers and [POST /queue];
    - [Stub]     a test double of the browser and of the libraries, for
                 concrete runs.

    [scraper.js] holds two editions of the module, one after the other:
    lines 1-279 and lines 280-710.  The second differs from the first in
    more than layout: it keeps the cookies in Redis as well, sets a
    language header on every page, pauses with [sleep] where the first
    calls [page.waitForTimeout] (and for 800 ms instead of 1000 in
    [ensureLogin]), and words the error of [ensureLogin] differently
    ([... and no valid cookies]).  The embedding follows the first
    edition, lines 1-279, and every statement below that names a function
    of [scraper.js] is about that edition.

    Numbers are integers ([Z]) plus [NaN]; strings are [string]s of 8-bit
    code units.  The browser (Puppeteer), the clock, [Math.random],
    [dayjs] and [Date.prototype.toISOString] are outside the repository:
    the browser is a scripted [Session], the library functions are the
    fields of [Platform]. *)

From Stdlib Require Import ZArith List String Ascii Bool Lia.
From Stdlib Require Import DecimalString DecimalZ.
Import ListNotations.
Open Scope string_scope.
Open Scope Z_scope.
Set Warnings "-register-all".

(* ------------------------------------------------------------------ *)
(** ** JavaScript values *)

Module Js.

Inductive JsVal : Type :=
| JUndefined
| JNull
| JBool (b : bool)
| JNum (n : Z)
| JNaN
| JStr (s : string)
| JArr (items : list JsVal)
| JObj (fields : list (string * JsVal)).

(** [Boolean(v)], the test behind [!v], [a || b] and [if (v)]. *)
Definition truthy (v : JsVal) : bool :=
  match v with
  | JUndefined | JNull | JNaN => false
  | JBool b => b
  | JNum n => negb (n =? 0)
  | JStr s => negb (s =? "")%string
  | JArr _ | JObj _ => true
  end.

(** [a || b] *)
Definition js_or (a b : JsVal) : JsVal := if truthy a then a else b.

(** [a === b] for a string literal [b]. *)
Definition strict_eq_str (a : JsVal) (b : string) : bool :=
  match a with JStr s => (s =? b)%string | _ => false end.

(** [a === n] for an integer literal [n]. *)
Definition strict_eq_num (a : JsVal) (n : Z) : bool :=
  match a with JNum m => m =? n | _ => false end.

Fixpoint assoc (k : string) (fs : list (string * JsVal)) : JsVal :=
  match fs with
  | [] => JUndefined
  | (k', v) :: fs' => if (k =? k')%string then v else assoc k fs'
  end.

(** [v.k] for the property names the handlers read ([type], [url], [days],
    [login], [stream], [tasks]): own properties of an object; [undefined]
    on arrays and primitives, which have none of them; a [TypeError] on
    [null] and [undefined], rendered as [None]. *)
Definition get (v : JsVal) (k : string) : option JsVal :=
  match v with
  | JUndefined | JNull => None
  | JObj fs => Some (assoc k fs)
  | _ => Some JUndefined
  end.

Definition nullish (v : JsVal) : bool :=
  match v with JUndefined | JNull => true | _ => false end.

(** Decimal rendering of an integer, as [String(n)] and [JSON.stringify(n)]
    print it. *)
Definition dec (n : Z) : string := NilZero.string_of_int (Z.to_int n).

(** [String(v)] ([ToString]): arrays join their elements with commas,
    printing [null] and [undefined] elements as empty. *)
Fixpoint ToString (v : JsVal) : string :=
  match v with
  | JUndefined => "undefined"
  | JNull => "null"
  | JBool true => "true"
  | JBool false => "false"
  | JNum n => dec n
  | JNaN => "NaN"
  | JStr s => s
  | JArr l =>
      let elt x := if nullish x then "" else ToString x in
      (fix join (l : list JsVal) : string :=
         match l with
         | [] => ""
         | [x] => elt x
         | x :: rest => elt x ++ "," ++ join rest
         end) l
  | JObj _ => "[object Object]"
  end.

(** *** [JSON.stringify] *)

Definition dquote : ascii := ascii_of_nat 34.
Definition backslash : ascii := ascii_of_nat 92.
Definition newline : ascii := ascii_of_nat 10.

Definition hex_digit (n : nat) : ascii :=
  ascii_of_nat (if Nat.ltb n 10 then 48 + n else 87 + n).

(** One code unit inside a quoted JSON string ([QuoteJSONString]). *)
Definition escape_char (c : ascii) : string :=
  let n := nat_of_ascii c in
  let two x := String backslash (String x EmptyString) in
  if Nat.eqb n 34 then two dquote
  else if Nat.eqb n 92 then two backslash
  else if Nat.eqb n 8 then two "b"%char
  else if Nat.eqb n 12 then two "f"%char
  else if Nat.eqb n 10 then two "n"%char
  else if Nat.eqb n 13 then two "r"%char
  else if Nat.eqb n 9 then two "t"%char
  else if Nat.ltb n 32 then
    String backslash
      (String "u"%char
         (String "0"%char
            (String "0"%char
               (String (hex_digit (Nat.div n 16))
                  (String (hex_digit (Nat.modulo n 16)) EmptyString)))))
  else String c EmptyString.

Fixpoint escape (s : string) : string :=
  match s with
  | EmptyString => EmptyString
  | String c s' => escape_char c ++ escape s'
  end.

Definition quote (s : string) : string :=
  String dquote (escape s ++ String dquote EmptyString).

(** [l.join(sep)] *)
Fixpoint intercalate (sep : string) (l : list string) : string :=
  match l with
  | [] => ""
  | [x] => x
  | x :: rest => x ++ sep ++ intercalate sep rest
  end.

(** [SerializeJSONProperty]: [None] is the [undefined] result, which drops
    the property from an object and prints as [null] inside an array. *)
Fixpoint stringify (v : JsVal) : option string :=
  match v with
  | JUndefined => None
  | JNull => Some "null"
  | JBool true => Some "true"
  | JBool false => Some "false"
  | JNum n => Some (dec n)
  | JNaN => Some "null"
  | JStr s => Some (quote s)
  | JArr l =>
      let elt x := match stringify x with Some s => s | None => "null" end in
      Some ("[" ++ intercalate "," (map elt l) ++ "]")
  | JObj fs =>
      let members :=
        (fix go (fs : list (string * JsVal)) : list string :=
           match fs with
           | [] => []
           | (k, x) :: fs' =>
               match stringify x with
               | Some s => (quote k ++ ":" ++ s) :: go fs'
               | None => go fs'
               end
           end) fs in
      Some ("{" ++ intercalate "," members ++ "}")
  end.

(** [JSON.stringify(v)] where a string is expected: [res.write(... + '\n')]
    would coerce an [undefined] result with [String]. *)
Definition JSON_stringify (v : JsVal) : string :=
  match stringify v with Some s => s | None => "undefined" end.

End Js.
Import Js.

(* ------------------------------------------------------------------ *)
(** ** Reading JSON text back

    A reader for the texts [JSON.stringify] produces (no white space
    between tokens, integer numbers), used to state that a line of the
    stream is one JSON value. *)

Module Json.

Definition is_digit (c : ascii) : bool :=
  let n := nat_of_ascii c in Nat.leb 48 n && Nat.leb n 57.

Definition is_num_char (c : ascii) : bool := is_digit c || Ascii.eqb c "-".

Definition hex_value (c : ascii) : option nat :=
  let n := nat_of_ascii c in
  if Nat.leb 48 n && Nat.leb n 57 then Some (n - 48)%nat
  else if Nat.leb 97 n && Nat.leb n 102 then Some (n - 87)%nat
  else if Nat.leb 65 n && Nat.leb n 70 then Some (n - 55)%nat
  else None.

Definition cons_char (c : ascii) (r : option (string * string))
    : option (string * string) :=
  match r with
  | Some (s, rest) => Some (String c s, rest)
  | None => None
  end.

(** The characters of a string literal after its opening quote, up to and
    including the closing quote. *)
Fixpoint parse_chars (s : string) : option (string * string) :=
  match s with
  | EmptyString => None
  | String c s' =>
      if Ascii.eqb c dquote then Some (EmptyString, s')
      else if Ascii.eqb c backslash then
        match s' with
        | String e s'' =>
            if Ascii.eqb e dquote then cons_char dquote (parse_chars s'')
            else if Ascii.eqb e backslash then cons_char backslash (parse_chars s'')
            else if Ascii.eqb e "/" then cons_char "/" (parse_chars s'')
            else if Ascii.eqb e "b" then cons_char (ascii_of_nat 8) (parse_chars s'')
            else if Ascii.eqb e "f" then cons_char (ascii_of_nat 12) (parse_chars s'')
            else if Ascii.eqb e "n" then cons_char (ascii_of_nat 10) (parse_chars s'')
            else if Ascii.eqb e "r" then cons_char (ascii_of_nat 13) (parse_chars s'')
            else if Ascii.eqb e "t" then cons_char (ascii_of_nat 9) (parse_chars s'')
            else if Ascii.eqb e "u" then
              match s'' with
              | String h1 (String h2 (String h3 (String h4 s3))) =>
                  match hex_value h1, hex_value h2, hex_value h3, hex_value h4 with
                  | Some a, Some b, Some c, Some d =>
                      let code := (((a * 16 + b) * 16 + c) * 16 + d)%nat in
                      if Nat.ltb code 256
                      then cons_char (ascii_of_nat code) (parse_chars s3)
                      else None
                  | _, _, _, _ => None
                  end
              | _ => None
              end
            else None
        | EmptyString => None
        end
      else if Nat.ltb (nat_of_ascii c) 32 then None
      else cons_char c (parse_chars s')
  end.

(** The longest prefix made of digits and minus signs. *)
Fixpoint span_num (s : string) : string * string :=
  match s with
  | EmptyString => (EmptyString, EmptyString)
  | String c s' =>
      if is_num_char c
      then let (a, b) := span_num s' in (String c a, b)
      else (EmptyString, s)
  end.

Definition parse_number (s : string) : option (JsVal * string) :=
  let (digits, rest) := span_num s in
  match NilZero.int_of_string digits with
  | Some d => Some (JNum (Z.of_int d), rest)
  | None => None
  end.

(** [s] without its prefix [p], when it starts with it. *)
Fixpoint strip (p s : string) : option string :=
  match p, s with
  | EmptyString, _ => Some s
  | String a p', String b s' => if Ascii.eqb a b then strip p' s' else None
  | String _ _, EmptyString => None
  end.

Definition literal (p : string) (v : JsVal) (s : string)
    : option (JsVal * string) :=
  match strip p s with Some rest => Some (v, rest) | None => None end.

(** One value at the head of [s], with what follows it. [fuel] bounds the
    number of values, elements and members read. *)
Fixpoint parse_value (fuel : nat) (s : string) : option (JsVal * string) :=
  match fuel with
  | O => None
  | S f =>
      match s with
      | EmptyString => None
      | String c s' =>
          if Ascii.eqb c dquote then
            match parse_chars s' with
            | Some (str, rest) => Some (JStr str, rest)
            | None => None
            end
          else if Ascii.eqb c "[" then
            match s' with
            | String c' rest' =>
                if Ascii.eqb c' "]" then Some (JArr [], rest')
                else match parse_elems f s' with
                     | Some (l, rest) => Some (JArr l, rest)
                     | None => None
                     end
            | EmptyString => None
            end
          else if Ascii.eqb c "{" then
            match s' with
            | String c' rest' =>
                if Ascii.eqb c' "}" then Some (JObj [], rest')
                else match parse_members f s' with
                     | Some (l, rest) => Some (JObj l, rest)
                     | None => None
                     end
            | EmptyString => None
            end
          else if Ascii.eqb c "n" then literal "null" JNull s
          else if Ascii.eqb c "t" then literal "true" (JBool true) s
          else if Ascii.eqb c "f" then literal "false" (JBool false) s
          else if is_num_char c then parse_number s
          else None
      end
  end

with parse_elems (fuel : nat) (s : string) : option (list JsVal * string) :=
  match fuel with
  | O => None
  | S f =>
      match parse_value f s with
      | Some (v, String c rest) =>
          if Ascii.eqb c "," then
            match parse_elems f rest with
            | Some (l, rest') => Some (v :: l, rest')
            | None => None
            end
          else if Ascii.eqb c "]" then Some ([v], rest)
          else None
      | _ => None
      end
  end

with parse_members (fuel : nat) (s : string)
    : option (list (string * JsVal) * string) :=
  match fuel with
  | O => None
  | S f =>
      match s with
      | String q s' =>
          if Ascii.eqb q dquote then
            match parse_chars s' with
            | Some (k, String colon s'') =>
                if Ascii.eqb colon ":" then
                  match parse_value f s'' with
                  | Some (v, String c rest) =>
                      if Ascii.eqb c "," then
                        match parse_members f rest with
                        | Some (l, rest') => Some ((k, v) :: l, rest')
                        | None => None
                        end
                      else if Ascii.eqb c "}" then Some ([(k, v)], rest)
                      else None
                  | _ => None
                  end
                else None
            | _ => None
            end
          else None
      | EmptyString => None
      end
  end.

(** What [JSON.parse(JSON.stringify(v))] is: [NaN] and, inside an array,
    [undefined] come back as [null]; a member whose value is [undefined] is
    gone. *)
Fixpoint revived (v : JsVal) : JsVal :=
  match v with
  | JNaN | JUndefined => JNull
  | JArr l => JArr (map revived l)
  | JObj fs =>
      JObj ((fix go (fs : list (string * JsVal)) : list (string * JsVal) :=
               match fs with
               | [] => []
               | (k, JUndefined) :: fs' => go fs'
               | (k, x) :: fs' => (k, revived x) :: go fs'
               end) fs)
  | _ => v
  end.

(** The number of values in [v], which bounds the fuel its text needs. *)
Fixpoint size (v : JsVal) : nat :=
  match v with
  | JArr l => S (fold_right (fun x n => S (size x + n)) O l)
  | JObj fs => S (fold_right (fun kx n => S (size (snd kx) + n)) O fs)
  | _ => 1
  end.

(** [text.split('\n')] *)
Fixpoint split_lines (s : string) : list string :=
  match s with
  | EmptyString => [EmptyString]
  | String c s' =>
      if Ascii.eqb c newline then EmptyString :: split_lines s'
      else match split_lines s' with
           | l :: ls => String c l :: ls
           | [] => [String c EmptyString]
           end
  end.

(** Every character of [s] satisfies [p]. *)
Fixpoint all_chars (p : ascii -> bool) (s : string) : bool :=
  match s with
  | EmptyString => true
  | String c s' => p c && all_chars p s'
  end.

Definition not_newline (c : ascii) : bool := negb (Ascii.eqb c newline).

(** What may follow a value: anything but a digit or a minus sign, which
    would run into a number. *)
Definition ends_value (rest : string) : bool :=
  match rest with
  | String c _ => negb (is_num_char c)
  | EmptyString => true
  end.

(** The text of a value inside an array. *)
Definition element (x : JsVal) : string :=
  match stringify x with Some s => s | None => "null" end.

(** The members of an object that [JSON.stringify] prints. *)
Definition is_defined (kx : string * JsVal) : bool :=
  match snd kx with JUndefined => false | _ => true end.

Definition member (kx : string * JsVal) : string :=
  quote (fst kx) ++ ":" ++ element (snd kx).

Definition revived_member (kx : string * JsVal) : string * JsVal :=
  (fst kx, revived (snd kx)).

Definition size_elems (l : list JsVal) : nat :=
  fold_right (fun x n => S (size x + n)) O l.

Definition size_members (fs : list (string * JsVal)) : nat :=
  fold_right (fun kx n => S (size (snd kx) + n)) O fs.

(** The text of a value, followed by anything that does not continue a
    number, reads back as the revived value. *)
Definition reads_back (v : JsVal) : Prop :=
  forall fuel rest,
    (size v <= fuel)%nat ->
    ends_value rest = true ->
    parse_value fuel (element v ++ rest) = Some (revived v, rest).

(** The whole body of a response, chunk after chunk. *)
Definition text_of (chunks : list string) : string :=
  fold_right String.append EmptyString chunks.

End Json.

(* ------------------------------------------------------------------ *)
(** ** String helpers used by the scraper *)

Module Str.

(** [hay.includes(needle)] *)
Fixpoint includes (needle hay : string) : bool :=
  String.prefix needle hay
  || match hay with
     | EmptyString => false
     | String _ rest => includes needle rest
     end.

Definition lower_char (c : ascii) : ascii :=
  let n := nat_of_ascii c in
  if Nat.leb 65 n && Nat.leb n 90 then ascii_of_nat (n + 32) else c.

Fixpoint lower (s : string) : string :=
  match s with
  | EmptyString => EmptyString
  | String c s' => String (lower_char c) (lower s')
  end.

(** [/needle/i.test(hay)] for a lower-case literal [needle]: without the
    [u] flag a code unit above 127 never folds onto an ASCII letter. *)
Definition test_ci (needle hay : string) : bool := includes needle (lower hay).

Fixpoint ends_with_slash (s : string) : bool :=
  match s with
  | EmptyString => false
  | String c EmptyString => Ascii.eqb c "/"
  | String _ s' => ends_with_slash s'
  end.

(** [s.replace(/\/?$/, '/')]: the first match is the final slash when
    there is one, and the empty match at the end otherwise. *)
Definition slash_end (s : string) : string :=
  if ends_with_slash s then s else s ++ "/".

Definition is_space (c : ascii) : bool :=
  let n := nat_of_ascii c in
  (Nat.leb 9 n && Nat.leb n 13) || Nat.eqb n 32 || Nat.eqb n 160.

Fixpoint trim_start (s : string) : string :=
  match s with
  | EmptyString => EmptyString
  | String c s' => if is_space c then trim_start s' else s
  end.

Fixpoint trim_end (s : string) : string :=
  match s with
  | EmptyString => EmptyString
  | String c s' =>
      match trim_end s' with
      | EmptyString => if is_space c then EmptyString else String c EmptyString
      | t => String c t
      end
  end.

(** [s.trim()] *)
Definition trim (s : string) : string := trim_end (trim_start s).

End Str.

(* ------------------------------------------------------------------ *)
(** ** The outside world and the effects of an [async] function *)

Module Run.

(** A thrown value: the handlers only ever apply [String(e)] to it, and
    what is thrown in this program is an [Error] (by [ensureLogin], by
    Puppeteer, or a [TypeError] of the language). *)
Record Exn : Type := { exn_name : string; exn_message : string }.

Definition Error (msg : string) : Exn :=
  {| exn_name := "Error"; exn_message := msg |}.
Definition TypeError (msg : string) : Exn :=
  {| exn_name := "TypeError"; exn_message := msg |}.

(** [String(e)], that is [Error.prototype.toString]. *)
Definition String_of_exn (e : Exn) : string :=
  if (exn_name e =? "")%string then exn_message e
  else if (exn_message e =? "")%string then exn_name e
  else exn_name e ++ ": " ++ exn_message e.

Inductive Kind : Type :=
| profile | profile_posts | company | company_posts | jobs_company.

(** What the in-page callbacks of the posts scrapers read from one update
    node: the text element, the [time] element (its [datetime] attribute
    and its [innerText]) and the permalinks. [None] is a selector without
    match (or an absent attribute). *)
Record PostNode : Type := {
  pn_text : option string;
  pn_time : option (option string * string);
  pn_activity : option string;
  pn_posts : option string
}.

(** What the in-page callback of the jobs scraper reads from one card. *)
Record JobCard : Type := {
  jc_title : option string;
  jc_location : option string;
  jc_time : option (option string * string);
  jc_link : option string
}.

(** One browser, from [puppeteer.launch] to [browser.close]: the script of
    what Puppeteer answers to each call the scraper makes.  [Some e] is a
    rejected promise. *)
Record Session : Type := {
  launch : option Exn;          (* puppeteer.launch(...) *)
  launch_ms : nat;              (* time it takes *)
  newPage : option Exn;         (* browser.newPage() and the page setup *)
  feed_goto : option Exn;       (* ensureLogin: page.goto(feed) *)
  feed_url : string;            (* ensureLogin: page.url() *)
  feed_username : bool;         (* ensureLogin: page.$('#username') *)
  login_form : option Exn;      (* ensureLogin: type, type, click *)
  goto : option Exn;            (* page.goto(target) and the settle wait *)
  load_ms : nat;                (* time from newPage to the loaded page *)
  page_url : string;            (* page.url() on the target *)
  content : string;             (* page.content() *)
  scroll : option Exn;          (* autoScroll(page) *)
  evaluate : option Exn;        (* page.evaluate(callback) *)
  data : JsVal;                 (* what the profile / company callback returns *)
  nodes : list PostNode;        (* the update nodes of a posts page *)
  cards : list JobCard;         (* the job cards of a jobs page *)
  eval_ms : nat;                (* time the extraction takes *)
  close : option Exn;           (* page.close() *)
  shutdown : option Exn    (* browser.close() *)
}.

(** Library functions the code calls and the repository does not define. *)
Class Platform : Type := {
  (** [dayjs(s).valueOf()], [None] when [!dayjs(s).isValid()] *)
  dayjs_parse : string -> option Z;
  (** [dayjs().subtract(days, 'day').valueOf()] at time [now] *)
  dayjs_subtract_day : Z -> JsVal -> option Z;
  (** [new Date(t).toISOString()] *)
  toISOString : Z -> string;
  (** [Number(s)] on a string; [JNaN] or [JNum n] *)
  Number_of_string : string -> JsVal
}.

(** The process environment and the oracles of the run: the [n]-th call of
    the throttle draws [random n mod 2^53 / 2^53] from [Math.random] and,
    when it waits, its timer fires [lateness n] ms late; the [n]-th
    [createBrowser] gets [session n]. *)
Record Outside : Type := {
  env : string -> option string;
  random : nat -> Z;
  lateness : nat -> nat;
  session : nat -> Session
}.

Inductive Event : Type :=
| EvLaunch                                    (* createBrowser() *)
| EvScrape (k : Kind) (url days : JsVal) (login : bool)
| EvEnsureLogin
| EvLoadCookies
| EvSaveCookies
| EvGoto (url : JsVal)
| EvBrowserClose
| EvConsoleError (e : Exn).

(** The [res] object of one request. *)
Record Response : Type := {
  status : Z;
  headers : list (string * string);
  body : list string;           (* chunks written, in order *)
  sent : option JsVal;          (* the value given to [res.json] *)
  ended : bool
}.

Definition fresh_response : Response :=
  {| status := 200; headers := []; body := []; sent := None; ended := false |}.

Record World : Type := {
  now : Z;                      (* Date.now() *)
  lastRun : Z;                  (* server.js: let lastRun *)
  timers : nat;                 (* throttle calls so far *)
  launched : nat;               (* browsers launched so far *)
  trace : list Event;           (* calls made, oldest first *)
  res : Response
}.

Inductive Completion (A : Type) : Type :=
| Normal (a : A)
| Throw (e : Exn).
Arguments Normal {A} a.
Arguments Throw {A} e.

Definition M (A : Type) : Type := World -> Completion A * World.

Definition ret {A} (a : A) : M A := fun w => (Normal a, w).
Definition throw {A} (e : Exn) : M A := fun w => (Throw e, w).
Definition bind {A B} (m : M A) (f : A -> M B) : M B :=
  fun w => match m w with
           | (Normal a, w') => f a w'
           | (Throw e, w') => (Throw e, w')
           end.

(** [try { body } catch (e) { handler }] *)
Definition try_catch {A} (body : M A) (handler : Exn -> M A) : M A :=
  fun w => match body w with
           | (Normal a, w') => (Normal a, w')
           | (Throw e, w') => handler e w'
           end.

(** [try { body } finally { fin }]: a throw of [fin] replaces the
    completion of [body]. *)
Definition try_finally {A} (body : M A) (fin : M unit) : M A :=
  fun w => match body w with
           | (c, w') => match fin w' with
                        | (Normal _, w'') => (c, w'')
                        | (Throw e, w'') => (Throw e, w'')
                        end
           end.

(** [try { m } catch {}] *)
Definition swallow (m : M unit) : M unit := try_catch m (fun _ => ret tt).

Declare Scope run_scope.
Delimit Scope run_scope with run.
Notation "x <- m ;; k" := (bind m (fun x => k))
  (at level 100, m at next level, right associativity) : run_scope.
Notation "m ;; k" := (bind m (fun _ => k))
  (at level 100, right associativity) : run_scope.
Open Scope run_scope.

Definition log (e : Event) : M unit :=
  fun w => (Normal tt,
            {| now := now w; lastRun := lastRun w; timers := timers w;
               launched := launched w; trace := trace w ++ [e]; res := res w |}).

(** Time passing while a promise is awaited. *)
Definition elapse (ms : nat) : M unit :=
  fun w => (Normal tt,
            {| now := now w + Z.of_nat ms; lastRun := lastRun w;
               timers := timers w; launched := launched w;
               trace := trace w; res := res w |}).

Definition clock : M Z := fun w => (Normal (now w), w).

(** Awaiting a Puppeteer promise that resolves or rejects. *)
Definition await (r : option Exn) : M unit :=
  match r with None => ret tt | Some e => throw e end.

Definition with_res (f : Response -> Response) : M unit :=
  fun w => (Normal tt,
            {| now := now w; lastRun := lastRun w; timers := timers w;
               launched := launched w; trace := trace w; res := f (res w) |}).

(** [res.status(code)] *)
Definition res_status (code : Z) : M unit :=
  with_res (fun r => {| status := code; headers := headers r; body := body r;
                        sent := sent r; ended := ended r |}).

(** [res.setHeader(name, value)] *)
Definition res_setHeader (name value : string) : M unit :=
  with_res (fun r => {| status := status r;
                        headers := headers r ++ [(name, value)];
                        body := body r; sent := sent r; ended := ended r |}).

(** [res.write(chunk)] *)
Definition res_write (chunk : string) : M unit :=
  with_res (fun r => {| status := status r; headers := headers r;
                        body := body r ++ [chunk]; sent := sent r;
                        ended := ended r |}).

(** [res.end()] *)
Definition res_end : M unit :=
  with_res (fun r => {| status := status r; headers := headers r;
                        body := body r; sent := sent r; ended := true |}).

(** [res.json(v)], on a response whose [Content-Type] is not set yet: the
    serialized value is the whole body, sent as a string, for which
    Express adds the character set to the type. *)
Definition res_json (v : JsVal) : M unit :=
  with_res (fun r => {| status := status r;
                        headers := headers r ++
                          [("Content-Type", "application/json; charset=utf-8")];
                        body := body r ++ [JSON_stringify v];
                        sent := Some v; ended := true |}).

End Run.
Import Run.

(* ------------------------------------------------------------------ *)
(** ** scraper.js *)

Module Scraper.
Section WithOutside.
Context {P : Platform} (O : Outside).

(** [process.env.NAME] as a value: a string or [undefined]. *)
Definition getenv (name : string) : JsVal :=
  match env O name with Some s => JStr s | None => JUndefined end.

(** [createBrowser()]: the next session of the run, or the rejection of
    [puppeteer.launch]. *)
Definition createBrowser : M Session :=
  fun w =>
    let s := session O (launched w) in
    (log EvLaunch ;;
     elapse (launch_ms s) ;;
     await (launch s) ;;
     ret s)
      {| now := now w; lastRun := lastRun w; timers := timers w;
         launched := S (launched w); trace := trace w; res := res w |}.

(** [browser.close()] *)
Definition browser_close (s : Session) : M unit :=
  log EvBrowserClose ;; await (shutdown s).

(** [loadCookies(page)]: every failure is swallowed inside. *)
Definition loadCookies (s : Session) : M unit := log EvLoadCookies.

(** [saveCookies(page)]: every failure is swallowed inside. *)
Definition saveCookies (s : Session) : M unit := log EvSaveCookies.

Definition ensureLogin (s : Session) : M unit :=
  log EvEnsureLogin ;;
  loadCookies s ;;
  await (feed_goto s) ;;
  let onLogin := Str.includes "/login" (feed_url s) || feed_username s in
  if onLogin then
    let email := getenv "LINKEDIN_EMAIL" in
    let pass := getenv "LINKEDIN_PASSWORD" in
    if negb (truthy email) || negb (truthy pass)
    then throw (Error "Missing LINKEDIN_EMAIL / LINKEDIN_PASSWORD")
    else
      await (login_form s) ;;
      saveCookies s
  else ret tt.

Definition looksLikeCaptcha (url html : string) : bool :=
  (truthy (JStr url) && Str.includes "checkpoint/challenge" url)
  || (truthy (JStr html) && Str.test_ci "captcha" html).

Definition autoScroll (s : Session) : M unit := await (scroll s).

(** The part common to the five scrapers: open the page and, when [login]
    is set, go through [ensureLogin]. *)
Definition open_page (s : Session) (login : bool) : M unit :=
  await (newPage s) ;;
  if login then ensureLogin s else ret tt.

(** [page.goto(url, ...)] followed by the settle wait. *)
Definition page_goto (s : Session) (url : JsVal) : M unit :=
  log (EvGoto url) ;;
  await (goto s) ;;
  elapse (load_ms s).

Definition captcha_sentinel (s : Session) : JsVal :=
  JObj [("error", JStr "captcha_or_challenge"); ("url", JStr (page_url s))].

(** [new Date().toISOString()] *)
Definition iso_now : M JsVal :=
  t <- clock ;; ret (JStr (toISOString t)).

(** The tail shared by [scrapeProfile] and [scrapeCompany], which differ by
    the selectors inside the in-page callback only. *)
Definition scrape_page (s : Session) (url : JsVal) (login : bool) : M JsVal :=
  open_page s login ;;
  page_goto s url ;;
  let html := content s in
  if looksLikeCaptcha (page_url s) html then ret (captcha_sentinel s)
  else
    autoScroll s ;;
    await (evaluate s) ;;
    elapse (eval_ms s) ;;
    let data := data s in
    await (close s) ;;
    at_ <- iso_now ;;
    ret (JObj [("url", url); ("scrapedAt", at_); ("data", data)]).

Definition scrapeProfile (s : Session) (url : JsVal) (login : bool) : M JsVal :=
  log (EvScrape profile url JUndefined login) ;;
  scrape_page s url login.

Definition scrapeCompany (s : Session) (url : JsVal) (login : bool) : M JsVal :=
  log (EvScrape company url JUndefined login) ;;
  scrape_page s url login.

(** *** Posts *)

Record PostItem : Type := {
  text : option string;
  timeRaw : option string;
  postUrl : option string
}.

Definition nonempty (o : option string) : option string :=
  match o with
  | Some s => if (s =? "")%string then None else Some s
  | None => None
  end.

(** [el ? el.innerText.trim() : null] *)
Definition pick (el : option string) : option string :=
  option_map Str.trim el.

(** [n.querySelector('time')?.getAttribute('datetime') ||
     n.querySelector('time')?.innerText || null] *)
Definition time_of (t : option (option string * string)) : option string :=
  match t with
  | None => None
  | Some (attr, inner) =>
      match nonempty attr with
      | Some a => Some a
      | None => nonempty (Some inner)
      end
  end.

(** The callback of [scrapeProfilePosts] on one node. *)
Definition profile_post_item (n : PostNode) : PostItem :=
  {| text := pick (pn_text n);
     timeRaw := time_of (pn_time n);
     postUrl := pn_activity n |}.

(** The callback of [scrapeCompanyPosts] on one node: the permalink is
    looked up under [posts] first, then under [activity]. *)
Definition company_post_item (n : PostNode) : PostItem :=
  {| text := pick (pn_text n);
     timeRaw := time_of (pn_time n);
     postUrl := match pn_posts n with
                | Some h => Some h
                | None => pn_activity n
                end |}.

(** [parsed.isAfter(cutoff)]: a comparison of the two instants, false
    when the cutoff is not a valid date. *)
Definition isAfter (parsed : Z) (cutoff : option Z) : bool :=
  match cutoff with
  | Some c => c <? parsed
  | None => false
  end.

(** The predicate given to [items.filter]. *)
Definition recent (cutoff : option Z) (it : PostItem) : bool :=
  if negb (truthy (match timeRaw it with Some s => JStr s | None => JNull end))
  then true
  else
    match timeRaw it with
    | Some s =>
        match dayjs_parse s with
        | Some parsed => isAfter parsed cutoff
        | None => true
        end
    | None => true
    end.

Definition js_opt (o : option string) : JsVal :=
  match o with Some s => JStr s | None => JNull end.

Definition js_of_item (it : PostItem) : JsVal :=
  JObj [("text", js_opt (text it));
        ("timeRaw", js_opt (timeRaw it));
        ("postUrl", js_opt (postUrl it))].

(** [url.replace(/\/?$/, '/')]: a [TypeError] unless [url] is a string. *)
Definition replace_slash (url : JsVal) : M string :=
  match url with
  | JStr s => ret (Str.slash_end s)
  | JUndefined =>
      throw (TypeError "Cannot read properties of undefined (reading 'replace')")
  | JNull =>
      throw (TypeError "Cannot read properties of null (reading 'replace')")
  | _ => throw (TypeError "url.replace is not a function")
  end.

(** The default [days = 30] of the parameter destructuring. *)
Definition days_or_default (days : JsVal) : JsVal :=
  match days with JUndefined => JNum 30 | _ => days end.

(** The tail shared by the two posts scrapers, from [page.goto(postsUrl)]. *)
Definition scrape_posts (s : Session) (postsUrl days : JsVal)
    (item : PostNode -> PostItem) : M JsVal :=
  page_goto s postsUrl ;;
  autoScroll s ;;
  t <- clock ;;
  let cutoff := dayjs_subtract_day t days in
  await (evaluate s) ;;
  elapse (eval_ms s) ;;
  let items := map item (nodes s) in
  let filtered := filter (recent cutoff) items in
  await (close s) ;;
  at_ <- iso_now ;;
  ret (JObj [("url", postsUrl); ("scrapedAt", at_); ("days", days);
             ("items", JArr (map js_of_item filtered))]).

Definition scrapeProfilePosts (s : Session) (url days : JsVal) (login : bool)
    : M JsVal :=
  log (EvScrape profile_posts url days login) ;;
  let days := days_or_default days in
  open_page s login ;;
  postsUrl <-
    (if negb (Str.test_ci "detail/recent-activity" (ToString url))
     then
       base <- replace_slash url ;;
       ret (JStr (base ++ "detail/recent-activity/shares/"))
     else ret url) ;;
  scrape_posts s postsUrl days profile_post_item.

Definition scrapeCompanyPosts (s : Session) (url days : JsVal) (login : bool)
    : M JsVal :=
  log (EvScrape company_posts url days login) ;;
  let days := days_or_default days in
  open_page s login ;;
  base <- replace_slash url ;;
  scrape_posts s (JStr (base ++ "posts/")) days company_post_item.

(** *** Jobs *)

Definition or_else (a b : option string) : option string :=
  match nonempty a with Some x => Some x | None => b end.

(** The callback of [scrapeCompanyJobs] on one card. *)
Definition job_of_card (c : JobCard) : JsVal :=
  JObj [("title", js_opt (pick (jc_title c)));
        ("location", js_opt (pick (jc_location c)));
        ("listed",
         js_opt (or_else (pick (option_map snd (jc_time c)))
                   (nonempty (match jc_time c with
                              | Some (attr, _) => attr
                              | None => None
                              end))));
        ("jobUrl", js_opt (nonempty (jc_link c)))].

(** [cards.slice(0, 50).map(...)] *)
Definition jobs_of_cards (cards : list JobCard) : list JsVal :=
  map job_of_card (firstn 50 cards).

Definition scrapeCompanyJobs (s : Session) (url : JsVal) (login : bool)
    : M JsVal :=
  log (EvScrape jobs_company url JUndefined login) ;;
  open_page s login ;;
  base <- replace_slash url ;;
  let jobsUrl := JStr (base ++ "jobs/") in
  page_goto s jobsUrl ;;
  autoScroll s ;;
  await (evaluate s) ;;
  elapse (eval_ms s) ;;
  let jobs := jobs_of_cards (cards s) in
  await (close s) ;;
  at_ <- iso_now ;;
  ret (JObj [("url", jobsUrl); ("scrapedAt", at_); ("jobs", JArr jobs)]).

(** *** The in-page callbacks not reached by the run above *)

(** The timer of [autoScroll]: at every tick (300 ms apart) the page scrolls
    by 500 and the timer is cleared once the total exceeds eight window
    heights. [fuel] bounds the ticks; the result is the total scrolled and
    the number of ticks. *)
Fixpoint scroll_ticks (fuel : nat) (innerHeight total : Z) : option (Z * nat) :=
  match fuel with
  | 0%nat => None
  | S f =>
      let total := total + 500 in
      if innerHeight * 8 <? total then Some (total, 1%nat)
      else match scroll_ticks f innerHeight total with
           | Some (t, n) => Some (t, S n)
           | None => None
           end
  end.

(** What the callback of [scrapeProfile] reads: the text of the first
    match of each top-card selector, and the matches of the experience,
    education and skill selectors in document order. *)
Record Experience : Type := {
  ex_title : option string;
  ex_company : option string;
  ex_dateRange : option string;
  ex_location : option string;
  ex_description : option string
}.

Record Education : Type := {
  ed_school : option string;
  ed_degree : option string;
  ed_dates : option string
}.

Record ProfileDom : Type := {
  pd_name : option string;
  pd_headline : option string;
  pd_location : option string;
  pd_about : option string;
  pd_experiences : list Experience;
  pd_educations : list Education;
  pd_skills : list string          (* innerText of each skill element *)
}.

Definition experience_entry (li : Experience) : JsVal :=
  JObj [("title", js_opt (pick (ex_title li)));
        ("company", js_opt (pick (ex_company li)));
        ("dateRange", js_opt (pick (ex_dateRange li)));
        ("location", js_opt (pick (ex_location li)));
        ("description", js_opt (pick (ex_description li)))].

Definition education_entry (li : Education) : JsVal :=
  JObj [("school", js_opt (pick (ed_school li)));
        ("degree", js_opt (pick (ed_degree li)));
        ("dates", js_opt (pick (ed_dates li)))].

(** [qAll(...).slice(0, 50).map(el => pick(el)).filter(Boolean)] *)
Definition skill_names (els : list string) : list string :=
  filter (fun s => truthy (JStr s)) (map Str.trim (firstn 50 els)).

(** The value the callback of [scrapeProfile] returns. *)
Definition profile_data (d : ProfileDom) : JsVal :=
  JObj [("name", js_opt (pick (pd_name d)));
        ("headline", js_opt (pick (pd_headline d)));
        ("location", js_opt (pick (pd_location d)));
        ("about", js_opt (pick (pd_about d)));
        ("experiences",
         JArr (map experience_entry (firstn 20 (pd_experiences d))));
        ("educations",
         JArr (map education_entry (firstn 10 (pd_educations d))));
        ("skills", JArr (map JStr (skill_names (pd_skills d))))].

End WithOutside.
End Scraper.
Import Scraper.

(* ------------------------------------------------------------------ *)
(** ** server.js *)

Module Server.
Section WithOutside.
Context {P : Platform} (O : Outside).

(** [Number(v)] *)
Definition Number (v : JsVal) : JsVal :=
  match v with
  | JUndefined => JNaN
  | JNull => JNum 0
  | JBool b => JNum (if b then 1 else 0)
  | JNum n => JNum n
  | JNaN => JNaN
  | JStr s => Number_of_string s
  | JArr _ | JObj _ => Number_of_string (ToString v)
  end.

(** *** The throttle *)

Definition two53 : Z := 2 ^ 53.

(** [Math.random()] is [r / 2^53] for the numerator [r] returned here. *)
Definition Math_random : M Z :=
  fun w => (Normal (random O (timers w) mod two53), w).

(** The double nearest to [p / 2^53], as a number of [2^-53]s: [p]
    itself when it fits the 53 bits of a mantissa, and otherwise [p] cut
    to its 53 leading bits and rounded, a tie going to the even
    mantissa. *)
Definition round53 (p : Z) : Z :=
  let m := Z.abs p in
  let s := Z.log2 m - 52 in
  if s <=? 0 then p
  else
    let q := m / 2 ^ s in
    let rest := m mod 2 ^ s in
    let half := 2 ^ (s - 1) in
    let q' := if (half <? rest) || ((rest =? half) && Z.odd q)
              then q + 1 else q in
    Z.sgn p * (q' * 2 ^ s).

(** [Math.floor(Math.random() * (max - min + 1)) + min] for the numerator
    [r] of the draw; [None] is [NaN]. The product of the two doubles is
    rounded to a double before [Math.floor] sees it. *)
Definition pick_wait (min max : JsVal) (r : Z) : option Z :=
  match min, max with
  | JNum a, JNum b => Some (round53 (r * (b - a + 1)) / two53 + a)
  | _, _ => None
  end.

(** [elapsed < wait], false against [NaN]. *)
Definition lt_wait (elapsed : Z) (wait : option Z) : bool :=
  match wait with Some x => elapsed <? x | None => false end.

(** [await delay(ms)] in a request that runs alone: the timer of this call
    fires [ms] ms from now and [lateness] ms late, and nothing else takes
    a turn before it does.  This is [setTimeout] for a delay it takes as
    given, from 1 to [2^31 - 1] ms; [setTimeout_ms] below has the others. *)
Definition delay (ms : Z) : M unit :=
  fun w => (Normal tt,
            {| now := now w + ms + Z.of_nat (lateness O (timers w));
               lastRun := lastRun w; timers := timers w;
               launched := launched w; trace := trace w; res := res w |}).

(** [lastRun = Date.now()], which ends the call. *)
Definition record_start : M unit :=
  fun w => (Normal tt,
            {| now := now w; lastRun := now w; timers := S (timers w);
               launched := launched w; trace := trace w; res := res w |}).

Definition last_run : M Z := fun w => (Normal (lastRun w), w).

Definition rate_min : JsVal := Number (js_or (getenv O "RATE_MIN_MS") (JNum 1200)).
Definition rate_max : JsVal := Number (js_or (getenv O "RATE_MAX_MS") (JNum 2500)).

(** A call of [throttle] by a request that runs alone: when the call has
    to wait, its two turns of the event loop follow each other, with no
    turn of another handler in between.  This is the call the handlers
    below make; [throttle_among] is the call among other requests. *)
Definition throttle : M unit :=
  let min := rate_min in
  let max := rate_max in
  r <- Math_random ;;
  let wait := pick_wait min max r in
  t <- clock ;;
  last <- last_run ;;
  let elapsed := t - last in
  (if lt_wait elapsed wait
   then match wait with
        | Some x => delay (x - elapsed)
        | None => ret tt
        end
   else ret tt) ;;
  record_start.

(** *** The throttle among other requests

    A call that has to wait gives the event loop back at its [await]; the
    handlers of other requests take their turns until its timer fires,
    and the call goes on from the state they left. *)

(** The delay [setTimeout] works with: the one it is given from 1 to
    [2^31 - 1] ms, and 1 ms for any other. *)
Definition setTimeout_ms (ms : Z) : Z :=
  if (ms <? 1) || (2147483647 <? ms) then 1 else ms.

(** The timer of a call that waits: when it is due, and how late it
    fires. *)
Record Timer : Type := { due : Z; late : nat }.

(** The number of this call, which is that of its draw and of its timer. *)
Definition take_number : M nat :=
  fun w => (Normal (timers w),
            {| now := now w; lastRun := lastRun w; timers := S (timers w);
               launched := launched w; trace := trace w; res := res w |}).

(** [lastRun = Date.now()] *)
Definition record_now : M unit :=
  fun w => (Normal tt,
            {| now := now w; lastRun := now w; timers := timers w;
               launched := launched w; trace := trace w; res := res w |}).

(** The first turn of a call: up to its [await], with the timer it set, or
    to its end when there is nothing to wait for. *)
Definition throttle_enter : M (option Timer) :=
  let min := rate_min in
  let max := rate_max in
  n <- take_number ;;
  let wait := pick_wait min max (random O n mod two53) in
  t <- clock ;;
  last <- last_run ;;
  let elapsed := t - last in
  if lt_wait elapsed wait
  then match wait with
       | Some x =>
           ret (Some {| due := t + setTimeout_ms (x - elapsed);
                        late := lateness O n |})
       | None => record_now ;; ret None
       end
  else record_now ;; ret None.

(** The turn in which the timer fires: when it is due and [late] ms after,
    or when the handlers that ran meanwhile give the event loop back, if
    that is later still. *)
Definition timer_fires (tm : Timer) : M unit :=
  fun w => (Normal tt,
            {| now := Z.max (now w) (due tm + Z.of_nat (late tm));
               lastRun := lastRun w; timers := timers w;
               launched := launched w; trace := trace w; res := res w |}).

(** The second turn of a call that waited: from its [await] to its end. *)
Definition throttle_resume (tm : Timer) : M unit :=
  timer_fires tm ;;
  record_now.

(** What the handlers of other requests do while a call waits. *)
Definition others (meanwhile : World -> World) : M unit :=
  fun w => (Normal tt, meanwhile w).

(** A call of [throttle] among other requests. *)
Definition throttle_among (meanwhile : World -> World) : M unit :=
  tm <- throttle_enter ;;
  match tm with
  | Some tm => others meanwhile ;; throttle_resume tm
  | None => ret tt
  end.


(** *** Single-task endpoints *)

Record Request : Type := {
  query : string -> JsVal;      (* req.query.name, [undefined] when absent *)
  req_body : JsVal              (* req.body *)
}.

(** [req.query.login === '1' || Boolean(process.env.LINKEDIN_EMAIL)] *)
Definition query_login (req : Request) : bool :=
  strict_eq_str (query req "login") "1" || truthy (getenv O "LINKEDIN_EMAIL").

(** [Number(req.query.days || 30)] *)
Definition query_days (req : Request) : JsVal :=
  Number (js_or (query req "days") (JNum 30)).

(** The call each handler makes inside its [try]. *)
Definition scrape (k : Kind) (browser : Session) (url days : JsVal)
    (login : bool) : M JsVal :=
  match k with
  | profile => scrapeProfile O browser url login
  | profile_posts => scrapeProfilePosts O browser url days login
  | company => scrapeCompany O browser url login
  | company_posts => scrapeCompanyPosts O browser url days login
  | jobs_company => scrapeCompanyJobs O browser url login
  end.

Definition missing_url (k : Kind) : string :=
  match k with
  | jobs_company => "Missing ?url (company page)"
  | _ => "Missing ?url"
  end.

Definition console_error (e : Exn) : M unit := log (EvConsoleError e).

(** The five [app.get] handlers are the same function up to the scraper
    they call, the [days] parameter of the posts kinds and the message of
    [/jobs_company]. *)
Definition single_task (k : Kind) (req : Request) : M unit :=
  throttle ;;
  let url := query req "url" in
  let days := query_days req in
  let login := query_login req in
  if negb (truthy url)
  then res_status 400 ;; res_json (JObj [("error", JStr (missing_url k))])
  else
    browser <- createBrowser O ;;
    try_finally
      (try_catch
         (result <- scrape k browser url days login ;;
          res_json result)
         (fun e =>
            console_error e ;;
            res_status 500 ;;
            res_json (JObj [("error", JStr (String_of_exn e))])))
      (swallow (browser_close browser)).

Definition get_profile := single_task profile.
Definition get_profile_posts := single_task profile_posts.
Definition get_company := single_task company.
Definition get_company_posts := single_task company_posts.
Definition get_jobs_company := single_task jobs_company.

(** *** POST /queue *)

(** [t.k]: throws on [null] and [undefined]. *)
Definition prop (t : JsVal) (k : string) : M JsVal :=
  match get t k with
  | Some v => ret v
  | None =>
      throw (TypeError ("Cannot read properties of " ++ ToString t
                        ++ " (reading '" ++ k ++ "')"))
  end.

(** [t.login === 1 || Boolean(process.env.LINKEDIN_EMAIL)] *)
Definition task_login (login : JsVal) : bool :=
  strict_eq_num login 1 || truthy (getenv O "LINKEDIN_EMAIL").

(** The [if / else if] chain on [t.type]; [None] is the final [else]. *)
Definition kind_of (type : JsVal) : option Kind :=
  if strict_eq_str type "profile" then Some profile
  else if strict_eq_str type "profile_posts" then Some profile_posts
  else if strict_eq_str type "company" then Some company
  else if strict_eq_str type "company_posts" then Some company_posts
  else if strict_eq_str type "jobs_company" then Some jobs_company
  else None.

(** [out.payload = payload] in a module (strict mode): a [TypeError] unless
    [out] is an object. The property set is never read again. *)
Definition set_payload (out : JsVal) : M unit :=
  match out with
  | JObj _ | JArr _ => ret tt
  | _ => throw (TypeError "Cannot create property 'payload'")
  end.

Definition ndjson (v : JsVal) : string :=
  JSON_stringify v ++ String newline EmptyString.

(** The [if / else if] chain of the [try] block, which computes [out]. *)
Definition dispatch (t type : JsVal) (browser : Session) (login : bool)
    : M JsVal :=
  match kind_of type with
  | Some k =>
      url <- prop t "url" ;;
      days <- (match k with
               | profile_posts | company_posts =>
                   d <- prop t "days" ;; ret (js_or d (JNum 30))
               | _ => ret JUndefined
               end) ;;
      scrape k browser url days login
  | None =>
      url <- prop t "url" ;;
      ret (JObj [("error", JStr "unknown_type"); ("type", type);
                 ("url", url)])
  end.

(** One iteration of [for (const t of tasks)]. The value returned is the
    envelope the iteration builds (the local [payload] or [err]), which the
    source writes to the response when [stream] is set and drops otherwise. *)
Definition queue_task (stream : bool) (t : JsVal) : M JsVal :=
  throttle ;;
  l <- prop t "login" ;;
  let login := task_login l in
  browser <- createBrowser O ;;
  try_finally
    (try_catch
       (type <- prop t "type" ;;
        out <- dispatch t type browser login ;;
        type <- prop t "type" ;;
        url <- prop t "url" ;;
        let payload := JObj [("ok", JBool true); ("type", type); ("url", url);
                             ("result", out)] in
        (if stream then res_write (ndjson payload) else set_payload out) ;;
        ret payload)
       (fun e =>
          type <- prop t "type" ;;
          url <- prop t "url" ;;
          let err := JObj [("ok", JBool false); ("type", type); ("url", url);
                           ("error", JStr (String_of_exn e))] in
          (if stream then res_write (ndjson err) else ret tt) ;;
          ret err))
    (swallow (browser_close browser)).

(** [for (const t of tasks) { ... }] *)
Fixpoint queue_loop (stream : bool) (tasks : list JsVal) : M unit :=
  match tasks with
  | [] => ret tt
  | t :: rest => queue_task stream t ;; queue_loop stream rest
  end.

(** [const { stream = true, tasks = [] } = req.body || {}] *)
Definition body_field (req : Request) (k : string) (default : JsVal) : JsVal :=
  match get (js_or (req_body req) (JObj [])) k with
  | Some JUndefined | None => default
  | Some v => v
  end.

Definition post_queue (req : Request) : M unit :=
  let stream := body_field req "stream" (JBool true) in
  let tasks := body_field req "tasks" (JArr []) in
  match tasks with
  | JArr (t :: rest) =>
      (if truthy stream
       then res_setHeader "Content-Type" "application/x-ndjson"
       else ret tt) ;;
      queue_loop (truthy stream) (t :: rest) ;;
      if truthy stream then res_end
      else res_json (JObj [("ok", JBool true)])
  | _ =>
      res_status 400 ;;
      res_json (JObj [("error",
                       JStr "Provide tasks: [{type,url,days?,login?}, ...]")])
  end.

End WithOutside.
End Server.
Import Server.

(* ------------------------------------------------------------------ *)
(** ** A test double of the outside *)

Module Stub.

(** A platform for concrete runs: timestamps are decimal epoch
    milliseconds, a day is 86400000 ms. *)
Definition parse_ms (s : string) : option Z :=
  match s with
  | EmptyString => None
  | _ => option_map Z.of_int (NilZero.int_of_string s)
  end.

#[export] Instance platform : Platform := {|
  dayjs_parse := parse_ms;
  dayjs_subtract_day := fun t days =>
    match days with
    | JNum d => Some (t - d * 86400000)
    | _ => None
    end;
  toISOString := fun t => "T" ++ dec t;
  Number_of_string := fun s =>
    match parse_ms s with Some n => JNum n | None => JNaN end
|}.

Definition acme : JsVal := JObj [("name", JStr "Acme")].

Definition post (ts : option string) : PostNode :=
  {| pn_text := Some " hello ";
     pn_time := option_map (fun s => (Some s, "")) ts;
     pn_activity := None; pn_posts := None |}.

Definition card (n : nat) : JobCard :=
  {| jc_title := Some ("job " ++ dec (Z.of_nat n)); jc_location := None;
     jc_time := None; jc_link := None |}.

(** A browser in which every call succeeds. Of its four posts, one has no
    timestamp, one has a timestamp that does not parse, one is dated 5 ms
    after the epoch and one 999999999999 ms after it. *)
Definition page (url html : string) : Session :=
  {| launch := None; launch_ms := 0; newPage := None;
     feed_goto := None; feed_url := "https://www.linkedin.com/feed/";
     feed_username := false; login_form := None;
     goto := None; load_ms := 0; page_url := url; content := html;
     scroll := None; evaluate := None; data := acme;
     nodes := [post None; post (Some "yesterday"); post (Some "5");
               post (Some "999999999999")];
     cards := map card (seq 0 60);
     eval_ms := 0; close := None; shutdown := None |}.

Definition acme_url : string := "https://example.com/company/acme".

Definition ok_page : Session := page acme_url "<html>Acme</html>".

Definition challenge_page : Session :=
  page "https://www.linkedin.com/checkpoint/challenge/1" "<html></html>".

(** A browser whose navigation times out. *)
Definition timeout_page : Session :=
  {| launch := None; launch_ms := 0; newPage := None;
     feed_goto := None; feed_url := ""; feed_username := false;
     login_form := None;
     goto := Some {| exn_name := "TimeoutError";
                     exn_message := "Navigation timeout of 60000 ms exceeded" |};
     load_ms := 0; page_url := ""; content := "";
     scroll := None; evaluate := None; data := JUndefined;
     nodes := []; cards := [];
     eval_ms := 0; close := None; shutdown := None |}.

(** A browser that does not start. *)
Definition no_browser : Session :=
  {| launch := Some (Error "Failed to launch the browser process!");
     launch_ms := 0; newPage := None;
     feed_goto := None; feed_url := ""; feed_username := false;
     login_form := None; goto := None; load_ms := 0;
     page_url := ""; content := "";
     scroll := None; evaluate := None; data := JUndefined;
     nodes := []; cards := [];
     eval_ms := 0; close := None; shutdown := None |}.

Definition no_env : string -> option string := fun _ => None.

Definition outside (e : string -> option string) (s : nat -> Session) : Outside :=
  {| env := e; random := fun _ => 0; lateness := fun _ => 0%nat; session := s |}.

(** The environment of the degenerate throttle, [RATE_MIN_MS=1000] and
    [RATE_MAX_MS=1000]. *)
Definition env_1000 (name : string) : option string :=
  if (name =? "RATE_MIN_MS")%string then Some "1000"
  else if (name =? "RATE_MAX_MS")%string then Some "1000"
  else None.

(** Bounds of 3000000000 ms, beyond what [setTimeout] takes. *)
Definition env_long_wait (name : string) : option string :=
  if (name =? "RATE_MIN_MS")%string then Some "3000000000"
  else if (name =? "RATE_MAX_MS")%string then Some "3000000000"
  else None.

(** [LINKEDIN_EMAIL] set, to the empty string. *)
Definition env_blank_email (name : string) : option string :=
  if (name =? "LINKEDIN_EMAIL")%string then Some "" else None.

(** An environment with credentials. *)
Definition env_login (name : string) : option string :=
  if (name =? "LINKEDIN_EMAIL")%string then Some "me@example.com"
  else if (name =? "LINKEDIN_PASSWORD")%string then Some "secret"
  else None.

Definition world (t : Z) : World :=
  {| now := t; lastRun := 0; timers := 0; launched := 0; trace := [];
     res := fresh_response |}.

(** The server sits idle for [ms] milliseconds between two requests. *)
Definition idle (ms : Z) (w : World) : World :=
  {| now := now w + ms; lastRun := lastRun w; timers := timers w;
     launched := launched w; trace := trace w; res := res w |}.

Definition request (q : list (string * JsVal)) (b : JsVal) : Request :=
  {| query := fun k => assoc k q; req_body := b |}.

Definition task (type url : string) : JsVal :=
  JObj [("type", JStr type); ("url", JStr url)].

Definition queue_request (stream : bool) (tasks : list JsVal) : Request :=
  request [] (JObj [("stream", JBool stream); ("tasks", JArr tasks)]).

End Stub.

(* ------------------------------------------------------------------ *)
(** ** Vocabulary of the statements *)

(** A scraper lets time pass and adds to the trace; the response, the
    count of launched browsers and the throttle state belong to the
    server. *)
Definition same_server (w w' : World) : Prop :=
  res w' = res w /\ launched w' = launched w
  /\ timers w' = timers w /\ lastRun w' = lastRun w
  /\ now w <= now w'
  /\ exists evs, trace w' = (trace w ++ evs)%list.

Definition quiet {A} (m : M A) : Prop :=
  forall w c w', m w = (c, w') -> same_server w w'.

(** The calls of the extraction functions in a trace. *)
Definition is_scrape (e : Event) : bool :=
  match e with EvScrape _ _ _ _ => true | _ => false end.

Definition scrapes (tr : list Event) : list Event := filter is_scrape tr.

(** The world a handler goes on in once its [await throttle()] is over. *)
Definition after_throttle {P : Platform} (O : Outside) (w : World) : World :=
  snd (throttle O w).

(** The item callback of each posts scraper. *)
Definition item_of (k : Kind) : PostNode -> PostItem :=
  match k with
  | company_posts => company_post_item
  | _ => profile_post_item
  end.

(** The retention rule in the words of the specification: an item stays
    when it has no timestamp, when its timestamp does not parse, or when
    the parsed instant is strictly after the cutoff. *)
Definition retained {P : Platform} (cutoff : option Z) (it : PostItem) : Prop :=
  timeRaw it = None
  \/ (exists s, timeRaw it = Some s /\ dayjs_parse s = None)
  \/ (exists s p c, timeRaw it = Some s /\ dayjs_parse s = Some p
                    /\ cutoff = Some c /\ c < p).

(** [t.k] on a task that is neither [null] nor [undefined]. *)
Definition field (t : JsVal) (k : string) : JsVal :=
  match get t k with Some v => v | None => JUndefined end.

(** The [days] argument [POST /queue] passes for a task of kind [k]. *)
Definition days_arg (k : Kind) (t : JsVal) : JsVal :=
  match k with
  | profile_posts | company_posts => js_or (field t "days") (JNum 30)
  | _ => JUndefined
  end.

(** The two envelopes of a task. *)
Definition ok_envelope (t out : JsVal) : JsVal :=
  JObj [("ok", JBool true); ("type", field t "type"); ("url", field t "url");
        ("result", out)].

Definition error_envelope (t : JsVal) (e : Exn) : JsVal :=
  JObj [("ok", JBool false); ("type", field t "type"); ("url", field t "url");
        ("error", JStr (String_of_exn e))].

Definition is_envelope (t v : JsVal) : Prop :=
  (exists out, v = ok_envelope t out) \/ (exists e, v = error_envelope t e).

(** The result built for a task of unknown type. *)
Definition unknown_type (t : JsVal) : JsVal :=
  JObj [("error", JStr "unknown_type"); ("type", field t "type");
        ("url", field t "url")].

(** A response after more chunks were written to it. *)
Definition written (r : Response) (chunks : list string) : Response :=
  {| status := status r; headers := headers r; body := body r ++ chunks;
     sent := sent r; ended := ended r |}.

(** What one iteration of the queue adds to the response. *)
Definition streamed (stream : bool) (r : Response) (v : JsVal) : Response :=
  if stream then written r [ndjson v] else r.

(** *** Vocabulary of the further properties *)

Definition is_launch (e : Event) : bool :=
  match e with EvLaunch => true | _ => false end.

Definition is_close (e : Event) : bool :=
  match e with EvBrowserClose => true | _ => false end.

(** The events of a scraper: what happens inside one page. *)
Definition is_page_event (e : Event) : bool :=
  match e with
  | EvScrape _ _ _ _ | EvEnsureLogin | EvLoadCookies | EvSaveCookies
  | EvGoto _ => true
  | _ => false
  end.

(** What [ensureLogin] does to the session. *)
Definition is_session (e : Event) : bool :=
  match e with
  | EvEnsureLogin | EvLoadCookies | EvSaveCookies => true
  | _ => false
  end.

(** The events of a scraper that does not log in. *)
Definition is_visit (e : Event) : bool :=
  match e with EvScrape _ _ _ _ | EvGoto _ => true | _ => false end.

Definition is_goto (e : Event) : bool :=
  match e with EvGoto _ => true | _ => false end.

Definition is_save (e : Event) : bool :=
  match e with EvSaveCookies => true | _ => false end.

(** [m] only adds events that satisfy [q] to the trace. *)
Definition adds {A} (q : Event -> bool) (m : M A) : Prop :=
  forall w c w',
    m w = (c, w') ->
    exists evs, trace w' = (trace w ++ evs)%list /\ forallb q evs = true.

(** Browsers are launched and closed in turn: [Some b] when no browser is
    launched while another is open and none is closed that is not open,
    [b] telling whether the last one is still open. *)
Fixpoint alternates (open : bool) (evs : list Event) : option bool :=
  match evs with
  | [] => Some open
  | EvLaunch :: rest => if open then None else alternates true rest
  | EvBrowserClose :: rest => if open then alternates false rest else None
  | _ :: rest => alternates open rest
  end.

(** The address [scrapeProfilePosts] opens for a profile address. *)
Definition posts_url (u : string) : string :=
  if Str.test_ci "detail/recent-activity" u then u
  else Str.slash_end u ++ "detail/recent-activity/shares/".

(** The last path segment the company scrapers add. *)
Definition suffix_of (k : Kind) : string :=
  match k with
  | company_posts => "posts/"
  | jobs_company => "jobs/"
  | _ => ""
  end.

Definition starts_clean (s : string) : bool :=
  match s with
  | String c _ => negb (Str.is_space c)
  | EmptyString => true
  end.

Fixpoint ends_clean (s : string) : bool :=
  match s with
  | EmptyString => true
  | String c EmptyString => negb (Str.is_space c)
  | String _ s' => ends_clean s'
  end.

(** The ways a single-task request ends: without [url], without a
    browser, with the value its scraper returned, with what it threw. *)
Inductive Ending : Type :=
| NoUrl | NoBrowser (e : Exn) | Returned (v : JsVal) | Threw (e : Exn).

(** An item whose timestamp [dayjs] can read. *)
Definition dated {P : Platform} (it : PostItem) : Prop :=
  exists s p, timeRaw it = Some s /\ dayjs_parse s = Some p.

(* ------------------------------------------------------------------ *)
(** * Properties *)

Import Stub.

(** ** What a scraper leaves untouched *)

Create HintDb quiet.

Lemma same_server_refl w : same_server w w.
Proof.
  repeat split; try lia. exists []. rewrite app_nil_r. reflexivity.
Qed.

Lemma same_server_trans w1 w2 w3 :
  same_server w1 w2 -> same_server w2 w3 -> same_server w1 w3.
Proof.
  unfold same_server.
  intros (a & b & c & d & t & l1 & e) (a' & b' & c' & d' & t' & l2 & e').
  repeat split; try congruence; try lia.
  exists (l1 ++ l2)%list. rewrite e', e, app_assoc. reflexivity.
Qed.

Lemma quiet_ret A (a : A) : quiet (ret a).
Proof. intros w c w' H. inversion H. apply same_server_refl. Qed.

Lemma quiet_throw A e : quiet (@throw A e).
Proof. intros w c w' H. inversion H. apply same_server_refl. Qed.

Lemma quiet_bind A B (m : M A) (f : A -> M B) :
  quiet m -> (forall a, quiet (f a)) -> quiet (bind m f).
Proof.
  intros Hm Hf w c w' H. unfold bind in H.
  destruct (m w) as [[a | e] w1] eqn:E.
  - eapply same_server_trans; [eapply Hm; eassumption | eapply Hf; eassumption].
  - inversion H; subst. eapply Hm; eassumption.
Qed.

Lemma quiet_log e : quiet (log e).
Proof.
  intros w c w' H. inversion H. repeat split; simpl; try lia. eauto.
Qed.

Lemma quiet_elapse n : quiet (elapse n).
Proof.
  intros w c w' H. inversion H. repeat split; simpl; try lia.
  exists []. rewrite app_nil_r. reflexivity.
Qed.

Lemma quiet_clock : quiet clock.
Proof. intros w c w' H. inversion H. apply same_server_refl. Qed.

Lemma quiet_await r : quiet (await r).
Proof. destruct r; [apply quiet_throw | apply quiet_ret]. Qed.

Lemma quiet_if A (b : bool) (m1 m2 : M A) :
  quiet m1 -> quiet m2 -> quiet (if b then m1 else m2).
Proof. destruct b; auto. Qed.

#[local] Hint Resolve quiet_ret quiet_throw quiet_bind quiet_log quiet_elapse
  quiet_clock quiet_await quiet_if : quiet.

Section Frame.
Context {P : Platform} (O : Outside).

Lemma quiet_ensureLogin s : quiet (ensureLogin O s).
Proof.
  unfold ensureLogin, loadCookies, saveCookies.
  repeat (apply quiet_bind; [auto with quiet | intros _]).
  auto 10 with quiet.
Qed.

Lemma quiet_open_page s login : quiet (open_page O s login).
Proof.
  unfold open_page. apply quiet_bind; [auto with quiet | intros _].
  apply quiet_if; [apply quiet_ensureLogin | auto with quiet].
Qed.

Lemma quiet_page_goto s url : quiet (page_goto s url).
Proof. unfold page_goto. auto 10 with quiet. Qed.

Lemma quiet_iso_now : quiet iso_now.
Proof. unfold iso_now. auto with quiet. Qed.

Lemma quiet_replace_slash url : quiet (replace_slash url).
Proof. destruct url; simpl; auto with quiet. Qed.

#[local] Hint Resolve quiet_open_page quiet_page_goto quiet_iso_now
  quiet_replace_slash : quiet.

Lemma quiet_scrape_page s url login : quiet (scrape_page O s url login).
Proof. unfold scrape_page, autoScroll. auto 20 with quiet. Qed.

Lemma quiet_scrape_posts s url days item : quiet (scrape_posts s url days item).
Proof. unfold scrape_posts, autoScroll. auto 20 with quiet. Qed.

#[local] Hint Resolve quiet_scrape_page quiet_scrape_posts : quiet.

Lemma quiet_scrape k s url days login : quiet (scrape O k s url days login).
Proof.
  destruct k; simpl;
    unfold scrapeProfile, scrapeProfilePosts, scrapeCompany,
      scrapeCompanyPosts, scrapeCompanyJobs, autoScroll;
    auto 20 with quiet.
Qed.

End Frame.

#[local] Hint Resolve quiet_ensureLogin quiet_open_page quiet_page_goto
  quiet_iso_now quiet_replace_slash quiet_scrape_page quiet_scrape_posts
  quiet_scrape : quiet.

(** ** The throttle never fails and touches the clock only *)

Section Handlers.
Context {P : Platform} (O : Outside).

Lemma throttle_run w :
  exists w', throttle O w = (Normal tt, w')
             /\ res w' = res w /\ trace w' = trace w
             /\ launched w' = launched w /\ timers w' = S (timers w)
             /\ lastRun w' = now w'.
Proof.
  unfold throttle, bind, Math_random, clock, last_run, record_start, delay, ret.
  destruct (lt_wait _ _); [destruct (pick_wait _ _ _) |];
    eexists; split; try reflexivity; simpl; auto.
Qed.

Lemma after_throttle_eq w : throttle O w = (Normal tt, after_throttle O w).
Proof.
  unfold after_throttle. destruct (throttle_run w) as (w' & E & _).
  rewrite E. reflexivity.
Qed.

Lemma after_throttle_frame w :
  res (after_throttle O w) = res w /\ trace (after_throttle O w) = trace w
  /\ launched (after_throttle O w) = launched w
  /\ timers (after_throttle O w) = S (timers w).
Proof.
  unfold after_throttle. destruct (throttle_run w) as (w' & E & H).
  rewrite E. simpl. tauto.
Qed.

End Handlers.

(** A handler stops at a falsy [url]. *)
Lemma single_task_falsy {P : Platform} (O : Outside) k req w :
  truthy (query req "url") = false ->
  exists w',
    single_task O k req w = (Normal tt, w')
    /\ status (res w') = 400
    /\ sent (res w') = Some (JObj [("error", JStr (missing_url k))])
    /\ body (res w') =
         (body (res w)
          ++ [JSON_stringify (JObj [("error", JStr (missing_url k))])])%list
    /\ ended (res w') = true
    /\ launched w' = launched w
    /\ trace w' = trace w.
Proof.
  intros Hf.
  unfold single_task. unfold bind at 1. rewrite after_throttle_eq.
  rewrite Hf. simpl.
  destruct (after_throttle_frame O w) as (Hr & Ht & Hl & _).
  eexists. split; [reflexivity |]. simpl.
  rewrite Hr, Ht, Hl. repeat split; reflexivity.
Qed.

(** C5. A single-task request whose [url] query parameter is missing or
    empty (falsy) is answered with status 400 and the body
    [{error: "Missing ?url"}] ([{error: "Missing ?url (company page)"}] on
    [/jobs_company]); no browser is launched and nothing is added to the
    trace: no scraper call, no [ensureLogin], no cookie is read. *)
Theorem missing_url_400 {P : Platform} (O : Outside) (k : Kind)
    (req : Request) (w : World) :
  query req "url" = JUndefined \/ query req "url" = JStr "" ->
  exists w',
    single_task O k req w = (Normal tt, w')
    /\ status (res w') = 400
    /\ sent (res w') =
         Some (JObj [("error",
                      JStr (match k with
                            | jobs_company => "Missing ?url (company page)"
                            | _ => "Missing ?url"
                            end))])
    /\ body (res w') = (body (res w) ++ [JSON_stringify
         (JObj [("error",
                 JStr (match k with
                       | jobs_company => "Missing ?url (company page)"
                       | _ => "Missing ?url"
                       end))])])%list
    /\ ended (res w') = true
    /\ launched w' = launched w
    /\ trace w' = trace w.
Proof.
  intros Hurl.
  assert (Hf : truthy (query req "url") = false)
    by (destruct Hurl as [-> | ->]; reflexivity).
  destruct (single_task_falsy O k req w Hf) as (w' & E & H).
  exists w'. split; [exact E |]. destruct k; exact H.
Qed.

Lemma missing_url_400_witness :
  exists w',
    get_jobs_company (outside env_login (fun _ => ok_page))
      (request [("login", JStr "1")] JUndefined) (world 1000) = (Normal tt, w')
    /\ status (res w') = 400
    /\ sent (res w') = Some (JObj [("error", JStr "Missing ?url (company page)")])
    /\ launched w' = 0%nat /\ trace w' = [].
Proof.
  destruct (missing_url_400 (outside env_login (fun _ => ok_page)) jobs_company
              (request [("login", JStr "1")] JUndefined) (world 1000))
    as (w' & E & Hs & Hj & _ & _ & Hl & Ht).
  - left. reflexivity.
  - exists w'. repeat split; assumption.
Defined.

(** ** One scraper call inside a handler *)

Section Calls.
Context {P : Platform} (O : Outside).

Lemma createBrowser_run w :
  exists w1,
    createBrowser O w =
      (match launch (session O (launched w)) with
       | None => Normal (session O (launched w))
       | Some e => Throw e
       end, w1)
    /\ res w1 = res w /\ launched w1 = S (launched w)
    /\ timers w1 = timers w /\ lastRun w1 = lastRun w
    /\ trace w1 = (trace w ++ [EvLaunch])%list.
Proof.
  unfold createBrowser, bind, log, elapse, await, ret, throw. simpl.
  destruct (launch (session O (launched w)));
    eexists; split; try reflexivity; simpl; auto.
Qed.

Lemma browser_close_swallow s w :
  exists w', swallow (browser_close s) w = (Normal tt, w')
             /\ res w' = res w /\ launched w' = launched w
             /\ timers w' = timers w /\ lastRun w' = lastRun w
             /\ trace w' = (trace w ++ [EvBrowserClose])%list.
Proof.
  unfold swallow, try_catch, browser_close, bind, log, await, ret, throw.
  destruct (shutdown s); eexists; split; try reflexivity; simpl; auto.
Qed.

(** A handler whose scraper call returns answers with that value and
    leaves the status as it was. *)
Lemma single_task_returns k req w s w1 v w2 :
  truthy (query req "url") = true ->
  createBrowser O (after_throttle O w) = (Normal s, w1) ->
  scrape O k s (query req "url") (query_days req) (query_login O req) w1
    = (Normal v, w2) ->
  exists w',
    single_task O k req w = (Normal tt, w')
    /\ status (res w') = status (res w)
    /\ sent (res w') = Some v
    /\ body (res w') = (body (res w) ++ [JSON_stringify v])%list
    /\ ended (res w') = true
    /\ trace w' = (trace w2 ++ [EvBrowserClose])%list.
Proof.
  intros Hurl Hb Hs.
  unfold single_task. unfold bind at 1. rewrite after_throttle_eq.
  rewrite Hurl. simpl. unfold bind at 1. rewrite Hb.
  unfold try_finally, try_catch. unfold bind at 1. rewrite Hs.
  unfold res_json, with_res.
  match goal with |- context [swallow (browser_close s) ?x] =>
    destruct (browser_close_swallow s x) as (w' & E & Hr & _ & _ & _ & Ht) end.
  rewrite E. exists w'. split; [reflexivity |]. rewrite Hr, Ht. simpl.
  destruct (quiet_scrape O _ _ _ _ _ _ _ _ Hs) as (Hq & _).
  destruct (createBrowser_run (after_throttle O w)) as (w1' & Hb' & Hr1 & _).
  rewrite Hb in Hb'. inversion Hb'; subst w1'.
  destruct (after_throttle_frame O w) as (Hr0 & _).
  rewrite Hq, Hr1, Hr0. repeat split; reflexivity.
Qed.

(** A handler whose scraper call throws answers 500 with [String(e)]. *)
Lemma single_task_throws k req w s w1 e w2 :
  truthy (query req "url") = true ->
  createBrowser O (after_throttle O w) = (Normal s, w1) ->
  scrape O k s (query req "url") (query_days req) (query_login O req) w1
    = (Throw e, w2) ->
  exists w',
    single_task O k req w = (Normal tt, w')
    /\ status (res w') = 500
    /\ sent (res w') = Some (JObj [("error", JStr (String_of_exn e))])
    /\ body (res w') =
         (body (res w)
          ++ [JSON_stringify (JObj [("error", JStr (String_of_exn e))])])%list
    /\ ended (res w') = true
    /\ trace w' = (trace w2 ++ [EvConsoleError e; EvBrowserClose])%list.
Proof.
  intros Hurl Hb Hs.
  unfold single_task. unfold bind at 1. rewrite after_throttle_eq.
  rewrite Hurl. simpl. unfold bind at 1. rewrite Hb.
  unfold try_finally, try_catch. unfold bind at 1. rewrite Hs.
  unfold console_error, res_status, res_json, with_res, bind, log.
  match goal with |- context [swallow (browser_close s) ?x] =>
    destruct (browser_close_swallow s x) as (w' & E & Hr & _ & _ & _ & Ht) end.
  rewrite E. exists w'. split; [reflexivity |]. rewrite Hr, Ht. simpl.
  rewrite <- app_assoc. simpl.
  destruct (quiet_scrape O _ _ _ _ _ _ _ _ Hs) as (Hq & _).
  destruct (createBrowser_run (after_throttle O w)) as (w1' & Hb' & Hr1 & _).
  rewrite Hb in Hb'. inversion Hb'; subst w1'.
  destruct (after_throttle_frame O w) as (Hr0 & _).
  rewrite Hq, Hr1, Hr0. repeat split; reflexivity.
Qed.

End Calls.

(** ** Reading a run backwards *)

Lemma bind_normal A B (m : M A) (f : A -> M B) w b w' :
  bind m f w = (Normal b, w') ->
  exists a w1, m w = (Normal a, w1) /\ f a w1 = (Normal b, w').
Proof.
  unfold bind. destruct (m w) as [[a | e] w1]; intros H.
  - exists a, w1. auto.
  - discriminate.
Qed.

Lemma await_normal r w u w' :
  await r w = (Normal u, w') -> r = None /\ w' = w.
Proof. destruct r; simpl; unfold ret, throw; intros H; inversion H; auto. Qed.

Ltac peel H :=
  let a := fresh "a" in
  let w := fresh "w" in
  let E := fresh "E" in
  apply bind_normal in H; destruct H as (a & w & E & H).

Section Posts.
Context {P : Platform} (O : Outside).

Lemma time_of_nonempty t : time_of t <> Some "".
Proof.
  destruct t as [[[a |] i] |]; simpl; try discriminate.
  - destruct (a =? "")%string eqn:E.
    + destruct (i =? "")%string eqn:E'; [discriminate |].
      intros H; inversion H; subst. discriminate.
    + intros H; inversion H; subst. discriminate.
  - destruct (i =? "")%string eqn:E'; [discriminate |].
    intros H; inversion H; subst. discriminate.
Qed.

Lemma recent_retained cutoff it :
  timeRaw it <> Some "" ->
  recent cutoff it = true <-> retained cutoff it.
Proof.
  intros Hne. unfold recent, retained.
  destruct (timeRaw it) as [s |] eqn:Et; simpl.
  - destruct (s =? "")%string eqn:Es.
    + apply String.eqb_eq in Es. subst. contradiction.
    + simpl. destruct (dayjs_parse s) as [p |] eqn:Ep.
      * unfold isAfter. destruct cutoff as [c |].
        -- rewrite Z.ltb_lt. split.
           ++ intros H. right. right. exists s, p, c. auto.
           ++ intros [H | [(s' & H & H') | (s' & p' & c' & H1 & H2 & H3 & H4)]];
                try discriminate.
              ** inversion H; subst. congruence.
              ** inversion H1; subst. rewrite Ep in H2.
                 inversion H2; inversion H3; subst. assumption.
        -- split; [discriminate |].
           intros [H | [(s' & H & H') | (s' & p' & c' & H1 & H2 & H3 & H4)]];
             try discriminate.
           inversion H; subst. congruence.
      * split; [| reflexivity]. intros _. right. left. exists s. auto.
  - split; [| reflexivity]. intros _. left. reflexivity.
Qed.

Lemma item_of_nonempty k n : timeRaw (item_of k n) <> Some "".
Proof. destruct k; simpl; apply time_of_nonempty. Qed.

Lemma scrape_posts_items s url days item w v w' :
  scrape_posts s url days item w = (Normal v, w') ->
  exists t, now w <= t <= now w'
    /\ get v "items" =
         Some (JArr (map js_of_item
                       (filter (recent (dayjs_subtract_day t days))
                          (map item (nodes s))))).
Proof.
  unfold scrape_posts, autoScroll, iso_now. intros H.
  peel H. apply (quiet_page_goto s url) in E. destruct E as (_ & _ & _ & _ & T1 & _).
  peel H. apply await_normal in E as (_ & ->).
  peel H. inversion E; subst.
  peel H. apply await_normal in E0 as (_ & ->).
  peel H. inversion E0; subst. simpl in *.
  peel H. apply await_normal in E1 as (_ & ->).
  peel H. peel E1. inversion E1; subst. inversion E2; subst.
  inversion H; subst. simpl.
  exists (now w1). split; [lia | reflexivity].
Qed.

End Posts.

(** C3. The items a posts scraper returns are exactly the scraped items
    that have no timestamp, or whose timestamp does not parse, or whose
    parsed timestamp is strictly after the cutoff (the instant [days] days
    before the time [t] at which the scraper reads the clock); an item
    with a parseable timestamp at or before the cutoff is never returned. *)
Theorem posts_within_days {P : Platform} (O : Outside) (k : Kind)
    (s : Session) (url days : JsVal) (login : bool) (w : World)
    (v : JsVal) (w' : World) :
  k = profile_posts \/ k = company_posts ->
  scrape O k s url days login w = (Normal v, w') ->
  exists t kept,
    now w <= t <= now w'
    /\ get v "items" = Some (JArr (map js_of_item kept))
    /\ (forall it,
          In it kept <->
          In it (map (item_of k) (nodes s))
          /\ retained (dayjs_subtract_day t (days_or_default days)) it)
    /\ (forall it ts parsed cutoff,
          In it kept ->
          timeRaw it = Some ts ->
          dayjs_parse ts = Some parsed ->
          dayjs_subtract_day t (days_or_default days) = Some cutoff ->
          ~ parsed <= cutoff).
Proof.
  intros Hk H.
  assert (Hitems : exists t, now w <= t <= now w'
            /\ get v "items" =
               Some (JArr (map js_of_item
                  (filter (recent (dayjs_subtract_day t (days_or_default days)))
                     (map (item_of k) (nodes s)))))).
  { destruct Hk; subst k; simpl in H;
      unfold scrapeProfilePosts, scrapeCompanyPosts in H.
    - peel H. apply quiet_log in E. destruct E as (_ & _ & _ & _ & T0 & _).
      peel H. apply quiet_open_page in E. destruct E as (_ & _ & _ & _ & T1 & _).
      peel H.
      assert (T2 : same_server w1 w2).
      { revert E. match goal with |- ?m w1 = _ -> _ =>
          assert (Q : quiet m) by auto 10 with quiet end.
        apply Q. }
      destruct T2 as (_ & _ & _ & _ & T2 & _).
      apply scrape_posts_items in H. destruct H as (t & Ht & Hg).
      exists t. split; [lia | exact Hg].
    - peel H. apply quiet_log in E. destruct E as (_ & _ & _ & _ & T0 & _).
      peel H. apply quiet_open_page in E. destruct E as (_ & _ & _ & _ & T1 & _).
      peel H. apply quiet_replace_slash in E. destruct E as (_ & _ & _ & _ & T2 & _).
      apply scrape_posts_items in H. destruct H as (t & Ht & Hg).
      exists t. split; [lia | exact Hg]. }
  destruct Hitems as (t & Ht & Hg).
  exists t. eexists. split; [exact Ht |]. split; [exact Hg |].
  assert (Hiff : forall it,
    In it (filter (recent (dayjs_subtract_day t (days_or_default days)))
             (map (item_of k) (nodes s))) <->
    In it (map (item_of k) (nodes s))
    /\ retained (dayjs_subtract_day t (days_or_default days)) it).
  { intros it. rewrite filter_In. split; intros (Hin & Hr); split; auto.
    - apply recent_retained; auto.
      apply in_map_iff in Hin. destruct Hin as (n & <- & _).
      apply item_of_nonempty.
    - apply recent_retained; auto.
      apply in_map_iff in Hin. destruct Hin as (n & <- & _).
      apply item_of_nonempty. }
  split; [exact Hiff |].
  intros it ts parsed cutoff Hin Hts Hp Hc.
  apply Hiff in Hin. destruct Hin as (_ & [Hn | [(s' & Hs' & Hn) | (s' & p & c & H1 & H2 & H3 & H4)]]).
  - congruence.
  - rewrite Hts in Hs'. inversion Hs'; subst. congruence.
  - rewrite Hts in H1. inversion H1; subst. rewrite Hp in H2.
    inversion H2; subst. rewrite Hc in H3. inversion H3; subst. lia.
Qed.

Lemma posts_within_days_witness :
  exists v t kept,
    fst (scrapeCompanyPosts (outside no_env (fun _ => ok_page)) ok_page
           (JStr "https://x/in/a") (JNum 30) false (world 1000000000000))
      = Normal v
    /\ get v "items" = Some (JArr (map js_of_item kept))
    /\ (forall it,
          In it kept <->
          In it (map company_post_item (nodes ok_page))
          /\ retained (dayjs_subtract_day t (JNum 30)) it).
Proof.
  eassert (E : scrape (outside no_env (fun _ => ok_page)) company_posts ok_page
                 (JStr "https://x/in/a") (JNum 30) false (world 1000000000000)
               = (Normal _, _)) by (vm_compute; reflexivity).
  destruct (posts_within_days _ _ _ _ _ _ _ _ _ (or_intror eq_refl) E)
    as (t & kept & _ & Hg & Hiff & _).
  eexists. exists t, kept. split; [vm_compute; reflexivity |].
  split; [exact Hg | exact Hiff].
Defined.

(** ** Jobs *)

Lemma scrapeCompanyJobs_jobs {P : Platform} (O : Outside) s url login w v w' :
  scrapeCompanyJobs O s url login w = (Normal v, w') ->
  get v "jobs" = Some (JArr (jobs_of_cards (cards s))).
Proof.
  unfold scrapeCompanyJobs, autoScroll, iso_now. intros H.
  do 9 peel H. peel E7. inversion E8; subst. inversion H; subst. reflexivity.
Qed.

Lemma jobs_of_cards_length cards : (List.length (jobs_of_cards cards) <= 50)%nat.
Proof.
  unfold jobs_of_cards. rewrite List.length_map. apply firstn_le_length.
Qed.

(** C9. The [jobs] array [scrapeCompanyJobs] returns is the image of the
    first fifty job cards of the page, so it has at most fifty entries; the
    same holds of any [jobs] array in the answer of [GET /jobs_company]. *)
Theorem jobs_at_most_50 {P : Platform} (O : Outside) :
  (forall s url login w v w',
      scrapeCompanyJobs O s url login w = (Normal v, w') ->
      exists jobs,
        get v "jobs" = Some (JArr jobs)
        /\ jobs = map job_of_card (firstn 50 (cards s))
        /\ (List.length jobs <= 50)%nat)
  /\ (forall req w c w' v jobs,
         sent (res w) = None ->
         get_jobs_company O req w = (c, w') ->
         sent (res w') = Some v ->
         get v "jobs" = Some (JArr jobs) ->
         jobs = map job_of_card (firstn 50 (cards (session O (launched w))))
         /\ (List.length jobs <= 50)%nat).
Proof.
  split.
  - intros s url login w v w' H. eexists. split.
    + eapply scrapeCompanyJobs_jobs; eassumption.
    + split; [reflexivity | apply jobs_of_cards_length].
  - intros req w c w' v jobs Hnone Hrun Hsent Hget.
    unfold get_jobs_company in Hrun.
    destruct (truthy (query req "url")) eqn:Hurl.
    + destruct (createBrowser_run O (after_throttle O w)) as (w1 & Hb & Hr1 & _).
      destruct (after_throttle_frame O w) as (Hr0 & _ & Hl0 & _).
      rewrite Hl0 in Hb.
      destruct (launch (session O (launched w))) as [e |] eqn:El.
      * unfold single_task in Hrun. unfold bind at 1 in Hrun.
        rewrite after_throttle_eq, Hurl in Hrun. simpl in Hrun.
        unfold bind at 1 in Hrun. rewrite Hb in Hrun. inversion Hrun; subst.
        rewrite Hr1, Hr0 in Hsent. congruence.
      * destruct (scrape O jobs_company (session O (launched w))
                    (query req "url") (query_days req) (query_login O req) w1)
          as [[r | e] w2] eqn:Es.
        -- destruct (single_task_returns O _ _ _ _ _ _ _ Hurl Hb Es)
             as (wf & Hf & _ & Hs & _).
           rewrite Hf in Hrun. inversion Hrun; subst.
           rewrite Hs in Hsent. inversion Hsent; subst.
           simpl in Es. apply scrapeCompanyJobs_jobs in Es.
           rewrite Es in Hget. inversion Hget; subst.
           split; [reflexivity | apply jobs_of_cards_length].
        -- destruct (single_task_throws O _ _ _ _ _ _ _ Hurl Hb Es)
             as (wf & Hf & _ & Hs & _).
           rewrite Hf in Hrun. inversion Hrun; subst.
           rewrite Hs in Hsent. inversion Hsent; subst. discriminate.
    + destruct (single_task_falsy O jobs_company req w Hurl)
        as (wf & Hf & _ & Hs & _).
      unfold single_task in Hrun, Hf. rewrite Hf in Hrun. inversion Hrun; subst.
      rewrite Hs in Hsent. inversion Hsent; subst. discriminate.
Qed.

Lemma jobs_at_most_50_witness :
  exists v jobs,
    fst (scrapeCompanyJobs (outside no_env (fun _ => ok_page)) ok_page
           (JStr "https://x/company/acme") false (world 1000)) = Normal v
    /\ List.length (cards ok_page) = 60%nat
    /\ get v "jobs" = Some (JArr jobs)
    /\ jobs = map job_of_card (firstn 50 (cards ok_page))
    /\ (List.length jobs <= 50)%nat.
Proof.
  eassert (E : scrapeCompanyJobs (outside no_env (fun _ => ok_page)) ok_page
                 (JStr "https://x/company/acme") false (world 1000)
               = (Normal _, _)) by (vm_compute; reflexivity).
  destruct (proj1 (jobs_at_most_50 _) _ _ _ _ _ _ E) as (jobs & Hg & Hj & Hl).
  eexists. exists jobs. split; [vm_compute; reflexivity |].
  split; [reflexivity |]. split; [exact Hg |]. split; [exact Hj | exact Hl].
Defined.

(** ** One iteration of the queue *)

Section Queue.
Context {P : Platform} (O : Outside).

Lemma prop_field t k : nullish t = false -> prop t k = ret (field t k).
Proof. unfold prop, field. destruct t; simpl; try discriminate; reflexivity. Qed.

Lemma written_nil r : written r [] = r.
Proof. unfold written. rewrite app_nil_r. destruct r; reflexivity. Qed.

Lemma written_app r l1 l2 : written (written r l1) l2 = written r (l1 ++ l2).
Proof. unfold written. simpl. rewrite app_assoc. reflexivity. Qed.

(** Every scraper returns an object. *)
Lemma scrape_returns_object k s url days login w v w' :
  scrape O k s url days login w = (Normal v, w') -> exists fs, v = JObj fs.
Proof.
  destruct k; simpl;
    unfold scrapeProfile, scrapeProfilePosts, scrapeCompany,
      scrapeCompanyPosts, scrapeCompanyJobs, scrape_page, scrape_posts,
      autoScroll, iso_now, captcha_sentinel; intros H.
  - repeat peel H. destruct (looksLikeCaptcha _ _).
    + inversion H; eauto.
    + repeat peel H. inversion H; eauto.
  - repeat peel H. inversion H; eauto.
  - repeat peel H. destruct (looksLikeCaptcha _ _).
    + inversion H; eauto.
    + repeat peel H. inversion H; eauto.
  - repeat peel H. inversion H; eauto.
  - repeat peel H. inversion H; eauto.
Qed.

(** Up to the scraper call: the throttle, [t.login], the browser. *)
Lemma queue_task_launch w :
  launch (session O (launched w)) = None ->
  exists w1,
    createBrowser O (after_throttle O w) = (Normal (session O (launched w)), w1)
    /\ res w1 = res w /\ launched w1 = S (launched w)
    /\ trace w1 = (trace w ++ [EvLaunch])%list.
Proof.
  intros Hl.
  destruct (createBrowser_run O (after_throttle O w))
    as (w1 & Hb & Hr & Hla & _ & _ & Ht).
  destruct (after_throttle_frame O w) as (Hr0 & Ht0 & Hl0 & _).
  rewrite Hl0, Hl in Hb. exists w1. rewrite Hb.
  repeat split; congruence.
Qed.

Lemma dispatch_known t k s login :
  nullish t = false ->
  kind_of (field t "type") = Some k ->
  dispatch O t (field t "type") s login =
  scrape O k s (field t "url") (days_arg k t) login.
Proof.
  intros Hn Hk. unfold dispatch. rewrite Hk, !(prop_field _ _ Hn).
  destruct k; reflexivity.
Qed.

Lemma dispatch_unknown t s login :
  nullish t = false ->
  kind_of (field t "type") = None ->
  dispatch O t (field t "type") s login = ret (unknown_type t).
Proof.
  intros Hn Hk. unfold dispatch. rewrite Hk, !(prop_field _ _ Hn).
  reflexivity.
Qed.

Ltac enter_task Hn Hb :=
  unfold queue_task; unfold bind at 1; rewrite after_throttle_eq;
  rewrite !(prop_field _ _ Hn);
  unfold bind at 1; unfold ret at 1;
  unfold bind at 1; rewrite Hb;
  unfold try_finally, try_catch;
  unfold bind at 1; unfold ret at 1.

(** A task of unknown type. *)
Lemma queue_task_unknown stream t w :
  nullish t = false ->
  launch (session O (launched w)) = None ->
  kind_of (field t "type") = None ->
  exists w',
    queue_task O stream t w = (Normal (ok_envelope t (unknown_type t)), w')
    /\ res w' = streamed stream (res w) (ok_envelope t (unknown_type t))
    /\ launched w' = S (launched w)
    /\ trace w' = (trace w ++ [EvLaunch; EvBrowserClose])%list.
Proof.
  intros Hn Hl Hk.
  destruct (queue_task_launch w Hl) as (w1 & Hb & Hr1 & Hl1 & Ht1).
  enter_task Hn Hb. rewrite (dispatch_unknown _ _ _ Hn Hk).
  destruct stream; simpl;
    match goal with |- context [swallow (browser_close ?s) ?x] =>
      destruct (browser_close_swallow s x) as (w' & E & Hr & Hla & _ & _ & Ht) end;
    rewrite E; exists w'; (split; [reflexivity |]);
    rewrite Hr, Hla, Ht; simpl; rewrite ?Hr1, Hl1, Ht1;
    rewrite <- app_assoc; repeat split.
Qed.

(** A task whose scraper returns. *)
Lemma queue_task_returns stream t w k w1 out w2 :
  nullish t = false ->
  kind_of (field t "type") = Some k ->
  createBrowser O (after_throttle O w) = (Normal (session O (launched w)), w1) ->
  scrape O k (session O (launched w)) (field t "url") (days_arg k t)
    (task_login O (field t "login")) w1 = (Normal out, w2) ->
  exists w',
    queue_task O stream t w = (Normal (ok_envelope t out), w')
    /\ res w' = streamed stream (res w) (ok_envelope t out)
    /\ launched w' = S (launched w)
    /\ trace w' = (trace w2 ++ [EvBrowserClose])%list.
Proof.
  intros Hn Hk Hb Hs.
  destruct (createBrowser_run O (after_throttle O w))
    as (w1' & Hb' & Hr1 & Hl1 & _).
  rewrite Hb in Hb'. inversion Hb' as [[Hlaunch E1]]. subst w1'. clear Hb'.
  destruct (after_throttle_frame O w) as (Hr0 & _ & Hl0 & _).
  destruct (quiet_scrape O _ _ _ _ _ _ _ _ Hs) as (Hr2 & Hl2 & _).
  destruct (scrape_returns_object _ _ _ _ _ _ _ _ Hs) as (fs & ->).
  enter_task Hn Hb. rewrite (dispatch_known _ _ _ _ Hn Hk).
  unfold bind at 1. rewrite Hs.
  destruct stream; simpl;
    match goal with |- context [swallow (browser_close ?s) ?x] =>
      destruct (browser_close_swallow s x) as (w' & E & Hr & Hla & _ & _ & Ht) end;
    rewrite E; exists w'; (split; [reflexivity |]);
    rewrite Hr, Hla, Ht; simpl; rewrite ?Hr2, ?Hl2, ?Hr1, ?Hl1, ?Hr0, ?Hl0;
    repeat split.
Qed.

(** A task whose scraper throws. *)
Lemma queue_task_throws stream t w k w1 e w2 :
  nullish t = false ->
  kind_of (field t "type") = Some k ->
  createBrowser O (after_throttle O w) = (Normal (session O (launched w)), w1) ->
  scrape O k (session O (launched w)) (field t "url") (days_arg k t)
    (task_login O (field t "login")) w1 = (Throw e, w2) ->
  exists w',
    queue_task O stream t w = (Normal (error_envelope t e), w')
    /\ res w' = streamed stream (res w) (error_envelope t e)
    /\ launched w' = S (launched w)
    /\ trace w' = (trace w2 ++ [EvBrowserClose])%list.
Proof.
  intros Hn Hk Hb Hs.
  destruct (createBrowser_run O (after_throttle O w))
    as (w1' & Hb' & Hr1 & Hl1 & _).
  rewrite Hb in Hb'. inversion Hb' as [[Hlaunch E1]]. subst w1'. clear Hb'.
  destruct (after_throttle_frame O w) as (Hr0 & _ & Hl0 & _).
  destruct (quiet_scrape O _ _ _ _ _ _ _ _ Hs) as (Hr2 & Hl2 & _).
  enter_task Hn Hb. rewrite (dispatch_known _ _ _ _ Hn Hk).
  unfold bind at 1. rewrite Hs.
  destruct stream; simpl;
    match goal with |- context [swallow (browser_close ?s) ?x] =>
      destruct (browser_close_swallow s x) as (w' & E & Hr & Hla & _ & _ & Ht) end;
    rewrite E; exists w'; (split; [reflexivity |]);
    rewrite Hr, Hla, Ht; simpl; rewrite ?Hr2, ?Hl2, ?Hr1, ?Hl1, ?Hr0, ?Hl0;
    repeat split.
Qed.

(** With a browser, an iteration always completes with an envelope of its
    task, and writes it as one line when streaming. *)
Lemma queue_task_completes stream t w :
  nullish t = false ->
  launch (session O (launched w)) = None ->
  exists v w',
    queue_task O stream t w = (Normal v, w')
    /\ is_envelope t v
    /\ res w' = streamed stream (res w) v
    /\ launched w' = S (launched w).
Proof.
  intros Hn Hl.
  destruct (queue_task_launch w Hl) as (w1 & Hb & _).
  destruct (kind_of (field t "type")) as [k |] eqn:Hk.
  - destruct (scrape O k (session O (launched w)) (field t "url") (days_arg k t)
                (task_login O (field t "login")) w1) as [[out | e] w2] eqn:Hs.
    + destruct (queue_task_returns stream _ _ _ _ _ _ Hn Hk Hb Hs)
        as (w' & E & Hr & Hla & _).
      exists (ok_envelope t out), w'. repeat split; auto. left. eauto.
    + destruct (queue_task_throws stream _ _ _ _ _ _ Hn Hk Hb Hs)
        as (w' & E & Hr & Hla & _).
      exists (error_envelope t e), w'. repeat split; auto. right. eauto.
  - destruct (queue_task_unknown stream _ _ Hn Hl Hk) as (w' & E & Hr & Hla & _).
    exists (ok_envelope t (unknown_type t)), w'. repeat split; auto. left. eauto.
Qed.

End Queue.

(** ** Tasks of unknown type *)

Lemma strict_eq_str_true v s : strict_eq_str v s = true -> v = JStr s.
Proof.
  destruct v; simpl; try discriminate.
  intros H. apply String.eqb_eq in H. congruence.
Qed.

Lemma kind_of_none ty :
  ty <> JStr "profile" -> ty <> JStr "profile_posts" ->
  ty <> JStr "company" -> ty <> JStr "company_posts" ->
  ty <> JStr "jobs_company" ->
  kind_of ty = None.
Proof.
  intros H1 H2 H3 H4 H5. unfold kind_of.
  repeat match goal with
         | |- context [strict_eq_str ty ?s] =>
             let E := fresh "E" in
             destruct (strict_eq_str ty s) eqn:E;
             [apply strict_eq_str_true in E; contradiction |]
         end.
  reflexivity.
Qed.

Lemma get_field t k v : get t k = Some v -> field t k = v /\ nullish t = false.
Proof.
  unfold field. intros H. rewrite H. split; [reflexivity |].
  destruct t; simpl in *; try discriminate; reflexivity.
Qed.

Lemma scrapes_app tr evs :
  scrapes (tr ++ evs) = (scrapes tr ++ scrapes evs)%list.
Proof. apply filter_app. Qed.

(** An iteration that stops before the browser is there calls no scraper. *)
Lemma queue_task_early {P : Platform} (O : Outside) stream t w c w' :
  nullish t = true \/ launch (session O (launched w)) <> None ->
  queue_task O stream t w = (c, w') ->
  res w' = res w /\ scrapes (trace w') = scrapes (trace w)
  /\ exists e, c = Throw e.
Proof.
  intros Hearly H.
  destruct (after_throttle_frame O w) as (Hr0 & Ht0 & Hl0 & _).
  unfold queue_task in H. unfold bind at 1 in H.
  rewrite after_throttle_eq in H.
  destruct (nullish t) eqn:Hn.
  - unfold bind at 1 in H.
    assert (Hp : prop t "login" (after_throttle O w)
                 = (Throw (TypeError ("Cannot read properties of " ++ ToString t
                        ++ " (reading '" ++ "login" ++ "')")),
                    after_throttle O w)).
    { unfold prop. destruct t; simpl in *; try discriminate; reflexivity. }
    rewrite Hp in H. inversion H; subst.
    rewrite Hr0, Ht0. eauto.
  - destruct Hearly as [? | Hl]; [discriminate |].
    rewrite (prop_field _ _ Hn) in H.
    unfold bind at 1 in H. unfold ret at 1 in H. unfold bind at 1 in H.
    destruct (createBrowser_run O (after_throttle O w))
      as (w1 & Hb & Hr1 & _ & _ & _ & Ht1).
    rewrite Hl0 in Hb.
    destruct (launch (session O (launched w))) as [e |]; [| contradiction].
    rewrite Hb in H. inversion H; subst.
    rewrite Hr1, Hr0, Ht1, Ht0, scrapes_app. simpl.
    rewrite app_nil_r. eauto.
Qed.

(** C1 (as the code has it). A queue task whose [type] is none of the five
    known ones never reaches a scraper. With a browser, its envelope is
    [{ok: true, type, url, result: {error: "unknown_type", type, url}}]:
    the marker sits in the result and the envelope is a success; when
    streaming, that envelope is the line written. *)
Theorem unknown_type_envelope {P : Platform} (O : Outside) (stream : bool)
    (t ty : JsVal) (w : World) :
  get t "type" = Some ty ->
  ty <> JStr "profile" -> ty <> JStr "profile_posts" ->
  ty <> JStr "company" -> ty <> JStr "company_posts" ->
  ty <> JStr "jobs_company" ->
  (forall c w',
      queue_task O stream t w = (c, w') ->
      scrapes (trace w') = scrapes (trace w))
  /\ (launch (session O (launched w)) = None ->
      exists w',
        let v := JObj [("ok", JBool true); ("type", ty); ("url", field t "url");
                       ("result",
                        JObj [("error", JStr "unknown_type"); ("type", ty);
                              ("url", field t "url")])] in
        queue_task O stream t w = (Normal v, w')
        /\ res w' = (if stream then written (res w) [ndjson v] else res w)).
Proof.
  intros Hty H1 H2 H3 H4 H5.
  destruct (get_field _ _ _ Hty) as (Hf & Hn).
  assert (Hk : kind_of (field t "type") = None)
    by (rewrite Hf; apply kind_of_none; assumption).
  assert (Hrun : launch (session O (launched w)) = None ->
            exists w', queue_task O stream t w
                       = (Normal (ok_envelope t (unknown_type t)), w')
              /\ res w' = streamed stream (res w) (ok_envelope t (unknown_type t))
              /\ trace w' = (trace w ++ [EvLaunch; EvBrowserClose])%list).
  { intros Hl.
    destruct (queue_task_unknown O stream t w Hn Hl Hk) as (w' & E & Hr & _ & Ht).
    eauto. }
  split.
  - intros c w' Hq.
    destruct (launch (session O (launched w))) as [e |] eqn:Hl.
    + eapply queue_task_early; [| exact Hq]. right. congruence.
    + destruct (Hrun eq_refl) as (w'' & E & _ & Ht).
      rewrite E in Hq. inversion Hq; subst.
      rewrite Ht, scrapes_app. simpl. apply app_nil_r.
  - intros Hl. destruct (Hrun Hl) as (w' & E & Hr & _).
    exists w'. unfold ok_envelope, unknown_type, streamed in *.
    rewrite Hf in *. simpl. split; assumption.
Qed.

Lemma unknown_type_envelope_witness :
  exists w',
    queue_task (outside no_env (fun _ => ok_page)) true (task "foo" "u")
      (world 1000)
    = (Normal (JObj [("ok", JBool true); ("type", JStr "foo"); ("url", JStr "u");
                     ("result",
                      JObj [("error", JStr "unknown_type"); ("type", JStr "foo");
                            ("url", JStr "u")])]), w')
    /\ scrapes (trace w') = [].
Proof.
  destruct (unknown_type_envelope (outside no_env (fun _ => ok_page)) true
              (task "foo" "u") (JStr "foo") (world 1000) eq_refl)
    as (Hno & Hrun); try discriminate.
  destruct (Hrun eq_refl) as (w' & E & _).
  exists w'. split; [exact E |]. exact (Hno _ _ E).
Defined.

(** C1, as stated, fails: the envelope of an unknown type has [ok: true]
    and no [error] member. *)
Lemma unknown_type_is_not_a_failure :
  exists v w',
    queue_task (outside no_env (fun _ => ok_page)) true (task "foo" "u")
      (world 1000) = (Normal v, w')
    /\ body (res w') = [ndjson v]
    /\ get v "ok" = Some (JBool true)
    /\ get v "error" = Some JUndefined
    /\ ~ (get v "ok" = Some (JBool false)
          /\ get v "error" = Some (JStr "unknown_type")).
Proof.
  eexists. eexists. split; [vm_compute; reflexivity |].
  split; [reflexivity |]. split; [reflexivity |]. split; [reflexivity |].
  intros (H & _). discriminate.
Qed.

(** ** Failures of the scraper stay inside the task *)

(** C6. An exception thrown by a scraper call never leaves the task. A
    single-task handler completes normally and answers 500 with
    [{error: String(e)}]; an iteration of [POST /queue] completes normally
    with the envelope [{ok: false, type, url, error: String(e)}] (written
    as a line when streaming) and the loop goes on with the next task. *)
Theorem scraper_failure_contained {P : Platform} (O : Outside) (e : Exn) :
  (forall k req w w1 w2,
      truthy (query req "url") = true ->
      createBrowser O (after_throttle O w)
        = (Normal (session O (launched w)), w1) ->
      scrape O k (session O (launched w)) (query req "url") (query_days req)
        (query_login O req) w1 = (Throw e, w2) ->
      exists w',
        single_task O k req w = (Normal tt, w')
        /\ status (res w') = 500
        /\ sent (res w') = Some (JObj [("error", JStr (String_of_exn e))]))
  /\ (forall stream t rest k w w1 w2,
         nullish t = false ->
         kind_of (field t "type") = Some k ->
         createBrowser O (after_throttle O w)
           = (Normal (session O (launched w)), w1) ->
         scrape O k (session O (launched w)) (field t "url") (days_arg k t)
           (task_login O (field t "login")) w1 = (Throw e, w2) ->
         exists w',
           let v := JObj [("ok", JBool false); ("type", field t "type");
                          ("url", field t "url");
                          ("error", JStr (String_of_exn e))] in
           queue_task O stream t w = (Normal v, w')
           /\ res w' = (if stream then written (res w) [ndjson v] else res w)
           /\ queue_loop O stream (t :: rest) w = queue_loop O stream rest w').
Proof.
  split.
  - intros k req w w1 w2 Hurl Hb Hs.
    destruct (single_task_throws O _ _ _ _ _ _ _ Hurl Hb Hs)
      as (w' & E & Hst & Hsent & _).
    eauto.
  - intros stream t rest k w w1 w2 Hn Hk Hb Hs.
    destruct (queue_task_throws O stream _ _ _ _ _ _ Hn Hk Hb Hs)
      as (w' & E & Hr & _).
    exists w'. simpl. split; [exact E |]. split; [exact Hr |].
    simpl. unfold bind at 1. rewrite E. reflexivity.
Qed.

Lemma scraper_failure_contained_witness :
  (exists w',
      get_company (outside no_env (fun _ => timeout_page))
        (request [("url", JStr "u")] JUndefined) (world 1000) = (Normal tt, w')
      /\ status (res w') = 500
      /\ sent (res w') =
           Some (JObj [("error",
             JStr "TimeoutError: Navigation timeout of 60000 ms exceeded")]))
  /\ (exists w',
         queue_task (outside no_env (fun _ => timeout_page)) true
           (task "company" "u") (world 1000)
         = (Normal (JObj [("ok", JBool false); ("type", JStr "company");
                          ("url", JStr "u");
                          ("error",
             JStr "TimeoutError: Navigation timeout of 60000 ms exceeded")]), w')
         /\ queue_loop (outside no_env (fun _ => timeout_page)) true
              [task "company" "u"; task "foo" "v"] (world 1000)
            = queue_loop (outside no_env (fun _ => timeout_page)) true
                [task "foo" "v"] w').
Proof.
  pose proof (scraper_failure_contained (outside no_env (fun _ => timeout_page))
                {| exn_name := "TimeoutError";
                   exn_message := "Navigation timeout of 60000 ms exceeded" |})
    as (Hsingle & Hqueue).
  split.
  - edestruct (Hsingle company (request [("url", JStr "u")] JUndefined)
                 (world 1000)) as (w' & E & Hst & Hse);
      [reflexivity | vm_compute; reflexivity | vm_compute; reflexivity |].
    exists w'. repeat split; assumption.
  - edestruct (Hqueue true (task "company" "u") [task "foo" "v"] company
                 (world 1000)) as (w' & E & _ & Hloop);
      [reflexivity | reflexivity | vm_compute; reflexivity
      | vm_compute; reflexivity |].
    exists w'. split; [exact E | exact Hloop].
Defined.

(** ** The challenge sentinel *)

(** C7. When [scrapeProfile] or [scrapeCompany] reaches its check and
    [looksLikeCaptcha] holds of the page, it returns
    [{error: "captcha_or_challenge", url: page.url()}] and does not throw.
    A single-task handler serves a sentinel its scraper returns as the body
    of a normal answer, the status left at 200; [POST /queue] wraps it in
    an envelope whose [ok] is [true]. *)
Theorem captcha_is_a_payload {P : Platform} (O : Outside) :
  (forall k s url days login w w1,
      k = profile \/ k = company ->
      (log (EvScrape k url JUndefined login) ;;
       open_page O s login ;; page_goto s url) w = (Normal tt, w1) ->
      looksLikeCaptcha (page_url s) (content s) = true ->
      scrape O k s url days login w
      = (Normal (JObj [("error", JStr "captcha_or_challenge");
                       ("url", JStr (page_url s))]), w1))
  /\ (forall k req w w1 w2 sentinel,
         sentinel = JObj [("error", JStr "captcha_or_challenge");
                          ("url", JStr (page_url (session O (launched w))))] ->
         truthy (query req "url") = true ->
         status (res w) = 200 ->
         createBrowser O (after_throttle O w)
           = (Normal (session O (launched w)), w1) ->
         scrape O k (session O (launched w)) (query req "url") (query_days req)
           (query_login O req) w1 = (Normal sentinel, w2) ->
         exists w',
           single_task O k req w = (Normal tt, w')
           /\ status (res w') = 200
           /\ sent (res w') = Some sentinel)
  /\ (forall stream t k w w1 w2 sentinel,
         sentinel = JObj [("error", JStr "captcha_or_challenge");
                          ("url", JStr (page_url (session O (launched w))))] ->
         nullish t = false ->
         kind_of (field t "type") = Some k ->
         createBrowser O (after_throttle O w)
           = (Normal (session O (launched w)), w1) ->
         scrape O k (session O (launched w)) (field t "url") (days_arg k t)
           (task_login O (field t "login")) w1 = (Normal sentinel, w2) ->
         exists w',
           let v := JObj [("ok", JBool true); ("type", field t "type");
                          ("url", field t "url"); ("result", sentinel)] in
           queue_task O stream t w = (Normal v, w')
           /\ res w' = (if stream then written (res w) [ndjson v] else res w)).
Proof.
  split; [| split].
  - intros k s url days login w w1 Hk Hreach Hcap.
    peel Hreach. peel Hreach.
    destruct Hk; subst k; simpl;
      unfold scrapeProfile, scrapeCompany, scrape_page;
      unfold bind at 1; rewrite E;
      unfold bind at 1; rewrite E0;
      unfold bind at 1; rewrite Hreach;
      rewrite Hcap; reflexivity.
  - intros k req w w1 w2 sentinel -> Hurl Hst Hb Hs.
    destruct (single_task_returns O _ _ _ _ _ _ _ Hurl Hb Hs)
      as (w' & E & Hst' & Hsent & _).
    exists w'. repeat split; congruence.
  - intros stream t k w w1 w2 sentinel -> Hn Hk Hb Hs.
    destruct (queue_task_returns O stream _ _ _ _ _ _ Hn Hk Hb Hs)
      as (w' & E & Hr & _).
    exists w'. split; [exact E | exact Hr].
Qed.

Lemma captcha_is_a_payload_witness :
  fst (scrape (outside no_env (fun _ => challenge_page)) profile challenge_page
         (JStr "u") JUndefined false (world 1000))
  = Normal (JObj [("error", JStr "captcha_or_challenge");
                  ("url", JStr "https://www.linkedin.com/checkpoint/challenge/1")])
  /\ (exists w',
         get_profile (outside no_env (fun _ => challenge_page))
           (request [("url", JStr "u")] JUndefined) (world 1000)
         = (Normal tt, w')
         /\ status (res w') = 200
         /\ sent (res w') =
              Some (JObj [("error", JStr "captcha_or_challenge");
                          ("url",
                   JStr "https://www.linkedin.com/checkpoint/challenge/1")]))
  /\ (exists w',
         queue_task (outside no_env (fun _ => challenge_page)) true
           (task "company" "u") (world 1000)
         = (Normal (JObj [("ok", JBool true); ("type", JStr "company");
                          ("url", JStr "u");
                          ("result",
                           JObj [("error", JStr "captcha_or_challenge");
                                 ("url",
                   JStr "https://www.linkedin.com/checkpoint/challenge/1")])]),
            w')).
Proof.
  pose proof (captcha_is_a_payload (outside no_env (fun _ => challenge_page)))
    as (Hscrape & Hsingle & Hqueue).
  split; [| split].
  - erewrite (Hscrape profile challenge_page (JStr "u") JUndefined false
                (world 1000));
      [reflexivity | left; reflexivity | vm_compute; reflexivity | reflexivity].
  - edestruct (Hsingle profile (request [("url", JStr "u")] JUndefined)
                 (world 1000)) as (w' & E & Hst & Hse);
      [reflexivity | reflexivity | reflexivity | vm_compute; reflexivity
      | vm_compute; reflexivity |].
    exists w'. repeat split; assumption.
  - edestruct (Hqueue true (task "company" "u") company (world 1000))
      as (w' & E & _);
      [reflexivity | reflexivity | reflexivity | vm_compute; reflexivity
      | vm_compute; reflexivity |].
    exists w'. exact E.
Defined.

(** ** The queue without streaming *)

Section Silent.
Context {P : Platform} (O : Outside).

Lemma queue_task_silent t w c w' :
  queue_task O false t w = (c, w') -> res w' = res w.
Proof.
  intros H.
  destruct (nullish t) eqn:Hn.
  - eapply queue_task_early; [left; exact Hn | exact H].
  - destruct (launch (session O (launched w))) as [e |] eqn:Hl.
    + eapply queue_task_early; [| exact H]. right. congruence.
    + destruct (queue_task_completes O false t w Hn Hl) as (v & w'' & E & _ & Hr & _).
      rewrite E in H. inversion H; subst. exact Hr.
Qed.

Lemma queue_loop_silent tasks w c w' :
  queue_loop O false tasks w = (c, w') -> res w' = res w.
Proof.
  revert w. induction tasks as [| t rest IH]; intros w H; simpl in H.
  - inversion H. reflexivity.
  - unfold bind in H.
    destruct (queue_task O false t w) as [[v | e] w1] eqn:E.
    + apply IH in H. apply queue_task_silent in E. congruence.
    + inversion H; subst. apply queue_task_silent in E. exact E.
Qed.

(** With a browser for each task, the loop runs to its end and the
    response holds one line per task when streaming. *)
Lemma queue_loop_completes stream tasks w :
  Forall (fun t => nullish t = false) tasks ->
  (forall i, (i < List.length tasks)%nat ->
             launch (session O (launched w + i)) = None) ->
  exists envs w',
    queue_loop O stream tasks w = (Normal tt, w')
    /\ Forall2 is_envelope tasks envs
    /\ res w' = (if stream then written (res w) (map ndjson envs) else res w)
    /\ launched w' = (launched w + List.length tasks)%nat.
Proof.
  revert w. induction tasks as [| t rest IH]; intros w Hn Hl; simpl.
  - exists [], w. split; [reflexivity |]. split; [constructor |].
    split; [destruct stream; [rewrite written_nil |]; reflexivity | lia].
  - inversion Hn as [| ? ? Hn1 Hn2]; subst.
    destruct (queue_task_completes O stream t w Hn1) as (v & w1 & E & Hv & Hr & Hla).
    { specialize (Hl 0%nat). rewrite Nat.add_0_r in Hl. apply Hl. simpl. lia. }
    destruct (IH w1 Hn2) as (envs & w' & E' & Hvs & Hr' & Hla').
    { intros i Hi. rewrite Hla. specialize (Hl (S i)).
      rewrite Nat.add_succ_r in Hl. apply Hl. simpl. lia. }
    exists (v :: envs), w'. unfold bind. rewrite E.
    split; [exact E' |]. split; [constructor; assumption |].
    split.
    + rewrite Hr', Hr. unfold streamed. destruct stream; [| reflexivity].
      rewrite written_app. reflexivity.
    + rewrite Hla', Hla. lia.
Qed.

End Silent.

(** C8. A [POST /queue] request whose [stream] is false (falsy) and whose
    loop completes is answered with the bare acknowledgement [{ok: true}]:
    that value is the one chunk added to the body, whatever the tasks
    produced. The loop does complete when every task is an object and every
    browser starts. *)
Theorem queue_unstreamed_ack {P : Platform} (O : Outside) (req : Request)
    (t : JsVal) (rest : list JsVal) (w : World) :
  truthy (body_field req "stream" (JBool true)) = false ->
  body_field req "tasks" (JArr []) = JArr (t :: rest) ->
  (forall w',
      post_queue O req w = (Normal tt, w') ->
      sent (res w') = Some (JObj [("ok", JBool true)])
      /\ body (res w')
         = (body (res w) ++ [JSON_stringify (JObj [("ok", JBool true)])])%list
      /\ status (res w') = status (res w)
      /\ ended (res w') = true)
  /\ (Forall (fun t => nullish t = false) (t :: rest) ->
      (forall i, (i < List.length (t :: rest))%nat ->
                 launch (session O (launched w + i)) = None) ->
      exists w', post_queue O req w = (Normal tt, w')).
Proof.
  intros Hs Ht. unfold post_queue. rewrite Ht, Hs.
  split.
  - intros w' H. unfold bind at 1 in H. unfold ret at 1 in H.
    unfold bind at 1 in H.
    destruct (queue_loop O false (t :: rest) w) as [[u | e] w1] eqn:E;
      [| discriminate].
    apply queue_loop_silent in E.
    unfold res_json, with_res in H. inversion H; subst. simpl.
    rewrite E. repeat split.
  - intros Hn Hl.
    destruct (queue_loop_completes O false (t :: rest) w Hn Hl)
      as (envs & w1 & E & _).
    unfold bind at 1. unfold ret at 1. unfold bind at 1. rewrite E.
    eexists. reflexivity.
Qed.

Lemma queue_unstreamed_ack_witness :
  exists w',
    post_queue (outside no_env (fun _ => ok_page))
      (queue_request false [task "company" acme_url; task "foo" "u"])
      (world 1000) = (Normal tt, w')
    /\ sent (res w') = Some (JObj [("ok", JBool true)])
    /\ body (res w') = [JSON_stringify (JObj [("ok", JBool true)])].
Proof.
  destruct (queue_unstreamed_ack (outside no_env (fun _ => ok_page))
              (queue_request false [task "company" acme_url; task "foo" "u"])
              (task "company" acme_url) [task "foo" "u"] (world 1000)
              eq_refl eq_refl) as (Hack & Hrun).
  destruct Hrun as (w' & E).
  - repeat constructor.
  - intros i _. reflexivity.
  - exists w'. destruct (Hack w' E) as (Hs & Hb & _).
    split; [exact E |]. split; [exact Hs | exact Hb].
Defined.

(** ** The throttle *)

(** Rounding moves a number by half a unit of its last place at most. *)
Lemma round53_near (p : Z) :
  0 <= p ->
  0 <= round53 p
  /\ (Z.log2 p <= 52 -> round53 p = p)
  /\ (53 <= Z.log2 p -> round53 p <= p + 2 ^ (Z.log2 p - 53)).
Proof.
  intros Hp. unfold round53. rewrite (Z.abs_eq p Hp).
  destruct (Z.log2 p - 52 <=? 0) eqn:Es.
  - apply Z.leb_le in Es. split; [exact Hp |]. split; [reflexivity | lia].
  - apply Z.leb_gt in Es.
    set (s := Z.log2 p - 52) in *.
    assert (Hpos : 0 < p).
    { destruct (Z.eq_dec p 0) as [-> | Hne]; [| lia].
      unfold s in Es. simpl in Es. lia. }
    assert (H2s : 0 < 2 ^ s) by (apply Z.pow_pos_nonneg; lia).
    assert (Hhalf : 2 ^ s = 2 * 2 ^ (s - 1)).
    { replace s with (Z.succ (s - 1)) at 1 by lia.
      rewrite Z.pow_succ_r by lia. reflexivity. }
    assert (Hexp : Z.log2 p - 53 = s - 1) by (unfold s; lia).
    pose proof (Z.div_mod p (2 ^ s) ltac:(lia)) as Hdm.
    pose proof (Z.mod_pos_bound p (2 ^ s) H2s) as Hmod.
    assert (Hq : 0 <= p / 2 ^ s) by (apply Z.div_pos; lia).
    rewrite (Z.sgn_pos p Hpos), Z.mul_1_l.
    set (q := p / 2 ^ s) in *. set (rest := p mod 2 ^ s) in *.
    rewrite Hexp.
    destruct ((2 ^ (s - 1) <? rest) || ((rest =? 2 ^ (s - 1)) && Z.odd q))
      eqn:Eup.
    + assert (Hrest : 2 ^ (s - 1) <= rest).
      { apply orb_true_iff in Eup. destruct Eup as [Eup | Eup].
        - apply Z.ltb_lt in Eup. lia.
        - apply andb_true_iff in Eup. destruct Eup as (Eup & _).
          apply Z.eqb_eq in Eup. lia. }
      split; [nia |]. split; [lia |]. intros _. nia.
    + split; [nia |]. split; [lia |]. intros _.
      assert (0 < 2 ^ (s - 1)) by (apply Z.pow_pos_nonneg; lia). nia.
Qed.

(** The rounded product of a draw below 1 and [n] stays below [n]. *)
Lemma round53_product (r n : Z) :
  0 <= r < two53 -> 1 <= n ->
  0 <= round53 (r * n) /\ round53 (r * n) < n * two53.
Proof.
  intros Hr Hn.
  assert (Hp : 0 <= r * n) by nia.
  destruct (round53_near (r * n) Hp) as (Hlo & Hexact & Hup).
  split; [exact Hlo |].
  assert (Hlt : r * n <= n * two53 - n) by nia.
  destruct (Z_le_gt_dec (Z.log2 (r * n)) 52) as [Hs | Hs].
  - rewrite (Hexact Hs). lia.
  - assert (Hpos : 0 < r * n).
    { destruct (Z.eq_dec (r * n) 0) as [E | E]; [| lia].
      rewrite E in Hs. simpl in Hs. lia. }
    specialize (Hup ltac:(lia)).
    pose proof (Z.log2_spec (r * n) Hpos) as (Hlog & _).
    set (e := Z.log2 (r * n)) in *.
    assert (Hsplit : 2 ^ e = 2 ^ (e - 53) * two53).
    { unfold two53. rewrite <- Z.pow_add_r by lia. f_equal. lia. }
    assert (H53 : 0 < two53) by (unfold two53; lia).
    assert (Hsmall : 2 ^ (e - 53) < n) by nia.
    lia.
Qed.

Lemma pick_wait_bounds {P : Platform} (O : Outside) min max n :
  min <= max ->
  exists wait,
    pick_wait (JNum min) (JNum max) (random O n mod two53) = Some wait
    /\ min <= wait <= max.
Proof.
  intros Hle. unfold pick_wait. eexists. split; [reflexivity |].
  assert (H53 : 0 < two53) by (unfold two53; lia).
  pose proof (Z.mod_pos_bound (random O n) two53 H53) as Hr.
  set (r := random O n mod two53) in *.
  destruct (round53_product r (max - min + 1)) as (Hlo & Hhi);
    [exact Hr | lia |].
  assert (0 <= round53 (r * (max - min + 1)) / two53).
  { apply Z.div_pos; [exact Hlo | exact H53]. }
  assert (round53 (r * (max - min + 1)) / two53 < max - min + 1).
  { apply Z.div_lt_upper_bound; [exact H53 | lia]. }
  lia.
Qed.

(** A request that runs alone makes the call [throttle]: for a delay that
    [setTimeout] takes as given, the two turns of [throttle_among] with no
    other handler in between come to the same state. *)
Lemma throttle_alone {P : Platform} (O : Outside) (w : World) :
  (forall x,
      pick_wait (rate_min O) (rate_max O) (random O (timers w) mod two53)
      = Some x ->
      x - (now w - lastRun w) <= 2147483647) ->
  throttle_among O (fun v => v) w = throttle O w.
Proof.
  intros Hcap.
  unfold throttle_among, throttle_enter, throttle, bind, take_number,
    Math_random, clock, last_run, others, throttle_resume, timer_fires,
    record_now, record_start, delay, ret, lt_wait.
  cbn [now lastRun timers launched trace res].
  destruct (pick_wait (rate_min O) (rate_max O)
              (random O (timers w) mod two53)) as [x |] eqn:Hw.
  - destruct (now w - lastRun w <? x) eqn:E; [| reflexivity].
    apply Z.ltb_lt in E. specialize (Hcap x eq_refl).
    cbn [due late now lastRun timers launched trace res].
    assert (Hms : setTimeout_ms (x - (now w - lastRun w))
                  = x - (now w - lastRun w)).
    { unfold setTimeout_ms.
      replace (x - (now w - lastRun w) <? 1) with false
        by (symmetry; apply Z.ltb_ge; lia).
      replace (2147483647 <? x - (now w - lastRun w)) with false
        by (symmetry; apply Z.ltb_ge; lia).
      reflexivity. }
    rewrite Hms.
    assert (Hmax : Z.max (now w)
                     (now w + (x - (now w - lastRun w))
                      + Z.of_nat (lateness O (timers w)))
                   = now w + (x - (now w - lastRun w))
                     + Z.of_nat (lateness O (timers w))) by lia.
    unfold bind. cbn [now lastRun timers launched trace res].
    rewrite Hmax. reflexivity.
  - reflexivity.
Qed.



(** Two calls that overlap record the same start. After a start at
    1000000 a call arrives 300 ms later and waits; a second one arrives
    200 ms after the first, finds the same last start and waits as well.
    Both timers are due at 1001000: the two calls record their starts
    0 ms apart. *)
Lemma throttle_overlapping_starts :
  let O := outside env_1000 (fun _ => ok_page) in
  let w0 := snd (throttle O (world 1000000)) in
  exists tm1 w1 tm2 w2 w3 w4,
    lastRun w0 = 1000000
    /\ throttle_enter O (idle 300 w0) = (Normal (Some tm1), w1)
    /\ throttle_enter O (idle 200 w1) = (Normal (Some tm2), w2)
    /\ throttle_resume tm1 w2 = (Normal tt, w3)
    /\ throttle_resume tm2 w3 = (Normal tt, w4)
    /\ lastRun w3 = 1001000
    /\ lastRun w4 = 1001000.
Proof.
  do 6 eexists.
  split; [vm_compute; reflexivity |].
  split; [vm_compute; reflexivity |].
  split; [vm_compute; reflexivity |].
  split; [vm_compute; reflexivity |].
  split; [vm_compute; reflexivity |].
  split; vm_compute; reflexivity.
Qed.

(** A wait beyond what [setTimeout] takes is cut to 1 ms: with both bounds
    at 3000000000 a call that arrives one second after the last start
    returns a millisecond later. *)
Lemma throttle_long_wait_cut_short :
  let O := outside env_long_wait (fun _ => ok_page) in
  let w := idle 1000 (snd (throttle_among O (fun v => v) (world 1000000))) in
  rate_min O = JNum 3000000000 /\ rate_max O = JNum 3000000000
  /\ lastRun w = 1000001 /\ now w = 1001001
  /\ now (snd (throttle_among O (fun v => v) w)) = 1001002.
Proof. vm_compute. repeat split. Qed.


(** ** The login flag *)

Section Login.
Context {P : Platform} (O : Outside).

Lemma env_set_truthy name s :
  env O name = Some s -> s <> "" -> truthy (getenv O name) = true.
Proof.
  intros E Hs. unfold getenv. rewrite E. simpl.
  destruct (s =? "")%string eqn:Es; [| reflexivity].
  apply String.eqb_eq in Es. contradiction.
Qed.

Lemma bind_inv A B (m : M A) (f : A -> M B) w c w' :
  bind m f w = (c, w') ->
  (exists a w1, m w = (Normal a, w1) /\ f a w1 = (c, w'))
  \/ (exists e, m w = (Throw e, w') /\ c = Throw e).
Proof.
  unfold bind. destruct (m w) as [[a | e] w1]; intros H.
  - left. eauto.
  - right. inversion H; subst. eauto.
Qed.

(** With [login] set and a page, the first thing a scraper does is
    [ensureLogin], which starts by loading the stored cookies. *)
Lemma ensureLogin_trace s w c w' :
  ensureLogin O s w = (c, w') ->
  exists evs,
    trace w' = (trace w ++ EvEnsureLogin :: EvLoadCookies :: evs)%list.
Proof.
  unfold ensureLogin, loadCookies, saveCookies. intros H.
  apply bind_inv in H. destruct H as [(a & w1 & E1 & H) | (e & E1 & _)];
    [| discriminate].
  apply bind_inv in H. destruct H as [(a2 & w2 & E2 & H) | (e & E2 & _)];
    [| discriminate].
  inversion E1; subst. inversion E2; subst. clear E1 E2.
  revert H. match goal with |- ?R _ = _ -> _ =>
    assert (QR : quiet R) by auto 10 with quiet end.
  intros H. apply QR in H. destruct H as (_ & _ & _ & _ & _ & evs & Ht).
  simpl in Ht. exists evs. rewrite Ht, <- !app_assoc. reflexivity.
Qed.

Lemma open_page_login A (K : unit -> M A) s w c w' :
  newPage s = None ->
  (forall u, quiet (K u)) ->
  bind (open_page O s true) K w = (c, w') ->
  exists evs,
    trace w' = (trace w ++ EvEnsureLogin :: EvLoadCookies :: evs)%list.
Proof.
  intros Hnp HK H.
  assert (Hop : forall c1 w1, open_page O s true w = (c1, w1) ->
            exists evs,
              trace w1 = (trace w ++ EvEnsureLogin :: EvLoadCookies :: evs)%list).
  { intros c1 w1 E. unfold open_page in E. rewrite Hnp in E.
    apply (ensureLogin_trace s w c1 w1). exact E. }
  apply bind_inv in H. destruct H as [(a & w1 & E & H) | (e & E & _)].
  - apply Hop in E. destruct E as (evs1 & Ht1).
    apply HK in H. destruct H as (_ & _ & _ & _ & _ & evs2 & Ht2).
    exists (evs1 ++ evs2)%list. rewrite Ht2, Ht1, <- !app_assoc. reflexivity.
  - apply Hop in E. exact E.
Qed.

Lemma scrape_login_trace k s url days w c w' :
  newPage s = None ->
  scrape O k s url days true w = (c, w') ->
  exists d evs,
    trace w' = (trace w ++ EvScrape k url d true :: EvEnsureLogin
                  :: EvLoadCookies :: evs)%list.
Proof.
  intros Hnp H.
  destruct k; simpl in H;
    unfold scrapeProfile, scrapeProfilePosts, scrapeCompany,
      scrapeCompanyPosts, scrapeCompanyJobs, scrape_page in H;
    unfold bind at 1 in H; unfold log at 1 in H;
    (eapply open_page_login in H; [| exact Hnp |]);
    try (destruct H as (evs & Ht); simpl in Ht; eexists; exists evs;
         rewrite Ht, <- app_assoc; reflexivity);
    intros u; unfold autoScroll; auto 20 with quiet.
Qed.

End Login.

(** C10 (as the code has it). The [login] option of a handler is true as
    soon as [LINKEDIN_EMAIL] is set to a non-empty value, which is what
    [Boolean(...)] tests, whatever the request says, and as soon as the
    request says [login=1] ([login: 1] in a queue task), whatever the
    environment. That option is the one the scraper is called with, and a
    scraper called with it goes through [ensureLogin] as soon as its page is
    open. *)
Theorem login_flow_engaged {P : Platform} (O : Outside) :
  (forall req,
      (exists s, env O "LINKEDIN_EMAIL" = Some s /\ s <> "")
      \/ query req "login" = JStr "1" ->
      query_login O req = true)
  /\ (forall login,
         (exists s, env O "LINKEDIN_EMAIL" = Some s /\ s <> "")
         \/ login = JNum 1 ->
         task_login O login = true)
  /\ (forall k req w c w',
         (exists s, env O "LINKEDIN_EMAIL" = Some s /\ s <> "")
         \/ query req "login" = JStr "1" ->
         truthy (query req "url") = true ->
         launch (session O (launched w)) = None ->
         newPage (session O (launched w)) = None ->
         single_task O k req w = (c, w') ->
         exists d evs,
           trace w' = (trace w ++ EvLaunch
                         :: EvScrape k (query req "url") d true
                         :: EvEnsureLogin :: EvLoadCookies :: evs)%list)
  /\ (forall stream t k w c w',
         (exists s, env O "LINKEDIN_EMAIL" = Some s /\ s <> "")
         \/ field t "login" = JNum 1 ->
         nullish t = false ->
         kind_of (field t "type") = Some k ->
         launch (session O (launched w)) = None ->
         newPage (session O (launched w)) = None ->
         queue_task O stream t w = (c, w') ->
         exists d evs,
           trace w' = (trace w ++ EvLaunch
                         :: EvScrape k (field t "url") d true
                         :: EvEnsureLogin :: EvLoadCookies :: evs)%list).
Proof.
  assert (Hq : forall req,
      (exists s, env O "LINKEDIN_EMAIL" = Some s /\ s <> "")
      \/ query req "login" = JStr "1" -> query_login O req = true).
  { intros req [(s & E & Hs) | Hl]; unfold query_login.
    - rewrite (env_set_truthy O _ _ E Hs). apply orb_true_r.
    - rewrite Hl. reflexivity. }
  assert (Ht : forall login,
      (exists s, env O "LINKEDIN_EMAIL" = Some s /\ s <> "")
      \/ login = JNum 1 -> task_login O login = true).
  { intros login [(s & E & Hs) | Hl]; unfold task_login.
    - rewrite (env_set_truthy O _ _ E Hs). apply orb_true_r.
    - rewrite Hl. reflexivity. }
  split; [exact Hq |]. split; [exact Ht |]. split.
  - intros k req w c w' Hlogin Hurl Hl Hnp Hrun.
    destruct (queue_task_launch O w Hl) as (w1 & Hb & _ & _ & Ht1).
    destruct (scrape O k (session O (launched w)) (query req "url")
                (query_days req) (query_login O req) w1)
      as [[v | e] w2] eqn:Hs;
      pose proof Hs as Hs'; rewrite (Hq req Hlogin) in Hs';
      apply (scrape_login_trace O _ _ _ _ _ _ _ Hnp) in Hs';
      destruct Hs' as (d & evs & Ht2).
    + destruct (single_task_returns O _ _ _ _ _ _ _ Hurl Hb Hs)
        as (wf & E & _ & _ & _ & _ & Ht3).
      rewrite E in Hrun. inversion Hrun; subst.
      exists d, (evs ++ [EvBrowserClose])%list.
      rewrite Ht3, Ht2, Ht1. rewrite <- !app_assoc. reflexivity.
    + destruct (single_task_throws O _ _ _ _ _ _ _ Hurl Hb Hs)
        as (wf & E & _ & _ & _ & _ & Ht3).
      rewrite E in Hrun. inversion Hrun; subst.
      exists d, (evs ++ [EvConsoleError e; EvBrowserClose])%list.
      rewrite Ht3, Ht2, Ht1. rewrite <- !app_assoc. reflexivity.
  - intros stream t k w c w' Hlogin Hn Hk Hl Hnp Hrun.
    destruct (queue_task_launch O w Hl) as (w1 & Hb & _ & _ & Ht1).
    destruct (scrape O k (session O (launched w)) (field t "url")
                (days_arg k t) (task_login O (field t "login")) w1)
      as [[v | e] w2] eqn:Hs;
      pose proof Hs as Hs'; rewrite (Ht _ Hlogin) in Hs';
      apply (scrape_login_trace O _ _ _ _ _ _ _ Hnp) in Hs';
      destruct Hs' as (d & evs & Ht2).
    + destruct (queue_task_returns O stream _ _ _ _ _ _ Hn Hk Hb Hs)
        as (wf & E & _ & _ & Ht3).
      rewrite E in Hrun. inversion Hrun; subst.
      exists d, (evs ++ [EvBrowserClose])%list.
      rewrite Ht3, Ht2, Ht1. rewrite <- !app_assoc. reflexivity.
    + destruct (queue_task_throws O stream _ _ _ _ _ _ Hn Hk Hb Hs)
        as (wf & E & _ & _ & Ht3).
      rewrite E in Hrun. inversion Hrun; subst.
      exists d, (evs ++ [EvBrowserClose])%list.
      rewrite Ht3, Ht2, Ht1. rewrite <- !app_assoc. reflexivity.
Qed.

Lemma login_flow_engaged_witness :
  query_login (outside env_login (fun _ => ok_page))
    (request [("url", JStr "u"); ("login", JStr "0")] JUndefined) = true
  /\ task_login (outside no_env (fun _ => ok_page)) (JNum 1) = true
  /\ exists c w' d evs,
       get_company (outside env_login (fun _ => ok_page))
         (request [("url", JStr "u"); ("login", JStr "0")] JUndefined)
         (world 1000) = (c, w')
       /\ trace w'
          = EvLaunch :: EvScrape company (JStr "u") d true
              :: EvEnsureLogin :: EvLoadCookies :: evs.
Proof.
  pose proof (login_flow_engaged (outside env_login (fun _ => ok_page)))
    as (Hq & _ & Hsingle & _).
  pose proof (login_flow_engaged (outside no_env (fun _ => ok_page)))
    as (_ & Ht & _).
  split; [| split].
  - apply Hq. left. exists "me@example.com". split; [reflexivity | discriminate].
  - apply Ht. right. reflexivity.
  - eassert (E : single_task (outside env_login (fun _ => ok_page)) company
                   (request [("url", JStr "u"); ("login", JStr "0")] JUndefined)
                   (world 1000) = (_, _)) by (vm_compute; reflexivity).
    edestruct (Hsingle company
                 (request [("url", JStr "u"); ("login", JStr "0")] JUndefined)
                 (world 1000)) as (d & evs & Htr);
      [ left; exists "me@example.com"; split; [reflexivity | discriminate]
      | reflexivity | reflexivity | reflexivity | exact E | ].
    eexists. eexists. exists d, evs. split; [exact E | exact Htr].
Defined.

(** C10, as stated, fails: [LINKEDIN_EMAIL] set to the empty string does
    not engage the login flow. For a request and for a queue task that do
    not ask for a login the option is false, the scraper is called with
    [login] false and [ensureLogin] is not run. *)
Lemma login_flow_blank_email :
  let O := outside env_blank_email (fun _ => ok_page) in
  let req := request [("url", JStr acme_url)] JUndefined in
  let t := task "company" acme_url in
  env O "LINKEDIN_EMAIL" = Some ""
  /\ query_login O req = false
  /\ task_login O (field t "login") = false
  /\ trace (snd (get_company O req (world 1000)))
     = [EvLaunch; EvScrape company (JStr acme_url) JUndefined false;
        EvGoto (JStr acme_url); EvBrowserClose]
  /\ trace (snd (queue_task O true t (world 1000)))
     = [EvLaunch; EvScrape company (JStr acme_url) JUndefined false;
        EvGoto (JStr acme_url); EvBrowserClose].
Proof. vm_compute. repeat split. Qed.

(** ** JSON text *)

Import Json.

Lemma append_assoc (a b c : string) : ((a ++ b) ++ c = a ++ (b ++ c))%string.
Proof. induction a; simpl; congruence. Qed.

Lemma append_nil_r (a : string) : (a ++ "" = a)%string.
Proof. induction a; simpl; congruence. Qed.

Lemma all_chars_app p a b :
  all_chars p (a ++ b) = all_chars p a && all_chars p b.
Proof.
  induction a; simpl; [reflexivity |]. rewrite IHa. apply andb_assoc.
Qed.

Lemma all_chars_weaken (p q : ascii -> bool) s :
  (forall c, p c = true -> q c = true) ->
  all_chars p s = true -> all_chars q s = true.
Proof.
  intros H. induction s; simpl; [reflexivity |].
  intros E. apply andb_true_iff in E. destruct E as (E1 & E2).
  rewrite (H _ E1), (IHs E2). reflexivity.
Qed.

(** *** String literals *)

Lemma parse_escape_char c tail :
  parse_chars (escape_char c ++ tail) = cons_char c (parse_chars tail).
Proof.
  destruct c as [[] [] [] [] [] [] [] []]; reflexivity.
Qed.

Lemma escape_char_no_newline c : all_chars not_newline (escape_char c) = true.
Proof.
  destruct c as [[] [] [] [] [] [] [] []]; reflexivity.
Qed.

Lemma parse_escape s rest :
  parse_chars (escape s ++ String dquote rest) = Some (s, rest).
Proof.
  induction s as [| c s IH]; simpl.
  - reflexivity.
  - rewrite append_assoc, parse_escape_char, IH. reflexivity.
Qed.

Lemma escape_no_newline s : all_chars not_newline (escape s) = true.
Proof.
  induction s as [| c s IH]; simpl; [reflexivity |].
  rewrite all_chars_app, escape_char_no_newline, IH. reflexivity.
Qed.

Lemma quote_no_newline s : all_chars not_newline (quote s) = true.
Proof.
  unfold quote. simpl. rewrite all_chars_app, escape_no_newline. reflexivity.
Qed.

Lemma parse_quote fuel s rest :
  parse_value (S fuel) (quote s ++ rest) = Some (JStr s, rest).
Proof.
  unfold quote. simpl. rewrite append_assoc. simpl.
  rewrite parse_escape. reflexivity.
Qed.

(** *** Numbers *)

Lemma uint_digits d : all_chars is_digit (NilEmpty.string_of_uint d) = true.
Proof. induction d; simpl; auto. Qed.

Lemma uint_digits_zero d : all_chars is_digit (NilZero.string_of_uint d) = true.
Proof. destruct d; try apply uint_digits. reflexivity. Qed.

Lemma dec_num_chars n : all_chars is_num_char (dec n) = true.
Proof.
  unfold dec. destruct (Z.to_int n) as [d | d]; simpl.
  - apply all_chars_weaken with (p := is_digit); [| apply uint_digits_zero].
    intros c H. unfold is_num_char. rewrite H. reflexivity.
  - apply all_chars_weaken with (p := is_digit); [| apply uint_digits_zero].
    intros c H. unfold is_num_char. rewrite H. reflexivity.
Qed.

Lemma dec_nonempty n : exists c s, dec n = String c s.
Proof.
  unfold dec. destruct (Z.to_int n) as [d | d]; simpl.
  - destruct d; simpl; eauto.
  - eauto.
Qed.

Lemma span_num_app s rest :
  all_chars is_num_char s = true ->
  ends_value rest = true ->
  span_num (s ++ rest) = (s, rest).
Proof.
  intros Hs Hr. induction s as [| c s IH]; simpl in *.
  - destruct rest as [| c r]; simpl in *; [reflexivity |].
    destruct (is_num_char c); [discriminate | reflexivity].
  - apply andb_true_iff in Hs. destruct Hs as (Hc & Hs).
    rewrite Hc, (IH Hs). reflexivity.
Qed.

Lemma int_of_string_of_int d :
  exists d', NilZero.int_of_string (NilZero.string_of_int d) = Some d'
             /\ Z.of_int d' = Z.of_int d.
Proof.
  destruct d as [[| | | | | | | | | |] | [| | | | | | | | | |]];
    try (eexists; split; [apply NilZero.isi; discriminate | reflexivity]).
  - exists (Decimal.Pos Decimal.zero). split; reflexivity.
  - exists (Decimal.Neg (Decimal.D0 Decimal.Nil)). split; reflexivity.
Qed.

Lemma parse_dec n rest :
  ends_value rest = true ->
  parse_number (dec n ++ rest) = Some (JNum n, rest).
Proof.
  intros Hr. unfold parse_number.
  rewrite (span_num_app _ _ (dec_num_chars n) Hr).
  unfold dec. destruct (int_of_string_of_int (Z.to_int n)) as (d' & E & Hd).
  rewrite E, Hd, DecimalZ.of_to. reflexivity.
Qed.

Lemma num_char_branch c :
  is_num_char c = true ->
  Ascii.eqb c dquote = false /\ Ascii.eqb c "[" = false
  /\ Ascii.eqb c "{" = false /\ Ascii.eqb c "n" = false
  /\ Ascii.eqb c "t" = false /\ Ascii.eqb c "f" = false.
Proof.
  destruct c as [[] [] [] [] [] [] [] []]; intros H;
    try discriminate; repeat split.
Qed.

Lemma parse_value_dec fuel n rest :
  ends_value rest = true ->
  parse_value (S fuel) (dec n ++ rest) = Some (JNum n, rest).
Proof.
  intros Hr. pose proof (parse_dec n rest Hr) as Hp.
  pose proof (dec_num_chars n) as Hc.
  destruct (dec_nonempty n) as (c & s & E). rewrite E in *.
  simpl in Hc. apply andb_true_iff in Hc. destruct Hc as (Hc & _).
  destruct (num_char_branch c Hc) as (E1 & E2 & E3 & E4 & E5 & E6).
  simpl append. simpl parse_value.
  rewrite E1, E2, E3, E4, E5, E6, Hc. exact Hp.
Qed.

Lemma dec_no_newline n : all_chars not_newline (dec n) = true.
Proof.
  apply all_chars_weaken with (p := is_num_char); [| apply dec_num_chars].
  intros c. destruct c as [[] [] [] [] [] [] [] []]; intros H;
    try discriminate; reflexivity.
Qed.

(** *** Values *)

Lemma JsVal_nested_ind (Q : JsVal -> Prop) :
  Q JUndefined -> Q JNull -> (forall b, Q (JBool b)) -> (forall n, Q (JNum n)) ->
  Q JNaN -> (forall s, Q (JStr s)) ->
  (forall l, Forall Q l -> Q (JArr l)) ->
  (forall fs, Forall (fun kx => Q (snd kx)) fs -> Q (JObj fs)) ->
  forall v, Q v.
Proof.
  intros Hu Hn Hb Hz Hnan Hs Ha Ho. fix IH 1.
  intros [| | b | n | | s | l | fs];
    [exact Hu | exact Hn | apply Hb | apply Hz | exact Hnan | apply Hs | |].
  - apply Ha. induction l as [| x l IHl]; constructor; [apply IH | exact IHl].
  - apply Ho. induction fs as [| [k x] fs IHfs]; constructor;
      [apply IH | exact IHfs].
Qed.

Lemma stringify_undefined v : stringify v = None -> v = JUndefined.
Proof. destruct v as [| | [] | | | | |]; simpl; congruence. Qed.

Lemma stringify_arr l :
  stringify (JArr l) = Some ("[" ++ intercalate "," (map element l) ++ "]").
Proof. reflexivity. Qed.

Lemma stringify_obj fs :
  stringify (JObj fs)
  = Some ("{" ++ intercalate "," (map member (filter is_defined fs)) ++ "}").
Proof.
  simpl.
  match goal with
  | |- Some (String _ (intercalate _ (?g fs) ++ _)) = _ =>
      assert (H : g fs = map member (filter is_defined fs))
  end.
  { induction fs as [| [k x] fs IH]; [reflexivity |].
    destruct (stringify x) as [s |] eqn:E.
    - assert (Hd : is_defined (k, x) = true).
      { unfold is_defined. destruct x; simpl in *; congruence. }
      simpl filter. rewrite Hd. simpl map. unfold member at 1, element.
      simpl fst. simpl snd. rewrite E, IH. reflexivity.
    - apply stringify_undefined in E. subst x. simpl. exact IH. }
  rewrite H. reflexivity.
Qed.

Lemma revived_obj fs :
  revived (JObj fs) = JObj (map revived_member (filter is_defined fs)).
Proof.
  simpl. f_equal. induction fs as [| [k x] fs IH]; [reflexivity |].
  destruct x; simpl; rewrite ?IH; reflexivity.
Qed.

Lemma size_members_filter fs :
  (size_members (filter is_defined fs) <= size_members fs)%nat.
Proof.
  induction fs as [| kx fs IH]; simpl; [lia |].
  destruct (is_defined kx); simpl; lia.
Qed.

Lemma parse_value_empty fuel : parse_value fuel "" = None.
Proof. destruct fuel; reflexivity. Qed.

Lemma parse_elems_closed fuel r :
  parse_elems fuel "" = None /\ parse_elems fuel (String "]" r) = None.
Proof. destruct fuel as [| [| f]]; split; reflexivity. Qed.

Lemma parse_members_closed fuel r :
  parse_members fuel "" = None /\ parse_members fuel (String "}" r) = None.
Proof. destruct fuel; split; reflexivity. Qed.

Lemma parse_elems_text l :
  Forall reads_back l -> l <> [] ->
  forall fuel rest,
    (size_elems l <= fuel)%nat ->
    ends_value rest = true ->
    parse_elems fuel (intercalate "," (map element l) ++ String "]" rest)
    = Some (map revived l, rest).
Proof.
  induction 1 as [| x l Hx Hl IH]; [congruence |].
  intros _ fuel rest Hf Hr. destruct fuel as [| f]; [simpl in Hf; lia |].
  simpl in Hf. destruct l as [| y ys].
  - simpl intercalate. simpl parse_elems.
    rewrite (Hx f (String "]" rest)); [reflexivity | lia | reflexivity].
  - change (intercalate "," (map element (x :: y :: ys)))
      with (element x ++ "," ++ intercalate "," (map element (y :: ys))).
    rewrite !append_assoc. simpl parse_elems.
    rewrite (Hx f); [| lia | reflexivity].
    simpl. rewrite IH; [reflexivity | discriminate | simpl in *; lia | exact Hr].
Qed.

Lemma member_text k x tail :
  (member (k, x) ++ tail
   = String dquote (escape k ++ String dquote (String ":" (element x ++ tail))))%string.
Proof.
  unfold member, quote. cbn [fst snd append].
  rewrite !append_assoc. reflexivity.
Qed.

Lemma parse_member_last f k x rest :
  reads_back x -> (size x <= f)%nat ->
  parse_members (S f) (member (k, x) ++ String "}" rest)
  = Some ([(k, revived x)], rest).
Proof.
  intros Hx Hf. rewrite member_text. cbn [parse_members].
  replace (Ascii.eqb dquote dquote) with true by reflexivity.
  rewrite parse_escape.
  replace (Ascii.eqb ":" ":") with true by reflexivity.
  rewrite (Hx f (String "}" rest) Hf eq_refl). reflexivity.
Qed.

Lemma parse_member_more f k x more :
  reads_back x -> (size x <= f)%nat ->
  parse_members (S f) (member (k, x) ++ String "," more)
  = match parse_members f more with
    | Some (l, rest') => Some ((k, revived x) :: l, rest')
    | None => None
    end.
Proof.
  intros Hx Hf. rewrite member_text. cbn [parse_members].
  replace (Ascii.eqb dquote dquote) with true by reflexivity.
  rewrite parse_escape.
  replace (Ascii.eqb ":" ":") with true by reflexivity.
  rewrite (Hx f (String "," more) Hf eq_refl). reflexivity.
Qed.

Lemma parse_members_text ms :
  Forall (fun kx => reads_back (snd kx)) ms -> ms <> [] ->
  forall fuel rest,
    (size_members ms <= fuel)%nat ->
    ends_value rest = true ->
    parse_members fuel (intercalate "," (map member ms) ++ String "}" rest)
    = Some (map revived_member ms, rest).
Proof.
  induction 1 as [| [k x] ms Hx Hl IH]; [congruence |].
  intros _ fuel rest Hf Hr. destruct fuel as [| f]; [simpl in Hf; lia |].
  simpl in Hf, Hx. destruct ms as [| y ys].
  - cbn [map intercalate]. rewrite parse_member_last; [reflexivity | exact Hx | lia].
  - change (intercalate "," (map member ((k, x) :: y :: ys)))
      with (member (k, x) ++ "," ++ intercalate "," (map member (y :: ys))).
    rewrite append_assoc.
    change (("," ++ intercalate "," (map member (y :: ys))) ++ String "}" rest)%string
      with (String "," (intercalate "," (map member (y :: ys)) ++ String "}" rest)).
    rewrite parse_member_more; [| exact Hx | lia].
    rewrite IH; [reflexivity | discriminate | simpl in *; lia | exact Hr].
Qed.

Lemma parse_value_array f body l rest :
  parse_elems f body = Some (l, rest) ->
  parse_value (S f) (String "[" body) = Some (JArr l, rest).
Proof.
  intros H. destruct body as [| c' r'].
  - rewrite (proj1 (parse_elems_closed f "")) in H. discriminate.
  - simpl. destruct (Ascii.eqb c' "]") eqn:Ec.
    + apply Ascii.eqb_eq in Ec. subst c'.
      rewrite (proj2 (parse_elems_closed f r')) in H. discriminate.
    + rewrite H. reflexivity.
Qed.

Lemma parse_value_object f body l rest :
  parse_members f body = Some (l, rest) ->
  parse_value (S f) (String "{" body) = Some (JObj l, rest).
Proof.
  intros H. destruct body as [| c' r'].
  - rewrite (proj1 (parse_members_closed f "")) in H. discriminate.
  - simpl. destruct (Ascii.eqb c' "}") eqn:Ec.
    + apply Ascii.eqb_eq in Ec. subst c'.
      rewrite (proj2 (parse_members_closed f r')) in H. discriminate.
    + rewrite H. reflexivity.
Qed.

Lemma bracket_text (open close : ascii) (inner rest : string) :
  ((String open (inner ++ String close "")) ++ rest
   = String open (inner ++ String close rest))%string.
Proof. cbn [append]. rewrite append_assoc. reflexivity. Qed.

Lemma reads_back_all v : reads_back v.
Proof.
  induction v as [| | b | n | | s | l IH | fs IH] using JsVal_nested_ind;
    intros fuel rest Hf Hr;
    (destruct fuel as [| f]; [simpl in Hf; lia |]).
  - reflexivity.
  - reflexivity.
  - destruct b; reflexivity.
  - apply parse_value_dec. exact Hr.
  - reflexivity.
  - apply parse_quote.
  - unfold element. rewrite stringify_arr. destruct l as [| x xs].
    + reflexivity.
    + change ("[" ++ intercalate "," (map element (x :: xs)) ++ "]")%string
        with (String "[" (intercalate "," (map element (x :: xs)) ++ String "]" "")).
      rewrite bracket_text.
      change (revived (JArr (x :: xs))) with (JArr (map revived (x :: xs))).
      apply parse_value_array.
      apply parse_elems_text; [exact IH | discriminate | | exact Hr].
      change (size (JArr (x :: xs))) with (S (size_elems (x :: xs))) in Hf. lia.
  - unfold element. rewrite stringify_obj, revived_obj.
    assert (IH' : Forall (fun kx => reads_back (snd kx)) (filter is_defined fs)).
    { apply Forall_forall. intros kx Hin. apply filter_In in Hin.
      destruct Hin as (Hin & _). rewrite Forall_forall in IH. auto. }
    pose proof (size_members_filter fs) as Hsz.
    change (size (JObj fs)) with (S (size_members fs)) in Hf.
    destruct (filter is_defined fs) as [| m ms].
    + reflexivity.
    + change ("{" ++ intercalate "," (map member (m :: ms)) ++ "}")%string
        with (String "{" (intercalate "," (map member (m :: ms)) ++ String "}" "")).
      rewrite bracket_text.
      apply parse_value_object.
      apply parse_members_text; [exact IH' | discriminate | lia | exact Hr].
Qed.

(** The text of a value has no newline in it. *)
Lemma intercalate_no_newline l :
  Forall (fun s => all_chars not_newline s = true) l ->
  all_chars not_newline (intercalate "," l) = true.
Proof.
  induction 1 as [| s l Hs Hl IH]; [reflexivity |].
  destruct l as [| y ys]; [exact Hs |].
  change (intercalate "," (s :: y :: ys))
    with (s ++ "," ++ intercalate "," (y :: ys))%string.
  rewrite !all_chars_app, Hs, IH. reflexivity.
Qed.

Lemma element_no_newline v : all_chars not_newline (element v) = true.
Proof.
  induction v as [| | b | n | | s | l IH | fs IH] using JsVal_nested_ind.
  - reflexivity.
  - reflexivity.
  - destruct b; reflexivity.
  - apply dec_no_newline.
  - reflexivity.
  - apply quote_no_newline.
  - unfold element. rewrite stringify_arr.
    rewrite !all_chars_app, intercalate_no_newline; [reflexivity |].
    apply Forall_map. exact IH.
  - unfold element. rewrite stringify_obj.
    rewrite !all_chars_app, intercalate_no_newline; [reflexivity |].
    apply Forall_map. apply Forall_forall. intros kx Hin.
    apply filter_In in Hin. destruct Hin as (Hin & _).
    rewrite Forall_forall in IH. unfold member.
    rewrite !all_chars_app, quote_no_newline, (IH _ Hin). reflexivity.
Qed.

Lemma JSON_stringify_no_newline v :
  all_chars not_newline (JSON_stringify v) = true.
Proof.
  unfold JSON_stringify. pose proof (element_no_newline v) as H.
  unfold element in H. destruct (stringify v); [exact H | reflexivity].
Qed.

(** A value that is not [undefined] reads back from its text. *)
Lemma JSON_stringify_reads_back v rest :
  v <> JUndefined ->
  ends_value rest = true ->
  parse_value (size v) (JSON_stringify v ++ rest) = Some (revived v, rest).
Proof.
  intros Hv Hr. pose proof (reads_back_all v (size v) rest (le_n _) Hr) as H.
  unfold JSON_stringify. unfold element in H.
  destruct (stringify v) eqn:E; [exact H |].
  apply stringify_undefined in E. contradiction.
Qed.

(** *** Lines *)

Lemma split_lines_line s rest :
  all_chars not_newline s = true ->
  split_lines (s ++ String newline rest) = s :: split_lines rest.
Proof.
  induction s as [| c s IH]; intros H.
  - reflexivity.
  - simpl in H. apply andb_true_iff in H. destruct H as (Hc & Hs).
    cbn [append split_lines]. unfold not_newline in Hc.
    destruct (Ascii.eqb c newline); [discriminate |].
    rewrite (IH Hs). reflexivity.
Qed.

Lemma split_lines_ndjson envs :
  split_lines (text_of (map ndjson envs))
  = (map JSON_stringify envs ++ [""])%list.
Proof.
  induction envs as [| v envs IH]; [reflexivity |].
  cbn [map text_of fold_right]. unfold ndjson at 1.
  rewrite append_assoc. cbn [append].
  rewrite split_lines_line by apply JSON_stringify_no_newline.
  fold (text_of (map ndjson envs)). rewrite IH. reflexivity.
Qed.

(** ** The streamed queue *)

Section Stream.
Context {P : Platform} (O : Outside).

(** A page that loads, is no challenge and closes: the scraper returns the
    record built around the data read from the page. *)
Lemma scrape_page_ok s url w :
  newPage s = None -> goto s = None ->
  looksLikeCaptcha (page_url s) (content s) = false ->
  scroll s = None -> evaluate s = None -> close s = None ->
  exists w',
    scrape_page O s url false w
    = (Normal (JObj [("url", url);
                     ("scrapedAt",
                      JStr (toISOString
                              (now w + Z.of_nat (load_ms s) + Z.of_nat (eval_ms s))));
                     ("data", data s)]), w').
Proof.
  intros Hn Hg Hc Hs He Hcl.
  unfold scrape_page, open_page, page_goto, autoScroll, iso_now.
  rewrite Hn, Hg, Hc, Hs, He, Hcl. eexists. reflexivity.
Qed.

Lemma envelope_reads_back t v :
  is_envelope t v ->
  parse_value (size v) (JSON_stringify v) = Some (revived v, "")
  /\ exists b, get (revived v) "ok" = Some (JBool b).
Proof.
  intros Hv. split.
  - rewrite <- (append_nil_r (JSON_stringify v)) at 1.
    apply JSON_stringify_reads_back; [| reflexivity].
    destruct Hv as [(out & ->) | (e & ->)]; discriminate.
  - destruct Hv as [(out & ->) | (e & ->)]; eexists; reflexivity.
Qed.

End Stream.

(** C2 (as the code has it). When [stream] is set, every one of the [N]
    tasks is an object and a browser starts for each of them,
    [POST /queue] completes and adds [N] chunks to the body, one per task
    and in the order of the tasks; each chunk is the JSON text of the
    envelope of its task followed by a newline, so that the text added
    splits into exactly those [N] lines, and each line reads back as a
    single JSON value with a boolean [ok]. For the single task
    [{type: "company", url}] against a page whose extraction returns
    [{name: "Acme"}], the line is
    [{ok: true, type: "company", url, result: {url, scrapedAt, data:
    {name: "Acme"}}}]. *)
Theorem queue_stream_lines {P : Platform} (O : Outside) (req : Request)
    (w : World) :
  truthy (body_field req "stream" (JBool true)) = true ->
  (forall tasks,
      body_field req "tasks" (JArr []) = JArr tasks ->
      tasks <> [] ->
      Forall (fun t => nullish t = false) tasks ->
      (forall i, (i < List.length tasks)%nat ->
                 launch (session O (launched w + i)) = None) ->
      exists envs w',
        post_queue O req w = (Normal tt, w')
        /\ body (res w') = (body (res w) ++ map ndjson envs)%list
        /\ List.length envs = List.length tasks
        /\ Forall2 is_envelope tasks envs
        /\ split_lines (text_of (map ndjson envs))
           = (map JSON_stringify envs ++ [""])%list
        /\ Forall (fun v =>
                     parse_value (size v) (JSON_stringify v)
                     = Some (revived v, "")
                     /\ exists b, get (revived v) "ok" = Some (JBool b)) envs
        /\ ended (res w') = true)
  /\ (forall url,
         let s := session O (launched w) in
         body_field req "tasks" (JArr [])
         = JArr [JObj [("type", JStr "company"); ("url", JStr url)]] ->
         env O "LINKEDIN_EMAIL" = None ->
         launch s = None -> newPage s = None -> goto s = None ->
         looksLikeCaptcha (page_url s) (content s) = false ->
         scroll s = None -> evaluate s = None -> close s = None ->
         data s = JObj [("name", JStr "Acme")] ->
         exists at_ w',
           post_queue O req w = (Normal tt, w')
           /\ body (res w')
              = (body (res w)
                 ++ [ndjson
                       (JObj [("ok", JBool true); ("type", JStr "company");
                              ("url", JStr url);
                              ("result",
                               JObj [("url", JStr url);
                                     ("scrapedAt", JStr (toISOString at_));
                                     ("data",
                                      JObj [("name", JStr "Acme")])])])])%list).
Proof.
  intros Hs. split.
  - intros tasks Ht Hne Hn Hl.
    unfold post_queue. rewrite Ht, Hs.
    destruct tasks as [| t rest]; [congruence |].
    unfold bind at 1. unfold res_setHeader, with_res at 1.
    unfold bind at 1.
    match goal with |- context [queue_loop O true (t :: rest) ?x] =>
      destruct (queue_loop_completes O true (t :: rest) x Hn Hl)
        as (envs & w1 & E & Hv & Hr & _) end.
    rewrite E. unfold res_end, with_res. exists envs. eexists.
    split; [reflexivity |]. simpl. rewrite Hr. simpl.
    split; [reflexivity |].
    split; [pose proof (Forall2_length Hv) as Hlen; simpl in Hlen; lia |].
    split; [exact Hv |].
    split; [apply split_lines_ndjson |].
    split; [| reflexivity].
    clear - Hv. induction Hv as [| t0 v ts vs Hv Hvs IH]; constructor.
    + eapply envelope_reads_back. exact Hv.
    + exact IH.
  - intros url s Ht He Hl Hn Hg Hc Hsc Hev Hcl Hd.
    unfold post_queue. rewrite Ht, Hs.
    unfold bind at 1. unfold res_setHeader, with_res at 1.
    unfold bind at 1. cbn [queue_loop]. unfold bind at 1.
    set (t := JObj [("type", JStr "company"); ("url", JStr url)]).
    match goal with |- context [queue_task O true t ?y] => set (x := y) end.
    destruct (queue_task_launch O x Hl) as (w1 & Hb & _).
    destruct (scrape_page_ok O s (JStr url)
                {| now := now w1; lastRun := lastRun w1; timers := timers w1;
                   launched := launched w1;
                   trace := trace w1
                            ++ [EvScrape company (JStr url) JUndefined false];
                   res := res w1 |} Hn Hg Hc Hsc Hev Hcl) as (w2 & Hsp).
    assert (Hscrape :
      scrape O company (session O (launched x)) (field t "url")
        (days_arg company t) (task_login O (field t "login")) w1
      = (Normal (JObj [("url", JStr url);
                       ("scrapedAt",
                        JStr (toISOString
                                (now w1 + Z.of_nat (load_ms s)
                                 + Z.of_nat (eval_ms s))));
                       ("data", data s)]), w2)).
    { unfold task_login, getenv. rewrite He. simpl.
      unfold scrapeCompany. unfold bind at 1. unfold log at 1.
      exact Hsp. }
    destruct (queue_task_returns O true t x company w1 _ w2 eq_refl eq_refl
                Hb Hscrape) as (w3 & E & Hr & _).
    rewrite E. unfold ret at 1. unfold res_end, with_res.
    eexists. eexists. split; [reflexivity |].
    simpl. rewrite Hr. simpl. rewrite Hd. reflexivity.
Qed.

Lemma queue_stream_lines_witness :
  (exists at_ w',
      post_queue (outside no_env (fun _ => ok_page))
        (queue_request true [task "company" acme_url]) (world 1000)
      = (Normal tt, w')
      /\ body (res w')
         = [ndjson
              (JObj [("ok", JBool true); ("type", JStr "company");
                     ("url", JStr acme_url);
                     ("result",
                      JObj [("url", JStr acme_url);
                            ("scrapedAt", JStr (toISOString at_));
                            ("data", JObj [("name", JStr "Acme")])])])])
  /\ (exists envs w',
         post_queue (outside no_env (fun _ => timeout_page))
           (queue_request true [task "company" acme_url; task "foo" "u"])
           (world 1000)
         = (Normal tt, w')
         /\ body (res w') = map ndjson envs
         /\ List.length envs = 2%nat
         /\ split_lines (text_of (map ndjson envs))
            = (map JSON_stringify envs ++ [""])%list).
Proof.
  split.
  - destruct (queue_stream_lines (P := platform)
                (outside no_env (fun _ => ok_page))
                (queue_request true [task "company" acme_url]) (world 1000)
                ltac:(vm_compute; reflexivity)) as (_ & Hone).
    destruct (Hone acme_url) as (at_ & w' & E & Hb);
      try (vm_compute; reflexivity).
    exists at_, w'. split; [exact E | exact Hb].
  - destruct (queue_stream_lines (P := platform)
                (outside no_env (fun _ => timeout_page))
                (queue_request true [task "company" acme_url; task "foo" "u"])
                (world 1000) ltac:(vm_compute; reflexivity)) as (Hall & _).
    destruct (Hall [task "company" acme_url; task "foo" "u"])
      as (envs & w' & E & Hb & Hlen & _ & Hsplit & _);
      [ vm_compute; reflexivity | discriminate | repeat constructor
      | intros i _; reflexivity | ].
    exists envs, w'. split; [exact E |]. split; [exact Hb |].
    split; [exact Hlen | exact Hsplit].
Defined.

(** C2, as stated, fails: a task that is [null] makes the handler throw
    before anything is written, and so does a browser that does not
    start; in both runs the list has one task and the body no line. *)
Lemma queue_stream_lines_lost :
  (exists e w',
      post_queue (outside no_env (fun _ => ok_page))
        (queue_request true [JNull]) (world 1000) = (Throw e, w')
      /\ body (res w') = [])
  /\ (exists e w',
         post_queue (outside no_env (fun _ => no_browser))
           (queue_request true [task "company" acme_url]) (world 1000)
         = (Throw e, w')
         /\ body (res w') = []).
Proof.
  split; eexists; eexists; (split; [vm_compute; reflexivity | reflexivity]).
Qed.

(* ------------------------------------------------------------------ *)
(** * Further properties of the code *)

(** ** The events a computation adds *)

Create HintDb adds.

Lemma adds_ret A q (a : A) : adds q (ret a).
Proof.
  intros w c w' H. inversion H. exists []. rewrite app_nil_r. auto.
Qed.

Lemma adds_throw A q e : adds q (@throw A e).
Proof.
  intros w c w' H. inversion H. exists []. rewrite app_nil_r. auto.
Qed.

Lemma adds_bind A B q (m : M A) (f : A -> M B) :
  adds q m -> (forall a, adds q (f a)) -> adds q (bind m f).
Proof.
  intros Hm Hf w c w' H. apply bind_inv in H.
  destruct H as [(a & w1 & E & H) | (e & E & _)].
  - apply Hm in E. apply Hf in H.
    destruct E as (l1 & T1 & Q1). destruct H as (l2 & T2 & Q2).
    exists (l1 ++ l2)%list. rewrite T2, T1, app_assoc, forallb_app, Q1, Q2.
    auto.
  - apply Hm in E. exact E.
Qed.

Lemma adds_log (q : Event -> bool) e : q e = true -> adds q (log e).
Proof.
  intros Hq w c w' H. inversion H. exists [e]. simpl. rewrite Hq. auto.
Qed.

Lemma adds_elapse q n : adds q (elapse n).
Proof.
  intros w c w' H. inversion H. exists []. simpl. rewrite app_nil_r. auto.
Qed.

Lemma adds_clock q : adds q clock.
Proof.
  intros w c w' H. inversion H. exists []. rewrite app_nil_r. auto.
Qed.

Lemma adds_await q r : adds q (await r).
Proof. destruct r; [apply adds_throw | apply adds_ret]. Qed.

Lemma adds_if A q (b : bool) (m1 m2 : M A) :
  adds q m1 -> adds q m2 -> adds q (if b then m1 else m2).
Proof. destruct b; auto. Qed.

Lemma adds_weaken A (q q' : Event -> bool) (m : M A) :
  (forall e, q e = true -> q' e = true) -> adds q m -> adds q' m.
Proof.
  intros Hq Hm w c w' H. apply Hm in H. destruct H as (evs & T & Q).
  exists evs. split; [exact T |].
  rewrite forallb_forall in *. auto.
Qed.

#[local] Hint Resolve adds_ret adds_throw adds_bind adds_elapse adds_clock
  adds_await adds_if : adds.
#[local] Hint Extern 1 (adds _ (log _)) => apply adds_log; reflexivity : adds.

Section Adds.
Context {P : Platform} (O : Outside).

Lemma adds_ensureLogin s : adds is_page_event (ensureLogin O s).
Proof.
  unfold ensureLogin, loadCookies, saveCookies. auto 20 with adds.
Qed.

Lemma adds_open_page s login : adds is_page_event (open_page O s login).
Proof.
  unfold open_page. apply adds_bind; [auto with adds | intros _].
  apply adds_if; [apply adds_ensureLogin | auto with adds].
Qed.

Lemma adds_open_page_false s : adds is_visit (open_page O s false).
Proof. unfold open_page. auto with adds. Qed.

Lemma adds_page_goto q s url : q (EvGoto url) = true -> adds q (page_goto s url).
Proof.
  intros Hq. unfold page_goto.
  apply adds_bind; [apply adds_log; exact Hq | intros _]. auto with adds.
Qed.

Lemma adds_replace_slash q url : adds q (replace_slash url).
Proof. destruct url; simpl; auto with adds. Qed.

Lemma adds_iso_now q : adds q iso_now.
Proof. unfold iso_now. auto with adds. Qed.

#[local] Hint Resolve adds_open_page adds_open_page_false adds_replace_slash
  adds_iso_now : adds.
#[local] Hint Extern 1 (adds _ (page_goto _ _)) =>
  apply adds_page_goto; reflexivity : adds.

Lemma adds_scrape k s url days login :
  adds is_page_event (scrape O k s url days login).
Proof.
  destruct k; simpl;
    unfold scrapeProfile, scrapeProfilePosts, scrapeCompany,
      scrapeCompanyPosts, scrapeCompanyJobs, scrape_page, scrape_posts,
      autoScroll;
    auto 30 with adds.
Qed.

Lemma adds_scrape_false k s url days :
  adds is_visit (scrape O k s url days false).
Proof.
  destruct k; simpl;
    unfold scrapeProfile, scrapeProfilePosts, scrapeCompany,
      scrapeCompanyPosts, scrapeCompanyJobs, scrape_page, scrape_posts,
      autoScroll;
    auto 30 with adds.
Qed.

End Adds.

Lemma page_events_alternate evs open :
  forallb is_page_event evs = true -> alternates open evs = Some open.
Proof.
  induction evs as [| e evs IH]; simpl; [reflexivity |].
  intros H. apply andb_true_iff in H. destruct H as (He & Hr).
  destruct e; simpl in He; try discriminate; auto.
Qed.

Lemma alternates_app open a b :
  alternates open (a ++ b)
  = match alternates open a with
    | Some o => alternates o b
    | None => None
    end.
Proof.
  revert open. induction a as [| e a IH]; intros open; simpl; [reflexivity |].
  destruct e; simpl; auto; destruct open; auto.
Qed.

Lemma page_events_filter (q : Event -> bool) evs :
  (forall e, is_page_event e = true -> q e = false) ->
  forallb is_page_event evs = true -> filter q evs = [].
Proof.
  intros Hq. induction evs as [| e evs IH]; simpl; [reflexivity |].
  intros H. apply andb_true_iff in H. destruct H as (He & Hr).
  rewrite (Hq _ He). auto.
Qed.

(** ** The four ways a single-task request ends *)

Section Outcomes.
Context {P : Platform} (O : Outside).

Lemma single_task_no_browser k req w e :
  truthy (query req "url") = true ->
  launch (session O (launched w)) = Some e ->
  exists w',
    single_task O k req w = (Throw e, w')
    /\ res w' = res w
    /\ trace w' = (trace w ++ [EvLaunch])%list.
Proof.
  intros Hurl Hl.
  destruct (createBrowser_run O (after_throttle O w))
    as (w1 & Hb & Hr1 & _ & _ & _ & Ht1).
  destruct (after_throttle_frame O w) as (Hr0 & Ht0 & Hl0 & _).
  rewrite Hl0, Hl in Hb.
  exists w1. unfold single_task. unfold bind at 1.
  rewrite after_throttle_eq, Hurl. simpl. unfold bind at 1. rewrite Hb.
  repeat split; congruence.
Qed.

(** Every run of a single-task handler is one of four. *)
Lemma single_task_cases k req w :
  exists ending w',
    match ending with
    | NoUrl =>
        truthy (query req "url") = false
        /\ single_task O k req w = (Normal tt, w')
        /\ status (res w') = 400
        /\ sent (res w') = Some (JObj [("error", JStr (missing_url k))])
        /\ body (res w')
           = (body (res w)
              ++ [JSON_stringify (JObj [("error", JStr (missing_url k))])])%list
        /\ ended (res w') = true
        /\ trace w' = trace w
    | NoBrowser e =>
        truthy (query req "url") = true
        /\ launch (session O (launched w)) = Some e
        /\ single_task O k req w = (Throw e, w')
        /\ res w' = res w
        /\ trace w' = (trace w ++ [EvLaunch])%list
    | Returned v =>
        truthy (query req "url") = true
        /\ launch (session O (launched w)) = None
        /\ single_task O k req w = (Normal tt, w')
        /\ status (res w') = status (res w)
        /\ sent (res w') = Some v
        /\ body (res w') = (body (res w) ++ [JSON_stringify v])%list
        /\ ended (res w') = true
        /\ (exists fs, v = JObj fs)
        /\ exists mid,
             trace w' = (trace w ++ EvLaunch :: mid ++ [EvBrowserClose])%list
             /\ forall q,
                  adds q (scrape O k (session O (launched w)) (query req "url")
                            (query_days req) (query_login O req)) ->
                  forallb q mid = true
    | Threw e =>
        truthy (query req "url") = true
        /\ launch (session O (launched w)) = None
        /\ single_task O k req w = (Normal tt, w')
        /\ status (res w') = 500
        /\ sent (res w') = Some (JObj [("error", JStr (String_of_exn e))])
        /\ body (res w')
           = (body (res w)
              ++ [JSON_stringify (JObj [("error", JStr (String_of_exn e))])])%list
        /\ ended (res w') = true
        /\ exists mid,
             trace w'
             = (trace w ++ EvLaunch :: mid
                  ++ [EvConsoleError e; EvBrowserClose])%list
             /\ forall q,
                  adds q (scrape O k (session O (launched w)) (query req "url")
                            (query_days req) (query_login O req)) ->
                  forallb q mid = true
    end.
Proof.
  destruct (truthy (query req "url")) eqn:Hurl.
  - destruct (launch (session O (launched w))) as [e |] eqn:Hl.
    + destruct (single_task_no_browser k req w e Hurl Hl) as (w' & E & Hr & Ht).
      exists (NoBrowser e), w'. auto.
    + destruct (queue_task_launch O w Hl) as (w1 & Hb & _ & _ & Ht1).
      destruct (scrape O k (session O (launched w)) (query req "url")
                  (query_days req) (query_login O req) w1)
        as [[v | e] w2] eqn:Hs.
      * destruct (single_task_returns O _ _ _ _ _ _ _ Hurl Hb Hs)
          as (w' & E & Hst & Hse & Hbo & Hen & Ht).
        destruct (adds_scrape O _ _ _ _ _ _ _ _ Hs) as (mid & Hm & Hq).
        exists (Returned v), w'. repeat split; auto.
        -- eapply scrape_returns_object. exact Hs.
        -- exists mid. split.
           ++ rewrite Ht, Hm, Ht1, <- !app_assoc. reflexivity.
           ++ intros q Hadd. destruct (Hadd _ _ _ Hs) as (evs & Hm' & Hq').
              rewrite Hm in Hm'. apply app_inv_head in Hm'. subst. exact Hq'.
      * destruct (single_task_throws O _ _ _ _ _ _ _ Hurl Hb Hs)
          as (w' & E & Hst & Hse & Hbo & Hen & Ht).
        destruct (adds_scrape O _ _ _ _ _ _ _ _ Hs) as (mid & Hm & Hq).
        exists (Threw e), w'. repeat split; auto.
        exists mid. split.
        -- rewrite Ht, Hm, Ht1, <- !app_assoc. reflexivity.
        -- intros q Hadd. destruct (Hadd _ _ _ Hs) as (evs & Hm' & Hq').
           rewrite Hm in Hm'. apply app_inv_head in Hm'. subst. exact Hq'.
  - destruct (single_task_falsy O k req w Hurl)
      as (w' & E & Hst & Hse & Hbo & Hen & _ & Ht).
    exists NoUrl, w'. repeat split; auto.
Qed.

End Outcomes.

(** ** POST /queue without tasks *)

(** X1. [POST /queue] whose [tasks] is missing, is not an array or is
    empty is answered at once with 400 and the usage message: the
    throttle is not entered, the clock does not move, no browser is
    launched and the stream header is not set. *)
Theorem queue_rejects_bad_tasks {P : Platform} (O : Outside) (req : Request)
    (w : World) :
  (forall l, body_field req "tasks" (JArr []) <> JArr l)
  \/ body_field req "tasks" (JArr []) = JArr [] ->
  exists w',
    post_queue O req w = (Normal tt, w')
    /\ status (res w') = 400
    /\ sent (res w')
       = Some (JObj [("error",
                      JStr "Provide tasks: [{type,url,days?,login?}, ...]")])
    /\ headers (res w')
       = (headers (res w)
          ++ [("Content-Type", "application/json; charset=utf-8")])%list
    /\ ended (res w') = true
    /\ trace w' = trace w /\ launched w' = launched w
    /\ timers w' = timers w /\ lastRun w' = lastRun w /\ now w' = now w.
Proof.
  intros H. unfold post_queue.
  destruct (body_field req "tasks" (JArr [])) as [| | | | | | [| t rest] |] eqn:E;
    try (eexists; split; [reflexivity |]; simpl; repeat split).
  destruct H as [H | H]; [elim (H (t :: rest)); reflexivity | discriminate].
Qed.

Lemma queue_rejects_bad_tasks_witness :
  exists w',
    post_queue (outside no_env (fun _ => ok_page))
      (request [] (JObj [("tasks", JStr "profile")])) (world 1000)
    = (Normal tt, w')
    /\ status (res w') = 400 /\ timers w' = 0%nat /\ launched w' = 0%nat.
Proof.
  destruct (queue_rejects_bad_tasks (outside no_env (fun _ => ok_page))
              (request [] (JObj [("tasks", JStr "profile")])) (world 1000))
    as (w' & E & Hs & _ & _ & _ & _ & Hl & Ht & _).
  - left. intros l. discriminate.
  - exists w'. repeat split; assumption.
Defined.

(** ** The browser of a single-task request *)

(** X2. A single-task handler launches a browser only when [url] is
    present, launches at most one, and closes the one that started exactly
    once, as the last thing it does, whether the scraper returned or
    threw; all that happens in between happens inside the page. *)
Theorem single_task_closes_browser {P : Platform} (O : Outside) (k : Kind)
    (req : Request) (w : World) :
  exists evs,
    trace (snd (single_task O k req w)) = (trace w ++ evs)%list
    /\ match truthy (query req "url"), launch (session O (launched w)) with
       | false, _ => evs = []
       | true, Some _ => evs = [EvLaunch]
       | true, None =>
           exists mid,
             evs = (EvLaunch :: mid ++ [EvBrowserClose])%list
             /\ filter is_launch mid = [] /\ filter is_close mid = []
       end.
Proof.
  destruct (single_task_cases O k req w) as ([| e | v | e] & w' & H).
  - destruct H as (Hu & E & _ & _ & _ & _ & Ht).
    rewrite E, Hu. exists []. simpl. rewrite app_nil_r. auto.
  - destruct H as (Hu & Hl & E & _ & Ht).
    rewrite E, Hu, Hl. exists [EvLaunch]. auto.
  - destruct H as (Hu & Hl & E & _ & _ & _ & _ & _ & mid & Ht & Hq).
    specialize (Hq _ (adds_scrape O _ _ _ _ _)).
    rewrite E, Hu, Hl. eexists. split; [exact Ht |].
    exists mid. split; [reflexivity |].
    split; apply page_events_filter; auto; intros [] ?; auto; discriminate.
  - destruct H as (Hu & Hl & E & _ & _ & _ & _ & mid & Ht & Hq).
    specialize (Hq _ (adds_scrape O _ _ _ _ _)).
    rewrite E, Hu, Hl. eexists. split; [exact Ht |].
    exists (mid ++ [EvConsoleError e])%list. rewrite <- app_assoc.
    split; [reflexivity |].
    rewrite !filter_app. simpl. rewrite !app_nil_r.
    split; apply page_events_filter; auto; intros [] ?; auto; discriminate.
Qed.

(** ** What a single-task request answers *)

(** X3. The only way a single-task handler fails to answer is a browser
    that does not start: the handler then rejects with the launch error
    and the response is left untouched, neither written nor ended; and a
    handler that rejects has met exactly that. *)
Theorem single_task_unanswered {P : Platform} (O : Outside) (k : Kind)
    (req : Request) (w : World) (e : Exn) :
  (exists w', single_task O k req w = (Throw e, w'))
  <-> truthy (query req "url") = true
      /\ launch (session O (launched w)) = Some e.
Proof.
  destruct (single_task_cases O k req w) as ([| e' | v | e'] & w' & H).
  - destruct H as (Hu & E & _). split.
    + intros (w1 & E1). rewrite E in E1. discriminate.
    + intros (Hu' & _). congruence.
  - destruct H as (Hu & Hl & E & _). split.
    + intros (w1 & E1). rewrite E in E1. inversion E1; subst. auto.
    + intros (_ & Hl'). rewrite Hl in Hl'. inversion Hl'; subst. eauto.
  - destruct H as (Hu & Hl & E & _). split.
    + intros (w1 & E1). rewrite E in E1. discriminate.
    + intros (_ & Hl'). congruence.
  - destruct H as (Hu & Hl & E & _). split.
    + intros (w1 & E1). rewrite E in E1. discriminate.
    + intros (_ & Hl'). congruence.
Qed.

(** X4. When a single-task handler rejects, nothing was sent: the response
    is exactly as it was before the request. *)
Theorem single_task_rejects_silently {P : Platform} (O : Outside) (k : Kind)
    (req : Request) (w : World) (e : Exn) (w' : World) :
  single_task O k req w = (Throw e, w') -> res w' = res w.
Proof.
  intros E.
  destruct (single_task_cases O k req w) as ([| e' | v | e'] & w1 & H).
  - destruct H as (_ & E1 & _). rewrite E in E1. discriminate.
  - destruct H as (_ & _ & E1 & Hr & _). rewrite E in E1.
    inversion E1; subst. exact Hr.
  - destruct H as (_ & _ & E1 & _). rewrite E in E1. discriminate.
  - destruct H as (_ & _ & E1 & _). rewrite E in E1. discriminate.
Qed.

Lemma single_task_rejects_silently_witness :
  exists e w',
    get_profile (outside no_env (fun _ => no_browser))
      (request [("url", JStr "u")] JUndefined) (world 1000) = (Throw e, w')
    /\ res w' = fresh_response.
Proof.
  eassert (E : single_task (outside no_env (fun _ => no_browser)) profile
                 (request [("url", JStr "u")] JUndefined) (world 1000)
               = (Throw _, _)) by (vm_compute; reflexivity).
  eexists. eexists. split; [exact E |].
  exact (single_task_rejects_silently _ _ _ _ _ _ E).
Defined.

(** X5. A single-task handler that completes has sent exactly one body:
    one chunk, the JSON text of an object. Read back, that text gives
    what JSON keeps of the object, [revived]: a member that is [undefined]
    is gone and a [NaN] is [null], as the [days] of a posts record is for
    [days=abc]. The response is ended, and its status is 400 (no [url]),
    500 (the scraper threw) or the one it had. *)
Theorem single_task_answers_json {P : Platform} (O : Outside) (k : Kind)
    (req : Request) (w w' : World) :
  single_task O k req w = (Normal tt, w') ->
  exists fs,
    sent (res w') = Some (JObj fs)
    /\ body (res w') = (body (res w) ++ [JSON_stringify (JObj fs)])%list
    /\ parse_value (size (JObj fs)) (JSON_stringify (JObj fs))
       = Some (revived (JObj fs), "")
    /\ ended (res w') = true
    /\ (status (res w') = 400 /\ truthy (query req "url") = false
        \/ status (res w') = 500
        \/ status (res w') = status (res w)).
Proof.
  intros E.
  assert (Hread : forall fs,
    parse_value (size (JObj fs)) (JSON_stringify (JObj fs))
    = Some (revived (JObj fs), "")).
  { intros fs. rewrite <- (append_nil_r (JSON_stringify (JObj fs))) at 1.
    apply JSON_stringify_reads_back; [discriminate | reflexivity]. }
  destruct (single_task_cases O k req w) as ([| e' | v | e'] & w1 & H).
  - destruct H as (Hu & E1 & Hst & Hse & Hbo & Hen & _).
    rewrite E in E1. inversion E1; subst. eexists.
    split; [exact Hse |]. split; [exact Hbo |]. split; [apply Hread |]. auto.
  - destruct H as (_ & _ & E1 & _). rewrite E in E1. discriminate.
  - destruct H as (_ & _ & E1 & Hst & Hse & Hbo & Hen & (fs & ->) & _).
    rewrite E in E1. inversion E1; subst. exists fs.
    split; [exact Hse |]. split; [exact Hbo |]. split; [apply Hread |]. auto.
  - destruct H as (_ & _ & E1 & Hst & Hse & Hbo & Hen & _).
    rewrite E in E1. inversion E1; subst. eexists.
    split; [exact Hse |]. split; [exact Hbo |]. split; [apply Hread |]. auto.
Qed.

Lemma single_task_answers_json_witness :
  exists w' fs,
    get_company (outside no_env (fun _ => ok_page))
      (request [("url", JStr acme_url)] JUndefined) (world 1000)
    = (Normal tt, w')
    /\ sent (res w') = Some (JObj fs)
    /\ body (res w') = [JSON_stringify (JObj fs)]
    /\ parse_value (size (JObj fs)) (JSON_stringify (JObj fs))
       = Some (revived (JObj fs), "").
Proof.
  eassert (E : single_task (outside no_env (fun _ => ok_page)) company
                 (request [("url", JStr acme_url)] JUndefined) (world 1000)
               = (Normal tt, _)) by (vm_compute; reflexivity).
  destruct (single_task_answers_json _ _ _ _ _ E) as (fs & Hs & Hb & Hp & _).
  eexists. exists fs. split; [exact E |]. split; [exact Hs |].
  split; [exact Hb | exact Hp].
Defined.

(** ** The browsers of the queue *)

Section QueueTrace.
Context {P : Platform} (O : Outside).

Lemma queue_task_stops stream t w :
  nullish t = true \/ launch (session O (launched w)) <> None ->
  exists e w',
    queue_task O stream t w = (Throw e, w')
    /\ res w' = res w
    /\ (launched w' <= S (launched w))%nat
    /\ trace w' = (trace w ++ (if nullish t then [] else [EvLaunch]))%list.
Proof.
  intros Hearly.
  destruct (after_throttle_frame O w) as (Hr0 & Ht0 & Hl0 & _).
  unfold queue_task. unfold bind at 1. rewrite after_throttle_eq.
  destruct (nullish t) eqn:Hn.
  - unfold bind at 1.
    assert (Hp : prop t "login" (after_throttle O w)
                 = (Throw (TypeError ("Cannot read properties of " ++ ToString t
                        ++ " (reading '" ++ "login" ++ "')")),
                    after_throttle O w)).
    { unfold prop. destruct t; simpl in *; try discriminate; reflexivity. }
    rewrite Hp. eexists. eexists. split; [reflexivity |].
    rewrite Hr0, Ht0, Hl0, app_nil_r. repeat split. lia.
  - destruct Hearly as [? | Hl]; [discriminate |].
    rewrite (prop_field _ _ Hn).
    unfold bind at 1. unfold ret at 1. unfold bind at 1.
    destruct (createBrowser_run O (after_throttle O w))
      as (w1 & Hb & Hr1 & Hla1 & _ & _ & Ht1).
    rewrite Hl0 in Hb.
    destruct (launch (session O (launched w))) as [e |]; [| contradiction].
    rewrite Hb. eexists. eexists. split; [reflexivity |].
    rewrite Hr1, Hr0, Ht1, Ht0, Hla1, Hl0. repeat split. lia.
Qed.

Lemma queue_task_runs stream t w :
  nullish t = false ->
  launch (session O (launched w)) = None ->
  exists v w' mid,
    queue_task O stream t w = (Normal v, w')
    /\ is_envelope t v
    /\ res w' = streamed stream (res w) v
    /\ launched w' = S (launched w)
    /\ trace w' = (trace w ++ EvLaunch :: mid ++ [EvBrowserClose])%list
    /\ forall q,
         (forall k, kind_of (field t "type") = Some k ->
                    adds q (scrape O k (session O (launched w)) (field t "url")
                              (days_arg k t) (task_login O (field t "login")))) ->
         forallb q mid = true.
Proof.
  intros Hn Hl.
  destruct (queue_task_launch O w Hl) as (w1 & Hb & _ & _ & Ht1).
  destruct (kind_of (field t "type")) as [k |] eqn:Hk.
  - destruct (scrape O k (session O (launched w)) (field t "url") (days_arg k t)
                (task_login O (field t "login")) w1) as [[out | e] w2] eqn:Hs;
      destruct (adds_scrape O _ _ _ _ _ _ _ _ Hs) as (mid & Hm & Hq).
    + destruct (queue_task_returns O stream _ _ _ _ _ _ Hn Hk Hb Hs)
        as (w' & E & Hr & Hla & Ht).
      exists (ok_envelope t out), w', mid. repeat split; auto.
      * left. eauto.
      * rewrite Ht, Hm, Ht1, <- !app_assoc. reflexivity.
      * intros q Hadd. destruct (Hadd k eq_refl _ _ _ Hs) as (evs & Hm' & Hq').
        rewrite Hm in Hm'. apply app_inv_head in Hm'. subst. exact Hq'.
    + destruct (queue_task_throws O stream _ _ _ _ _ _ Hn Hk Hb Hs)
        as (w' & E & Hr & Hla & Ht).
      exists (error_envelope t e), w', mid. repeat split; auto.
      * right. eauto.
      * rewrite Ht, Hm, Ht1, <- !app_assoc. reflexivity.
      * intros q Hadd. destruct (Hadd k eq_refl _ _ _ Hs) as (evs & Hm' & Hq').
        rewrite Hm in Hm'. apply app_inv_head in Hm'. subst. exact Hq'.
  - destruct (queue_task_unknown O stream _ _ Hn Hl Hk) as (w' & E & Hr & Hla & Ht).
    exists (ok_envelope t (unknown_type t)), w', []. repeat split; auto.
    left. eauto.
Qed.

Lemma queue_loop_app stream pre rest w :
  queue_loop O stream (pre ++ rest) w
  = bind (queue_loop O stream pre) (fun _ => queue_loop O stream rest) w.
Proof.
  revert w. induction pre as [| t pre IH]; intros w; simpl.
  - reflexivity.
  - unfold bind. destruct (queue_task O stream t w) as [[v | e] w1].
    + rewrite IH. reflexivity.
    + reflexivity.
Qed.

End QueueTrace.

(** X6. Whatever the tasks and however the loop of [POST /queue] ends, it
    never has two browsers at once: launches and closes alternate,
    starting with a launch. When the loop completes, every one of the [N]
    tasks got its own browser and all [N] are closed. *)
Theorem queue_browsers_in_turn {P : Platform} (O : Outside) (stream : bool)
    (tasks : list JsVal) (w : World) :
  exists evs b,
    trace (snd (queue_loop O stream tasks w)) = (trace w ++ evs)%list
    /\ alternates false evs = Some b
    /\ (fst (queue_loop O stream tasks w) = Normal tt ->
        b = false
        /\ List.length (filter is_launch evs) = List.length tasks
        /\ List.length (filter is_close evs) = List.length tasks).
Proof.
  revert w. induction tasks as [| t rest IH]; intros w.
  - exists [], false. simpl. rewrite app_nil_r. auto.
  - simpl queue_loop. unfold bind.
    destruct (nullish t) eqn:Hn;
      [| destruct (launch (session O (launched w))) as [e |] eqn:Hl].
    + destruct (queue_task_stops O stream t w (or_introl Hn))
        as (e & w1 & E & _ & _ & Ht).
      rewrite E, Hn in *. exists [], false. simpl.
      split; [exact Ht |]. split; [reflexivity | discriminate].
    + destruct (queue_task_stops O stream t w) as (e' & w1 & E & _ & _ & Ht).
      { right. congruence. }
      rewrite E. rewrite Hn in Ht. exists [EvLaunch], true. simpl.
      split; [exact Ht |]. split; [reflexivity | discriminate].
    + destruct (queue_task_runs O stream t w Hn Hl)
        as (v & w1 & mid & E & _ & _ & _ & Ht & Hq).
      specialize (Hq is_page_event (fun k _ => adds_scrape O _ _ _ _ _)).
      rewrite E. destruct (IH w1) as (evs & b & Ht' & Ha & Hn').
      exists ((EvLaunch :: mid ++ [EvBrowserClose]) ++ evs)%list, b.
      split; [rewrite Ht', Ht, <- app_assoc; reflexivity |].
      split.
      * rewrite alternates_app. simpl. rewrite alternates_app.
        rewrite (page_events_alternate _ _ Hq). simpl. exact Ha.
      * intros Hc. destruct (Hn' Hc) as (Hb & Hla & Hcl).
        split; [exact Hb |].
        rewrite !filter_app. simpl. rewrite !filter_app. simpl.
        rewrite (page_events_filter is_launch mid), (page_events_filter is_close mid);
          auto; try (intros [] ?; auto; discriminate).
        simpl. rewrite Hla, Hcl. auto.
Qed.

(** X7. The loop of [POST /queue] stops at the first task that is [null]
    or whose browser does not start: the handler rejects there. The lines
    of the tasks before it stay written (when streaming), no later task
    is started, and the response is never ended nor given a body by
    [res.json]. *)
Theorem queue_stops_at_bad_task {P : Platform} (O : Outside) (req : Request)
    (pre : list JsVal) (bad : JsVal) (post : list JsVal) (w : World) :
  body_field req "tasks" (JArr []) = JArr (pre ++ bad :: post) ->
  Forall (fun t => nullish t = false) pre ->
  (forall i, (i < List.length pre)%nat ->
             launch (session O (launched w + i)) = None) ->
  nullish bad = true
  \/ launch (session O (launched w + List.length pre)) <> None ->
  exists e envs w',
    post_queue O req w = (Throw e, w')
    /\ Forall2 is_envelope pre envs
    /\ body (res w')
       = (body (res w)
          ++ (if truthy (body_field req "stream" (JBool true))
              then map ndjson envs else []))%list
    /\ ended (res w') = ended (res w)
    /\ sent (res w') = sent (res w)
    /\ (launched w' <= launched w + List.length pre + 1)%nat.
Proof.
  intros Ht Hn Hl Hbad. unfold post_queue. rewrite Ht.
  assert (Hne : exists t0 rest0, (pre ++ bad :: post)%list = t0 :: rest0)
    by (destruct pre; simpl; eauto).
  destruct Hne as (t0 & rest0 & Eq). rewrite Eq. cbv iota. rewrite <- Eq.
  clear Eq t0 rest0.
  set (stream := truthy (body_field req "stream" (JBool true))).
  unfold bind at 1.
  assert (Hhead : exists x,
    (if stream then res_setHeader "Content-Type" "application/x-ndjson"
     else ret tt) w = (Normal tt, x)
    /\ launched x = launched w /\ body (res x) = body (res w)
    /\ ended (res x) = ended (res w) /\ sent (res x) = sent (res w)).
  { destruct stream; eexists; split; try reflexivity; simpl; auto. }
  destruct Hhead as (x & Ex & Hlx & Hbx & Hex & Hsx). rewrite Ex.
  unfold bind at 1. rewrite queue_loop_app. unfold bind at 1.
  destruct (queue_loop_completes O stream pre x Hn) as (envs & w1 & E & Hv & Hr & Hla).
  { intros i Hi. rewrite Hlx. auto. }
  rewrite E. cbn [queue_loop]. unfold bind at 1.
  destruct (queue_task_stops O stream bad w1) as (e & w2 & E2 & Hr2 & Hla2 & _).
  { rewrite Hla, Hlx. exact Hbad. }
  rewrite E2. exists e, envs, w2. split; [reflexivity |].
  split; [exact Hv |]. rewrite Hr2, Hr.
  destruct stream; simpl; rewrite ?Hbx, ?Hex, ?Hsx, ?app_nil_r;
    repeat split; lia.
Qed.

Lemma queue_stops_at_bad_task_witness :
  exists e envs w',
    post_queue (outside no_env (fun _ => ok_page))
      (queue_request true [task "foo" "u"; JNull; task "company" acme_url])
      (world 1000) = (Throw e, w')
    /\ body (res w') = map ndjson envs
    /\ List.length envs = 1%nat
    /\ ended (res w') = false.
Proof.
  destruct (queue_stops_at_bad_task (outside no_env (fun _ => ok_page))
              (queue_request true [task "foo" "u"; JNull; task "company" acme_url])
              [task "foo" "u"] JNull [task "company" acme_url] (world 1000))
    as (e & envs & w' & E & Hv & Hb & He & _).
  - reflexivity.
  - repeat constructor.
  - intros i _. reflexivity.
  - left. reflexivity.
  - exists e, envs, w'. split; [exact E |]. split; [exact Hb |].
    split; [| exact He].
    apply Forall2_length in Hv. simpl in Hv. lia.
Defined.

(** ** Logging in *)

Section LoginFlow.
Context {P : Platform} (O : Outside).

Lemma bind_throws A B (m : M A) (f : A -> M B) w e w' :
  m w = (Throw e, w') -> bind m f w = (Throw e, w').
Proof. intros H. unfold bind. rewrite H. reflexivity. Qed.

Lemma ensureLogin_run s w :
  exists w',
    ensureLogin O s w
    = (match feed_goto s with
       | Some e => Throw e
       | None =>
           if Str.includes "/login" (feed_url s) || feed_username s then
             if negb (truthy (getenv O "LINKEDIN_EMAIL"))
                || negb (truthy (getenv O "LINKEDIN_PASSWORD"))
             then Throw (Error "Missing LINKEDIN_EMAIL / LINKEDIN_PASSWORD")
             else match login_form s with
                  | Some e => Throw e
                  | None => Normal tt
                  end
           else Normal tt
       end, w')
    /\ now w' = now w
    /\ trace w'
       = (trace w ++ EvEnsureLogin :: EvLoadCookies
            :: (match feed_goto s with
                | Some _ => []
                | None =>
                    if (Str.includes "/login" (feed_url s) || feed_username s)
                       && truthy (getenv O "LINKEDIN_EMAIL")
                       && truthy (getenv O "LINKEDIN_PASSWORD")
                    then match login_form s with
                         | Some _ => []
                         | None => [EvSaveCookies]
                         end
                    else []
                end))%list.
Proof.
  unfold ensureLogin, loadCookies, saveCookies, bind, log, await, ret, throw.
  simpl.
  destruct (feed_goto s);
    [eexists; split; [reflexivity |]; simpl; rewrite <- app_assoc; auto |].
  destruct (Str.includes "/login" (feed_url s) || feed_username s); simpl;
    [| eexists; split; [reflexivity |]; simpl; rewrite <- app_assoc; auto].
  destruct (truthy (getenv O "LINKEDIN_EMAIL")); simpl;
    [| eexists; split; [reflexivity |]; simpl; rewrite <- app_assoc; auto].
  destruct (truthy (getenv O "LINKEDIN_PASSWORD")); simpl;
    [| eexists; split; [reflexivity |]; simpl; rewrite <- app_assoc; auto].
  destruct (login_form s); eexists; (split; [reflexivity |]); simpl;
    rewrite <- !app_assoc; auto.
Qed.

End LoginFlow.

(** X8. [ensureLogin] writes the cookies only after it went through the
    login form: never when the stored cookies were enough (the feed is not
    a login page), never when a credential is missing, never when the
    form failed. It completes exactly when the feed loads and either no
    login is asked for or both credentials are there and the form goes
    through; asked to log in without both credentials it throws the
    credentials error before it touches the form. *)
Theorem ensureLogin_outcomes {P : Platform} (O : Outside) (s : Session)
    (w : World) :
  let asked := Str.includes "/login" (feed_url s) || feed_username s in
  let creds := truthy (getenv O "LINKEDIN_EMAIL")
               && truthy (getenv O "LINKEDIN_PASSWORD") in
  let r := ensureLogin O s w in
  (existsb is_save (skipn (List.length (trace w)) (trace (snd r))) = true
   <-> feed_goto s = None /\ asked = true /\ creds = true
       /\ login_form s = None)
  /\ (fst r = Normal tt
      <-> feed_goto s = None
          /\ (asked = false \/ creds = true /\ login_form s = None))
  /\ (feed_goto s = None -> asked = true -> creds = false ->
      fst r = Throw (Error "Missing LINKEDIN_EMAIL / LINKEDIN_PASSWORD")).
Proof.
  intros asked creds r. subst r.
  destruct (ensureLogin_run O s w) as (w' & E & _ & Ht).
  rewrite E. simpl fst. simpl snd. rewrite Ht.
  rewrite skipn_app, Nat.sub_diag, skipn_all. simpl.
  subst asked creds.
  destruct (feed_goto s) as [e |],
    (Str.includes "/login" (feed_url s) || feed_username s),
    (truthy (getenv O "LINKEDIN_EMAIL")),
    (truthy (getenv O "LINKEDIN_PASSWORD")),
    (login_form s) as [e' |]; simpl;
    repeat split; intros; try discriminate; try reflexivity;
    intuition (try discriminate; try congruence).
Qed.

Section LoginWall.
Context {P : Platform} (O : Outside).

Lemma open_page_wall s w :
  newPage s = None -> feed_goto s = None ->
  Str.includes "/login" (feed_url s) || feed_username s = true ->
  truthy (getenv O "LINKEDIN_EMAIL") && truthy (getenv O "LINKEDIN_PASSWORD")
  = false ->
  exists w',
    open_page O s true w
    = (Throw (Error "Missing LINKEDIN_EMAIL / LINKEDIN_PASSWORD"), w')
    /\ trace w' = (trace w ++ [EvEnsureLogin; EvLoadCookies])%list.
Proof.
  intros Hn Hf Ha Hc.
  destruct (ensureLogin_run O s w) as (w' & E & _ & Ht).
  rewrite Hf, Ha in E, Ht.
  assert (Hc' : negb (truthy (getenv O "LINKEDIN_EMAIL"))
                || negb (truthy (getenv O "LINKEDIN_PASSWORD")) = true).
  { destruct (truthy (getenv O "LINKEDIN_EMAIL")),
      (truthy (getenv O "LINKEDIN_PASSWORD")); simpl in *; congruence. }
  rewrite Hc' in E. simpl in Ht. rewrite Hc in Ht.
  exists w'. unfold open_page. rewrite Hn. simpl await.
  unfold bind at 1. unfold ret at 1. split; [exact E | exact Ht].
Qed.

Lemma scrape_login_wall k s url days w :
  newPage s = None -> feed_goto s = None ->
  Str.includes "/login" (feed_url s) || feed_username s = true ->
  truthy (getenv O "LINKEDIN_EMAIL") && truthy (getenv O "LINKEDIN_PASSWORD")
  = false ->
  exists w' d,
    scrape O k s url days true w
    = (Throw (Error "Missing LINKEDIN_EMAIL / LINKEDIN_PASSWORD"), w')
    /\ trace w'
       = (trace w ++ [EvScrape k url d true; EvEnsureLogin; EvLoadCookies])%list.
Proof.
  intros Hn Hf Ha Hc.
  destruct k; simpl;
    unfold scrapeProfile, scrapeProfilePosts, scrapeCompany,
      scrapeCompanyPosts, scrapeCompanyJobs, scrape_page;
    unfold bind at 1; unfold log at 1;
    match goal with
    | |- context [bind (open_page O s true) ?K ?x] =>
        destruct (open_page_wall s x Hn Hf Ha Hc) as (w' & E & Ht);
        rewrite (bind_throws _ _ _ K _ _ _ E)
    end;
    exists w'; eexists; (split; [reflexivity |]);
    rewrite Ht; simpl; rewrite <- app_assoc; reflexivity.
Qed.

End LoginWall.

(** X9. With [ensureLogin] as in [scraper.js], lines 50-68: a single-task
    request for which the login flow is engaged, whose browser lands on
    the login page and for which a credential is missing (always the case
    when [login=1] is sent and [LINKEDIN_EMAIL] is not set) is answered
    500 with the error that [ensureLogin] throws,
    [Error: Missing LINKEDIN_EMAIL / LINKEDIN_PASSWORD]. The address asked
    for is never opened and the browser is closed. *)
Theorem login_wall_gives_500 {P : Platform} (O : Outside) (k : Kind)
    (req : Request) (w : World) :
  let s := session O (launched w) in
  truthy (query req "url") = true ->
  query_login O req = true ->
  launch s = None -> newPage s = None -> feed_goto s = None ->
  Str.includes "/login" (feed_url s) || feed_username s = true ->
  truthy (getenv O "LINKEDIN_EMAIL") && truthy (getenv O "LINKEDIN_PASSWORD")
  = false ->
  exists w' d,
    single_task O k req w = (Normal tt, w')
    /\ status (res w') = 500
    /\ sent (res w')
       = Some (JObj [("error",
            JStr "Error: Missing LINKEDIN_EMAIL / LINKEDIN_PASSWORD")])
    /\ trace w'
       = (trace w
          ++ [EvLaunch; EvScrape k (query req "url") d true; EvEnsureLogin;
              EvLoadCookies;
              EvConsoleError (Error "Missing LINKEDIN_EMAIL / LINKEDIN_PASSWORD");
              EvBrowserClose])%list.
Proof.
  intros s Hurl Hlogin Hl Hn Hf Ha Hc.
  destruct (queue_task_launch O w Hl) as (w1 & Hb & _ & _ & Ht1).
  destruct (scrape_login_wall O k s (query req "url") (query_days req) w1
              Hn Hf Ha Hc) as (w2 & d & Hs & Ht2).
  assert (Hs' : scrape O k s (query req "url") (query_days req)
                  (query_login O req) w1
                = (Throw (Error "Missing LINKEDIN_EMAIL / LINKEDIN_PASSWORD"), w2))
    by (rewrite Hlogin; exact Hs).
  destruct (single_task_throws O _ _ _ _ _ _ _ Hurl Hb Hs')
    as (w' & E & Hst & Hse & _ & _ & Ht).
  exists w', d. split; [exact E |]. split; [exact Hst |].
  split; [exact Hse |].
  rewrite Ht, Ht2, Ht1, <- !app_assoc. reflexivity.
Qed.

Lemma login_wall_gives_500_witness :
  exists w',
    get_profile
      (outside no_env
         (fun _ => {| launch := None; launch_ms := 0; newPage := None;
                      feed_goto := None;
                      feed_url := "https://www.linkedin.com/login";
                      feed_username := true; login_form := None;
                      goto := None; load_ms := 0; page_url := "";
                      content := ""; scroll := None; evaluate := None;
                      data := JNull; nodes := []; cards := []; eval_ms := 0;
                      close := None; shutdown := None |}))
      (request [("url", JStr "u"); ("login", JStr "1")] JUndefined)
      (world 1000) = (Normal tt, w')
    /\ status (res w') = 500
    /\ existsb is_goto (trace w') = false.
Proof.
  edestruct (login_wall_gives_500 (P := platform)
               (outside no_env
                  (fun _ => {| launch := None; launch_ms := 0; newPage := None;
                               feed_goto := None;
                               feed_url := "https://www.linkedin.com/login";
                               feed_username := true; login_form := None;
                               goto := None; load_ms := 0; page_url := "";
                               content := ""; scroll := None; evaluate := None;
                               data := JNull; nodes := []; cards := [];
                               eval_ms := 0; close := None; shutdown := None |}))
               profile
               (request [("url", JStr "u"); ("login", JStr "1")] JUndefined)
               (world 1000))
    as (w' & d & E & Hs & _ & Ht);
    try (vm_compute; reflexivity).
  exists w'. split; [exact E |]. split; [exact Hs |].
  rewrite Ht. reflexivity.
Defined.

(** X10. When the request does not say [login=1] and [LINKEDIN_EMAIL] is
    unset or empty, a single-task handler never touches the session: no
    [ensureLogin], no cookie is read or written; the scraper only
    navigates. *)
Theorem no_login_no_session {P : Platform} (O : Outside) (k : Kind)
    (req : Request) (w : World) :
  query req "login" <> JStr "1" ->
  env O "LINKEDIN_EMAIL" = None \/ env O "LINKEDIN_EMAIL" = Some "" ->
  query_login O req = false
  /\ exists evs,
       trace (snd (single_task O k req w)) = (trace w ++ evs)%list
       /\ existsb is_session evs = false.
Proof.
  intros Hq He.
  assert (Hlogin : query_login O req = false).
  { unfold query_login, getenv.
    replace (strict_eq_str (query req "login") "1") with false.
    - destruct He as [-> | ->]; reflexivity.
    - symmetry. destruct (strict_eq_str (query req "login") "1") eqn:E; auto.
      apply strict_eq_str_true in E. contradiction. }
  split; [exact Hlogin |].
  assert (Hno : forall mid, forallb is_visit mid = true ->
                            existsb is_session mid = false).
  { induction mid as [| e mid IH]; simpl; auto.
    intros H. apply andb_true_iff in H. destruct H as (H1 & H2).
    rewrite (IH H2). destruct e; simpl in *; auto; discriminate. }
  destruct (single_task_cases O k req w) as ([| e | v | e] & w' & H).
  - destruct H as (_ & E & _ & _ & _ & _ & Ht).
    rewrite E. exists []. simpl. rewrite app_nil_r. auto.
  - destruct H as (_ & _ & E & _ & Ht). rewrite E. exists [EvLaunch]. auto.
  - destruct H as (_ & _ & E & _ & _ & _ & _ & _ & mid & Ht & Hm).
    rewrite E. eexists. split; [exact Ht |].
    rewrite Hlogin in Hm. specialize (Hm _ (adds_scrape_false O _ _ _ _)).
    simpl. rewrite existsb_app, (Hno _ Hm). reflexivity.
  - destruct H as (_ & _ & E & _ & _ & _ & _ & mid & Ht & Hm).
    rewrite E. eexists. split; [exact Ht |].
    rewrite Hlogin in Hm. specialize (Hm _ (adds_scrape_false O _ _ _ _)).
    simpl. rewrite existsb_app, (Hno _ Hm). reflexivity.
Qed.

Lemma no_login_no_session_witness :
  exists evs,
    trace (snd (get_company (outside no_env (fun _ => ok_page))
                  (request [("url", JStr acme_url); ("login", JStr "0")]
                     JUndefined) (world 1000))) = evs
    /\ existsb is_session evs = false.
Proof.
  destruct (no_login_no_session (outside no_env (fun _ => ok_page)) company
              (request [("url", JStr acme_url); ("login", JStr "0")] JUndefined)
              (world 1000)) as (_ & evs & Ht & Hs).
  - discriminate.
  - left. reflexivity.
  - exists evs. split; [exact Ht | exact Hs].
Defined.

(** ** Addresses and substrings *)

Lemma prefix_app p b : String.prefix p (p ++ b) = true.
Proof.
  induction p as [| c p IH]; simpl; [destruct b; reflexivity |].
  destruct (ascii_dec c c) as [_ | N]; [exact IH | contradiction].
Qed.

Lemma prefix_split p s : String.prefix p s = true -> exists b, s = (p ++ b)%string.
Proof.
  revert s. induction p as [| c p IH]; intros s H.
  - exists s. reflexivity.
  - destruct s as [| c' s]; [discriminate |]. simpl in H.
    destruct (ascii_dec c c') as [-> | N]; [| discriminate].
    destruct (IH _ H) as (b & ->). exists b. reflexivity.
Qed.

Lemma includes_spec needle hay :
  Str.includes needle hay = true
  <-> exists a b, hay = (a ++ needle ++ b)%string.
Proof.
  split.
  - induction hay as [| c hay IH].
    + change (Str.includes needle "") with (String.prefix needle "" || false).
      rewrite orb_false_r. intros H. apply prefix_split in H.
      destruct H as (b & H). exists "", b. exact H.
    + change (Str.includes needle (String c hay))
        with (String.prefix needle (String c hay) || Str.includes needle hay).
      intros H. apply orb_true_iff in H. destruct H as [H | H].
      * apply prefix_split in H. destruct H as (b & H). exists "", b. exact H.
      * destruct (IH H) as (a & b & ->). exists (String c a), b. reflexivity.
  - intros (a & b & ->). induction a as [| c a IH].
    + change ("" ++ needle ++ b)%string with (needle ++ b)%string.
      assert (H : forall h, Str.includes needle h
                            = String.prefix needle h
                              || match h with
                                 | EmptyString => false
                                 | String _ r => Str.includes needle r
                                 end) by (destruct h; reflexivity).
      rewrite H, prefix_app. reflexivity.
    + change (Str.includes needle (String c a ++ needle ++ b))
        with (String.prefix needle (String c (a ++ needle ++ b))
              || Str.includes needle (a ++ needle ++ b)).
      rewrite IH. apply orb_true_r.
Qed.

Lemma lower_app a b : Str.lower (a ++ b) = (Str.lower a ++ Str.lower b)%string.
Proof. induction a; simpl; congruence. Qed.

Lemma lower_split s p q :
  Str.lower s = (p ++ q)%string ->
  exists s1 s2, s = (s1 ++ s2)%string /\ Str.lower s1 = p /\ Str.lower s2 = q.
Proof.
  revert s. induction p as [| c p IH]; intros s H.
  - exists "", s. auto.
  - destruct s as [| c' s]; [discriminate |].
    simpl in H. inversion H as [[Hc Hr]].
    destruct (IH _ Hr) as (s1 & s2 & -> & H1 & H2).
    exists (String c' s1), s2. simpl. rewrite H1. auto.
Qed.

Lemma lower_char_idem c : Str.lower_char (Str.lower_char c) = Str.lower_char c.
Proof. destruct c as [[] [] [] [] [] [] [] []]; reflexivity. Qed.

Lemma lower_idem s : Str.lower (Str.lower s) = Str.lower s.
Proof.
  induction s; simpl; [reflexivity |]. rewrite lower_char_idem. congruence.
Qed.

(** X11. [looksLikeCaptcha] holds exactly of a page whose address contains
    [checkpoint/challenge] somewhere, or whose HTML contains the word
    [captcha] somewhere in any mix of upper and lower case; an empty
    address and an empty document are no challenge. *)
Theorem looksLikeCaptcha_spec (url html : string) :
  looksLikeCaptcha url html = true
  <-> (exists a b, url = (a ++ "checkpoint/challenge" ++ b)%string)
      \/ (exists a x b, html = (a ++ x ++ b)%string
                        /\ Str.lower x = "captcha").
Proof.
  unfold looksLikeCaptcha, Str.test_ci. rewrite orb_true_iff, !andb_true_iff.
  rewrite !includes_spec. split.
  - intros [(_ & a & b & H) | (_ & a & b & H)].
    + left. eauto.
    + right. apply lower_split in H. destruct H as (s1 & s2 & -> & H1 & H2).
      apply lower_split in H2. destruct H2 as (x & s3 & -> & Hx & H3).
      exists s1, x, s3. auto.
  - intros [(a & b & ->) | (a & x & b & -> & Hx)].
    + left. split; [| eauto]. destruct a; reflexivity.
    + right. split.
      * destruct a; simpl; [| reflexivity].
        destruct x; [discriminate | reflexivity].
      * exists (Str.lower a), (Str.lower b).
        rewrite !lower_app, Hx. reflexivity.
Qed.

Lemma ends_with_slash_app u : Str.ends_with_slash (u ++ "/") = true.
Proof.
  induction u as [| c u IH]; [reflexivity |].
  simpl. destruct (u ++ "/")%string eqn:E; [destruct u; discriminate |].
  exact IH.
Qed.

Lemma slash_end_ends u : Str.ends_with_slash (Str.slash_end u) = true.
Proof.
  unfold Str.slash_end. destruct (Str.ends_with_slash u) eqn:E;
    [exact E | apply ends_with_slash_app].
Qed.

Section Addresses.
Context {P : Platform} (O : Outside).

Lemma scrape_posts_url s url days item w v w' :
  scrape_posts s url days item w = (Normal v, w') -> get v "url" = Some url.
Proof.
  unfold scrape_posts, autoScroll, iso_now. intros H.
  repeat peel H. inversion H; subst. reflexivity.
Qed.

Lemma replace_slash_normal url w b w' :
  replace_slash url w = (Normal b, w') ->
  exists u, url = JStr u /\ b = Str.slash_end u /\ w' = w.
Proof.
  destruct url; simpl; unfold ret, throw; intros H; inversion H; eauto.
Qed.

Lemma company_scraper_url k s u days login w v w' :
  k = company_posts \/ k = jobs_company ->
  scrape O k s (JStr u) days login w = (Normal v, w') ->
  get v "url" = Some (JStr (Str.slash_end u ++ suffix_of k)).
Proof.
  intros [-> | ->] H; simpl in H;
    unfold scrapeCompanyPosts, scrapeCompanyJobs in H.
  - peel H. peel H. peel H. apply replace_slash_normal in E1.
    destruct E1 as (u' & Hu & -> & ->). inversion Hu; subst.
    apply scrape_posts_url in H. exact H.
  - peel H. peel H. peel H. apply replace_slash_normal in E1.
    destruct E1 as (u' & Hu & -> & ->). inversion Hu; subst.
    unfold autoScroll, iso_now in H. repeat peel H.
    inversion H; subst. reflexivity.
Qed.

Lemma profile_posts_url s u days login w v w' :
  scrapeProfilePosts O s (JStr u) days login w = (Normal v, w') ->
  get v "url" = Some (JStr (posts_url u)).
Proof.
  unfold scrapeProfilePosts, posts_url. intros H. simpl ToString in H.
  peel H. peel H. peel H. apply scrape_posts_url in H.
  destruct (Str.test_ci "detail/recent-activity" u); simpl in E1.
  - inversion E1; subst. exact H.
  - inversion E1; subst. exact H.
Qed.

End Addresses.

(** X12. The company posts and jobs scrapers report the address [url]
    followed by [posts/] or [jobs/], with a slash put in between when
    [url] does not end with one; nothing of [url] is taken away, so a
    [url] that ends with two slashes keeps both. An address that does not
    end with a slash and the same address with one slash added give the
    same page, and adding the slash a second time changes nothing. *)
Theorem company_pages_ignore_final_slash {P : Platform} (O : Outside) :
  (forall k s u days login w v w',
      k = company_posts \/ k = jobs_company ->
      scrape O k s (JStr u) days login w = (Normal v, w') ->
      get v "url"
      = Some (JStr ((if Str.ends_with_slash u then u else u ++ "/")
                    ++ suffix_of k)))
  /\ (forall u,
         Str.ends_with_slash u = false ->
         Str.slash_end (u ++ "/") = Str.slash_end u)
  /\ (forall u, Str.slash_end (Str.slash_end u) = Str.slash_end u).
Proof.
  split; [| split].
  - intros k s u days login w v w' Hk H.
    apply (company_scraper_url O _ _ _ _ _ _ _ _ Hk H).
  - intros u Hu. unfold Str.slash_end at 1. rewrite ends_with_slash_app.
    unfold Str.slash_end. rewrite Hu. reflexivity.
  - intros u. unfold Str.slash_end at 1. rewrite slash_end_ends. reflexivity.
Qed.

Lemma company_pages_ignore_final_slash_witness :
  exists v v',
    fst (scrapeCompanyJobs (outside no_env (fun _ => ok_page)) ok_page
           (JStr "https://x/company/acme") false (world 1000)) = Normal v
    /\ fst (scrapeCompanyJobs (outside no_env (fun _ => ok_page)) ok_page
              (JStr "https://x/company/acme/") false (world 1000)) = Normal v'
    /\ get v "url" = Some (JStr "https://x/company/acme/jobs/")
    /\ get v' "url" = Some (JStr "https://x/company/acme/jobs/").
Proof.
  pose proof (company_pages_ignore_final_slash (P := platform)
                (outside no_env (fun _ => ok_page))) as (Hurl & _).
  eassert (E : scrape (outside no_env (fun _ => ok_page)) jobs_company ok_page
                 (JStr "https://x/company/acme") JUndefined false (world 1000)
               = (Normal _, _)) by (vm_compute; reflexivity).
  eassert (E' : scrape (outside no_env (fun _ => ok_page)) jobs_company ok_page
                  (JStr "https://x/company/acme/") JUndefined false (world 1000)
                = (Normal _, _)) by (vm_compute; reflexivity).
  eexists. eexists.
  split; [vm_compute; reflexivity |]. split; [vm_compute; reflexivity |].
  split.
  - exact (Hurl _ _ _ _ _ _ _ _ (or_intror eq_refl) E).
  - exact (Hurl _ _ _ _ _ _ _ _ (or_intror eq_refl) E').
Defined.

(** X13. The address [scrapeProfilePosts] reports is the profile address
    itself when it already names the recent-activity page (in any letter
    case); otherwise it is that address, with a slash added when it does
    not end with one (and nothing taken away when it ends with several),
    followed by [detail/recent-activity/shares/]. Asking again with the
    reported address gives the same address: the derivation is
    idempotent. *)
Theorem profile_posts_address {P : Platform} (O : Outside) :
  (forall s u days login w v w',
      scrapeProfilePosts O s (JStr u) days login w = (Normal v, w') ->
      get v "url"
      = Some (JStr (if Str.test_ci "detail/recent-activity" u then u
                    else Str.slash_end u ++ "detail/recent-activity/shares/")))
  /\ (forall u, posts_url (posts_url u) = posts_url u).
Proof.
  split.
  - intros s u days login w v w' H. apply (profile_posts_url O _ _ _ _ _ _ _ H).
  - intros u. unfold posts_url.
    destruct (Str.test_ci "detail/recent-activity" u) eqn:E.
    + rewrite E. reflexivity.
    + replace (Str.test_ci "detail/recent-activity"
                 (Str.slash_end u ++ "detail/recent-activity/shares/"))
        with true; [reflexivity |].
      symmetry. unfold Str.test_ci. apply includes_spec.
      exists (Str.lower (Str.slash_end u)), "/shares/".
      rewrite lower_app. reflexivity.
Qed.

Lemma profile_posts_address_witness :
  exists v,
    fst (scrapeProfilePosts (outside no_env (fun _ => ok_page)) ok_page
           (JStr "https://x/in/a/Detail/Recent-Activity/all/") (JNum 7) false
           (world 1000)) = Normal v
    /\ get v "url" = Some (JStr "https://x/in/a/Detail/Recent-Activity/all/").
Proof.
  pose proof (profile_posts_address (P := platform)
                (outside no_env (fun _ => ok_page))) as (Hurl & _).
  eassert (E : scrapeProfilePosts (outside no_env (fun _ => ok_page)) ok_page
                 (JStr "https://x/in/a/Detail/Recent-Activity/all/") (JNum 7)
                 false (world 1000) = (Normal _, _))
    by (vm_compute; reflexivity).
  eexists. split; [vm_compute; reflexivity |].
  exact (Hurl _ _ _ _ _ _ _ E).
Defined.

(** ** Challenges on the posts and jobs pages *)

(** X14. The posts and jobs scrapers have no challenge check: whatever the
    page, also one [looksLikeCaptcha] would flag, a run that returns gives
    an ordinary record with its [url], [scrapedAt] and list, and never
    the [captcha_or_challenge] marker. *)
Theorem posts_and_jobs_never_flag {P : Platform} (O : Outside) (k : Kind)
    (s : Session) (url days : JsVal) (login : bool) (w : World) (v : JsVal)
    (w' : World) :
  k = profile_posts \/ k = company_posts \/ k = jobs_company ->
  scrape O k s url days login w = (Normal v, w') ->
  get v "error" = Some JUndefined
  /\ (exists u, get v "url" = Some u)
  /\ (exists at_, get v "scrapedAt" = Some (JStr (toISOString at_)))
  /\ exists l, get v (match k with jobs_company => "jobs" | _ => "items" end)
               = Some (JArr l).
Proof.
  intros Hk H.
  destruct Hk as [-> | [-> | ->]]; simpl in H;
    unfold scrapeProfilePosts, scrapeCompanyPosts, scrapeCompanyJobs,
      scrape_posts, autoScroll, iso_now in H;
    repeat peel H; inversion H; subst;
    match goal with
    | E : bind clock _ _ = _ |- _ => peel E; inversion E; subst
    end;
    simpl; repeat split; eauto.
Qed.

Lemma posts_and_jobs_never_flag_witness :
  looksLikeCaptcha (page_url challenge_page) (content challenge_page) = true
  /\ exists v l,
       fst (scrapeCompanyJobs (outside no_env (fun _ => challenge_page))
              challenge_page (JStr "https://x/company/acme") false (world 1000))
       = Normal v
       /\ get v "error" = Some JUndefined
       /\ get v "jobs" = Some (JArr l).
Proof.
  split; [reflexivity |].
  eassert (E : scrape (outside no_env (fun _ => challenge_page)) jobs_company
                 challenge_page (JStr "https://x/company/acme") JUndefined false
                 (world 1000) = (Normal _, _)) by (vm_compute; reflexivity).
  destruct (posts_and_jobs_never_flag _ _ _ _ _ _ _ _ _
              (or_intror (or_intror eq_refl)) E) as (He & _ & _ & l & Hl).
  eexists. exists l. split; [vm_compute; reflexivity |].
  split; [exact He | exact Hl].
Defined.

(** ** A queue task without [url] *)

Lemma scrape_missing_url {P : Platform} (O : Outside) k s days w :
  k = profile_posts \/ k = company_posts \/ k = jobs_company ->
  newPage s = None ->
  exists w' d,
    scrape O k s JUndefined days false w
    = (Throw (TypeError "Cannot read properties of undefined (reading 'replace')"),
       w')
    /\ trace w' = (trace w ++ [EvScrape k JUndefined d false])%list.
Proof.
  intros Hk Hn.
  destruct Hk as [-> | [-> | ->]]; simpl;
    unfold scrapeProfilePosts, scrapeCompanyPosts, scrapeCompanyJobs, open_page;
    rewrite Hn; eexists; eexists; (split; [reflexivity |]); reflexivity.
Qed.

(** X15. Take a queue task of kind [profile_posts], [company_posts] or
    [jobs_company] that has no [url], for which the login flow is not
    engaged ([t.login] is not 1 and [LINKEDIN_EMAIL] is unset or empty)
    and whose browser and page open. It fails inside the scraper, on
    [url.replace], before any navigation: its envelope is
    [{ok: false, type, error: "TypeError: Cannot read properties of
    undefined (reading 'replace')"}], and the browser launched for it is
    closed. *)
Theorem queue_task_without_url {P : Platform} (O : Outside) (stream : bool)
    (t : JsVal) (k : Kind) (w : World) :
  nullish t = false ->
  kind_of (field t "type") = Some k ->
  k = profile_posts \/ k = company_posts \/ k = jobs_company ->
  field t "url" = JUndefined ->
  task_login O (field t "login") = false ->
  launch (session O (launched w)) = None ->
  newPage (session O (launched w)) = None ->
  exists w' d,
    let v := JObj [("ok", JBool false); ("type", field t "type");
                   ("url", JUndefined);
                   ("error",
                    JStr "TypeError: Cannot read properties of undefined (reading 'replace')")] in
    queue_task O stream t w = (Normal v, w')
    /\ res w' = (if stream then written (res w) [ndjson v] else res w)
    /\ trace w'
       = (trace w ++ [EvLaunch; EvScrape k JUndefined d false;
                      EvBrowserClose])%list.
Proof.
  intros Hn Hk Hk3 Hu Hlog Hl Hnp.
  destruct (queue_task_launch O w Hl) as (w1 & Hb & _ & _ & Ht1).
  destruct (scrape_missing_url O k (session O (launched w)) (days_arg k t) w1
              Hk3 Hnp) as (w2 & d & Hs & Ht2).
  assert (Hs' : scrape O k (session O (launched w)) (field t "url")
                  (days_arg k t) (task_login O (field t "login")) w1
                = (Throw (TypeError
                     "Cannot read properties of undefined (reading 'replace')"),
                   w2)) by (rewrite Hu, Hlog; exact Hs).
  destruct (queue_task_throws O stream _ _ _ _ _ _ Hn Hk Hb Hs')
    as (w' & E & Hr & _ & Ht).
  exists w', d. unfold error_envelope in E, Hr. rewrite Hu in E, Hr.
  split; [exact E |]. split; [exact Hr |].
  rewrite Ht, Ht2, Ht1, <- !app_assoc. reflexivity.
Qed.

Lemma queue_task_without_url_witness :
  exists w',
    queue_task (outside no_env (fun _ => ok_page)) true
      (JObj [("type", JStr "jobs_company")]) (world 1000)
    = (Normal (JObj [("ok", JBool false); ("type", JStr "jobs_company");
                     ("url", JUndefined);
                     ("error",
                      JStr "TypeError: Cannot read properties of undefined (reading 'replace')")]),
       w')
    /\ existsb is_goto (trace w') = false.
Proof.
  edestruct (queue_task_without_url (P := platform)
               (outside no_env (fun _ => ok_page)) true
               (JObj [("type", JStr "jobs_company")]) jobs_company (world 1000))
    as (w' & d & E & _ & Ht);
    try reflexivity.
  - right. right. reflexivity.
  - exists w'. split; [exact E |]. rewrite Ht. reflexivity.
Defined.

(** ** The look-back window *)

Section Window.
Context {P : Platform}.

Lemma recent_mono c1 c2 it :
  c1 <= c2 -> recent (Some c2) it = true -> recent (Some c1) it = true.
Proof.
  unfold recent, isAfter. intros Hc.
  destruct (negb _); [reflexivity |].
  destruct (timeRaw it) as [s |]; [| reflexivity].
  destruct (dayjs_parse s) as [p |]; [| reflexivity].
  rewrite !Z.ltb_lt. lia.
Qed.

Lemma recent_invalid it :
  timeRaw it <> Some "" ->
  recent None it = true <-> ~ dated it.
Proof.
  intros Hne. unfold recent, isAfter, dated.
  destruct (timeRaw it) as [s |] eqn:Et; simpl.
  - destruct (s =? "")%string eqn:Es.
    + apply String.eqb_eq in Es. subst. contradiction.
    + simpl. destruct (dayjs_parse s) as [p |] eqn:Ep.
      * split; [discriminate |]. intros H. elim H. eauto.
      * split; [| reflexivity]. intros _ (s' & p & H1 & H2).
        inversion H1; subst. congruence.
  - split; [| reflexivity]. intros _ (s' & p & H1 & _). discriminate.
Qed.

End Window.

Lemma filter_recent_mono {P : Platform} (c1 c2 : Z) (items : list PostItem) :
  c1 <= c2 ->
  filter (recent (Some c2)) items
  = filter (recent (Some c2)) (filter (recent (Some c1)) items)
  /\ incl (filter (recent (Some c2)) items) (filter (recent (Some c1)) items).
Proof.
  intros Hc. split.
  - induction items as [| it items IH]; [reflexivity |].
    simpl. destruct (recent (Some c2) it) eqn:E2.
    + rewrite (recent_mono c1 c2 it Hc E2). simpl. rewrite E2, IH. reflexivity.
    + destruct (recent (Some c1) it); simpl; rewrite ?E2; exact IH.
  - intros it Hin. apply filter_In in Hin. destruct Hin as (Hin & Hr).
    apply filter_In. split; [exact Hin | eapply recent_mono; eassumption].
Qed.

(** The items of a posts record: the scraped items that pass the filter,
    for the cutoff taken at a time [t] of the run. *)
Lemma posts_items_filtered {P : Platform} (O : Outside) k s url days login
    w v w' :
  k = profile_posts \/ k = company_posts ->
  scrape O k s url days login w = (Normal v, w') ->
  exists t,
    now w <= t <= now w'
    /\ get v "items" =
       Some (JArr (map js_of_item
          (filter (recent (dayjs_subtract_day t (days_or_default days)))
             (map (item_of k) (nodes s))))).
Proof.
  intros Hk H.
  destruct Hk; subst k; simpl in H;
    unfold scrapeProfilePosts, scrapeCompanyPosts in H.
  - peel H. apply quiet_log in E. destruct E as (_ & _ & _ & _ & T0 & _).
    peel H. apply quiet_open_page in E. destruct E as (_ & _ & _ & _ & T1 & _).
    peel H.
    assert (T2 : same_server w1 w2).
    { revert E. match goal with |- ?m w1 = _ -> _ =>
        assert (Q : quiet m) by auto 10 with quiet end.
      apply Q. }
    destruct T2 as (_ & _ & _ & _ & T2 & _).
    apply scrape_posts_items in H. destruct H as (t & Ht & Hg).
    exists t. split; [lia | exact Hg].
  - peel H. apply quiet_log in E. destruct E as (_ & _ & _ & _ & T0 & _).
    peel H. apply quiet_open_page in E. destruct E as (_ & _ & _ & _ & T1 & _).
    peel H. apply quiet_replace_slash in E. destruct E as (_ & _ & _ & _ & T2 & _).
    apply scrape_posts_items in H. destruct H as (t & Ht & Hg).
    exists t. split; [lia | exact Hg].
Qed.

(** X16. Take two runs of a posts scraper over the same page, each of which
    gets a valid date as its cutoff from [dayjs().subtract(days, 'day')].
    The run with the earlier cutoff returns every item the other run
    returns, in the same order: the items of the run with the later
    cutoff are those of the other, filtered again. (This is about the
    cutoffs, not about [days]: a [days] too large for a date gives no
    valid cutoff.) *)
Theorem longer_window_keeps_more {P : Platform} (O : Outside) (k : Kind)
    (s : Session) (url1 url2 days1 days2 : JsVal) (login1 login2 : bool)
    (w1 w2 : World) (v1 v2 : JsVal) (w1' w2' : World) :
  k = profile_posts \/ k = company_posts ->
  scrape O k s url1 days1 login1 w1 = (Normal v1, w1') ->
  scrape O k s url2 days2 login2 w2 = (Normal v2, w2') ->
  exists t1 t2 kept1 kept2,
    now w1 <= t1 <= now w1'
    /\ now w2 <= t2 <= now w2'
    /\ get v1 "items" = Some (JArr (map js_of_item kept1))
    /\ get v2 "items" = Some (JArr (map js_of_item kept2))
    /\ forall c1 c2,
         dayjs_subtract_day t1 (days_or_default days1) = Some c1 ->
         dayjs_subtract_day t2 (days_or_default days2) = Some c2 ->
         c1 <= c2 ->
         kept2 = filter (recent (Some c2)) kept1 /\ incl kept2 kept1.
Proof.
  intros Hk H1 H2.
  destruct (posts_items_filtered O _ _ _ _ _ _ _ _ Hk H1) as (t1 & Ht1 & Hg1).
  destruct (posts_items_filtered O _ _ _ _ _ _ _ _ Hk H2) as (t2 & Ht2 & Hg2).
  exists t1, t2. eexists. eexists.
  split; [exact Ht1 |]. split; [exact Ht2 |].
  split; [exact Hg1 |]. split; [exact Hg2 |].
  intros c1 c2 E1 E2 Hc. rewrite E1, E2.
  apply filter_recent_mono. exact Hc.
Qed.

Lemma longer_window_keeps_more_witness :
  exists v1 v2 kept1 kept2,
    fst (scrapeProfilePosts (outside no_env (fun _ => ok_page)) ok_page
           (JStr "https://x/in/a") (JNum 30) false (world 1000000000000))
    = Normal v1
    /\ fst (scrapeProfilePosts (outside no_env (fun _ => ok_page)) ok_page
              (JStr "https://x/in/a") (JNum 1) false (world 1000000000000))
       = Normal v2
    /\ get v1 "items" = Some (JArr (map js_of_item kept1))
    /\ get v2 "items" = Some (JArr (map js_of_item kept2))
    /\ incl kept2 kept1.
Proof.
  eassert (E1 : scrape (outside no_env (fun _ => ok_page)) profile_posts
                  ok_page (JStr "https://x/in/a") (JNum 30) false
                  (world 1000000000000)
                = (Normal _, _)) by (vm_compute; reflexivity).
  eassert (E2 : scrape (outside no_env (fun _ => ok_page)) profile_posts
                  ok_page (JStr "https://x/in/a") (JNum 1) false
                  (world 1000000000000)
                = (Normal _, _)) by (vm_compute; reflexivity).
  destruct (longer_window_keeps_more (P := platform)
              (outside no_env (fun _ => ok_page)) profile_posts ok_page
              (JStr "https://x/in/a") (JStr "https://x/in/a")
              (JNum 30) (JNum 1) false false
              (world 1000000000000) (world 1000000000000) _ _ _ _
              (or_introl eq_refl) E1 E2)
    as (t1 & t2 & kept1 & kept2 & Ht1 & Ht2 & Hg1 & Hg2 & Hmono).
  eexists. eexists. exists kept1, kept2.
  split; [vm_compute; reflexivity |]. split; [vm_compute; reflexivity |].
  split; [exact Hg1 |]. split; [exact Hg2 |].
  apply (Hmono (t1 - 30 * 86400000) (t2 - 1 * 86400000)).
  - reflexivity.
  - reflexivity.
  - cbn [now world] in Ht1, Ht2. lia.
Defined.

(** X17. When [days] gives no valid cutoff ([dayjs] returns an invalid
    date, as for a [days] that is not a number), a posts scraper returns
    the undated items only: every item whose timestamp parses is dropped,
    however recent, and every other item is kept. *)
Theorem invalid_days_drop_dated {P : Platform} (O : Outside) (k : Kind)
    (s : Session) (url days : JsVal) (login : bool) (w : World) (v : JsVal)
    (w' : World) :
  k = profile_posts \/ k = company_posts ->
  (forall t, dayjs_subtract_day t (days_or_default days) = None) ->
  scrape O k s url days login w = (Normal v, w') ->
  exists kept,
    get v "items" = Some (JArr (map js_of_item kept))
    /\ forall it,
         In it kept <-> In it (map (item_of k) (nodes s)) /\ ~ dated it.
Proof.
  intros Hk Hinv H.
  assert (Hitems : exists t,
            get v "items" =
            Some (JArr (map js_of_item
               (filter (recent (dayjs_subtract_day t (days_or_default days)))
                  (map (item_of k) (nodes s)))))).
  { destruct Hk; subst k; simpl in H;
      unfold scrapeProfilePosts, scrapeCompanyPosts in H.
    - peel H. peel H. peel H.
      apply scrape_posts_items in H. destruct H as (t & _ & Hg). eauto.
    - peel H. peel H. peel H.
      apply scrape_posts_items in H. destruct H as (t & _ & Hg). eauto. }
  destruct Hitems as (t & Hg). rewrite Hinv in Hg.
  eexists. split; [exact Hg |].
  intros it. rewrite filter_In. split; intros (Hin & Hr); split; auto.
  - apply recent_invalid; auto.
    apply in_map_iff in Hin. destruct Hin as (n & <- & _).
    apply item_of_nonempty.
  - apply recent_invalid; auto.
    apply in_map_iff in Hin. destruct Hin as (n & <- & _).
    apply item_of_nonempty.
Qed.

Lemma invalid_days_drop_dated_witness :
  exists v kept,
    fst (scrapeProfilePosts (outside no_env (fun _ => ok_page)) ok_page
           (JStr "https://x/in/a") JNaN false (world 1000000000000)) = Normal v
    /\ get v "items" = Some (JArr (map js_of_item kept))
    /\ forall it,
         In it kept
         <-> In it (map profile_post_item (nodes ok_page)) /\ ~ dated it.
Proof.
  eassert (E : scrape (outside no_env (fun _ => ok_page)) profile_posts ok_page
                 (JStr "https://x/in/a") JNaN false (world 1000000000000)
               = (Normal _, _)) by (vm_compute; reflexivity).
  destruct (invalid_days_drop_dated (P := platform)
              (outside no_env (fun _ => ok_page)) profile_posts ok_page
              (JStr "https://x/in/a") JNaN false (world 1000000000000) _ _
              (or_introl eq_refl) (fun _ => eq_refl) E)
    as (kept & Hg & Hiff).
  eexists. exists kept. split; [vm_compute; reflexivity |].
  split; [exact Hg | exact Hiff].
Defined.

(** X18. Through the queue the look-back of a posts task is [t.days || 30]:
    the [days] the result reports is never falsy; it is [t.days] itself,
    unconverted, when that is truthy, and 30 for a task with [days] absent,
    [0], [null], [NaN], [false] or the empty string. *)
Theorem queue_days_default {P : Platform} (O : Outside) (k : Kind)
    (s : Session) (t : JsVal) (login : bool) (w : World) (v : JsVal)
    (w' : World) :
  k = profile_posts \/ k = company_posts ->
  scrape O k s (field t "url") (days_arg k t) login w = (Normal v, w') ->
  exists d,
    get v "days" = Some d
    /\ truthy d = true
    /\ d = (if truthy (field t "days") then field t "days" else JNum 30).
Proof.
  intros Hk H.
  assert (Hd : get v "days" = Some (days_or_default (days_arg k t))).
  { destruct Hk; subst k; simpl in H;
      unfold scrapeProfilePosts, scrapeCompanyPosts in H.
    - peel H. peel H. peel H. unfold scrape_posts in H.
      repeat (peel H).
      match goal with E : iso_now _ = _ |- _ => unfold iso_now in E; peel E;
        inversion E; subst end.
      inversion H; subst. reflexivity.
    - peel H. peel H. peel H. unfold scrape_posts in H.
      repeat (peel H).
      match goal with E : iso_now _ = _ |- _ => unfold iso_now in E; peel E;
        inversion E; subst end.
      inversion H; subst. reflexivity. }
  exists (days_or_default (days_arg k t)). split; [exact Hd |].
  assert (Ha : days_arg k t = js_or (field t "days") (JNum 30))
    by (destruct Hk; subst k; reflexivity).
  rewrite Ha. unfold js_or.
  destruct (truthy (field t "days")) eqn:Et.
  - destruct (field t "days"); try discriminate; simpl; auto.
  - split; reflexivity.
Qed.

Lemma queue_days_default_witness :
  exists v,
    fst (scrape (outside no_env (fun _ => ok_page)) company_posts ok_page
           (JStr "https://x/company/a")
           (days_arg company_posts
              (JObj [("type", JStr "company_posts");
                     ("url", JStr "https://x/company/a");
                     ("days", JNum 0)]))
           false (world 1000000000000)) = Normal v
    /\ get v "days" = Some (JNum 30).
Proof.
  eassert (E : scrape (outside no_env (fun _ => ok_page)) company_posts ok_page
                 (field (JObj [("type", JStr "company_posts");
                               ("url", JStr "https://x/company/a");
                               ("days", JNum 0)]) "url")
                 (days_arg company_posts
                    (JObj [("type", JStr "company_posts");
                           ("url", JStr "https://x/company/a");
                           ("days", JNum 0)]))
                 false (world 1000000000000)
               = (Normal _, _)) by (vm_compute; reflexivity).
  destruct (queue_days_default (P := platform)
              (outside no_env (fun _ => ok_page)) company_posts ok_page
              (JObj [("type", JStr "company_posts");
                     ("url", JStr "https://x/company/a");
                     ("days", JNum 0)])
              false (world 1000000000000) _ _ (or_intror eq_refl) E)
    as (d & Hg & _ & Hd).
  eexists. split; [vm_compute; reflexivity |].
  rewrite Hg, Hd. reflexivity.
Defined.

(** ** The scrolling timer *)

Lemma scroll_ticks_run h m :
  forall fuel total,
    (m < fuel)%nat ->
    h * 8 < total + 500 * (Z.of_nat m + 1) ->
    ((0 < m)%nat -> total + 500 * Z.of_nat m <= h * 8) ->
    scroll_ticks fuel h total = Some (total + 500 * (Z.of_nat m + 1), S m).
Proof.
  induction m as [| m IH]; intros fuel total Hf Hup Hlo.
  - destruct fuel as [| f]; [lia |]. cbn [scroll_ticks].
    replace (h * 8 <? total + 500) with true
      by (symmetry; apply Z.ltb_lt; lia).
    replace (total + 500 * (Z.of_nat 0 + 1)) with (total + 500) by lia.
    reflexivity.
  - destruct fuel as [| f]; [lia |]. cbn [scroll_ticks].
    assert (Hlo' : total + 500 * Z.of_nat (S m) <= h * 8) by (apply Hlo; lia).
    replace (h * 8 <? total + 500) with false
      by (symmetry; apply Z.ltb_ge; lia).
    rewrite (IH f (total + 500)); [| lia | lia | intros _; lia].
    replace (total + 500 + 500 * (Z.of_nat m + 1))
      with (total + 500 * (Z.of_nat (S m) + 1)) by lia.
    reflexivity.
Qed.

(** X19. The scrolling timer of [autoScroll] stops: for a window height
    [h] that stays the same during the scroll it fires
    [floor(8h / 500) + 1] times (once for a height below 63), and the total
    scrolled, 500 per tick, is the first multiple of 500 above [8h]. *)
Theorem autoScroll_stops (h : Z) (fuel : nat) :
  (Z.to_nat (h * 8 / 500) < fuel)%nat ->
  exists total ticks,
    scroll_ticks fuel h 0 = Some (total, ticks)
    /\ ticks = S (Z.to_nat (h * 8 / 500))
    /\ total = 500 * Z.of_nat ticks
    /\ h * 8 < total
    /\ (0 <= h -> total <= h * 8 + 500).
Proof.
  intros Hf.
  pose proof (Z.div_mod (h * 8) 500 ltac:(lia)) as Hdm.
  pose proof (Z.mod_pos_bound (h * 8) 500 ltac:(lia)) as Hmod.
  set (q := h * 8 / 500) in *.
  assert (Hrun : scroll_ticks fuel h 0
                 = Some (0 + 500 * (Z.of_nat (Z.to_nat q) + 1), S (Z.to_nat q))).
  { apply scroll_ticks_run; [exact Hf | lia | lia]. }
  eexists. eexists. split; [exact Hrun |].
  split; [reflexivity |]. split; [lia |]. split; [lia |].
  intros Hh. assert (0 <= q) by (apply Z.div_pos; lia). lia.
Qed.

Lemma autoScroll_stops_witness :
  scroll_ticks 100 900 0 = Some (7500, 15%nat).
Proof.
  destruct (autoScroll_stops 900 100 ltac:(vm_compute; lia))
    as (total & ticks & E & Hn & Ht & _).
  rewrite E. subst total ticks. vm_compute. reflexivity.
Defined.

(** ** The profile callback *)

Lemma trim_start_clean s : starts_clean (Str.trim_start s) = true.
Proof.
  induction s as [| c s IH]; [reflexivity |]. simpl.
  destruct (Str.is_space c) eqn:E; [exact IH |]. simpl. rewrite E. reflexivity.
Qed.

Lemma trim_end_starts_clean s :
  starts_clean s = true -> starts_clean (Str.trim_end s) = true.
Proof.
  destruct s as [| c s]; [reflexivity |]. simpl. intros Hc.
  destruct (Str.trim_end s).
  - destruct (Str.is_space c) eqn:E; simpl; rewrite ?E; reflexivity.
  - exact Hc.
Qed.

Lemma trim_end_ends_clean s : ends_clean (Str.trim_end s) = true.
Proof.
  induction s as [| c s IH]; [reflexivity |]. simpl.
  destruct (Str.trim_end s) as [| c' t].
  - destruct (Str.is_space c) eqn:E; [reflexivity |]. simpl. rewrite E.
    reflexivity.
  - exact IH.
Qed.

Lemma trim_clean s :
  starts_clean (Str.trim s) = true /\ ends_clean (Str.trim s) = true.
Proof.
  unfold Str.trim. split.
  - apply trim_end_starts_clean, trim_start_clean.
  - apply trim_end_ends_clean.
Qed.

(** X20. The profile callback reads at most 20 experience entries, 10
    education entries and 50 skill elements, the first ones of the page in
    each case. A skill name is the trimmed text of one of the first 50 skill
    elements and is never empty: blank elements are dropped after the cut,
    so a page whose first 50 skill elements are blank yields no skill. *)
Theorem profile_data_caps (d : ProfileDom) :
  get (profile_data d) "experiences"
  = Some (JArr (map experience_entry (firstn 20 (pd_experiences d))))
  /\ get (profile_data d) "educations"
     = Some (JArr (map education_entry (firstn 10 (pd_educations d))))
  /\ List.length (firstn 20 (pd_experiences d))
     = Nat.min 20 (List.length (pd_experiences d))
  /\ List.length (firstn 10 (pd_educations d))
     = Nat.min 10 (List.length (pd_educations d))
  /\ exists names,
       get (profile_data d) "skills" = Some (JArr (map JStr names))
       /\ (List.length names <= 50)%nat
       /\ (forall s, In s names <->
             s <> "" /\ exists el, In el (firstn 50 (pd_skills d))
                                   /\ s = Str.trim el)
       /\ (forall s, In s names ->
             starts_clean s = true /\ ends_clean s = true).
Proof.
  split; [reflexivity |]. split; [reflexivity |].
  split; [apply length_firstn |]. split; [apply length_firstn |].
  exists (skill_names (pd_skills d)). split; [reflexivity |].
  unfold skill_names. split; [| split].
  - eapply Nat.le_trans; [apply filter_length_le |].
    rewrite length_map, length_firstn. apply Nat.le_min_l.
  - intros s. rewrite filter_In, in_map_iff. simpl. split.
    + intros ((el & <- & Hin) & Hne). split; [| eauto].
      intros E. rewrite E in Hne. discriminate.
    + intros (Hne & el & Hin & ->). split; [eauto |].
      destruct (Str.trim el =? "")%string eqn:E; [| reflexivity].
      apply String.eqb_eq in E. contradiction.
  - intros s Hin. apply filter_In in Hin. destruct Hin as (Hin & _).
    apply in_map_iff in Hin. destruct Hin as (el & <- & _).
    apply trim_clean.
Qed.

(** ** The throttle, from above *)

Lemma throttle_cases {P : Platform} (O : Outside) min max w :
  rate_min O = JNum min ->
  rate_max O = JNum max ->
  min <= max ->
  exists wait w',
    throttle O w = (Normal tt, w')
    /\ min <= wait <= max
    /\ lastRun w' = now w'
    /\ now w' = (if now w - lastRun w <? wait
                 then lastRun w + wait + Z.of_nat (lateness O (timers w))
                 else now w).
Proof.
  intros Hmin Hmax Hle.
  destruct (pick_wait_bounds O min max (timers w) Hle) as (wait & Hw & Hb).
  exists wait.
  unfold throttle, bind, Math_random, clock, last_run. rewrite Hmin, Hmax, Hw.
  unfold lt_wait, record_start, delay, ret.
  destruct (now w - lastRun w <? wait) eqn:E;
    eexists; (split; [reflexivity |]); simpl;
    (split; [exact Hb |]); (split; [reflexivity |]); lia.
Qed.

(** X21. The throttle holds a request back no longer than the upper bound:
    with integer bounds [min <= max] it returns at the latest [max] ms
    after the last recorded start plus the lateness of its timer, and at
    once, without a timer, when [max] ms have already passed. *)
Theorem throttle_wait_bounded {P : Platform} (O : Outside) (min max : Z)
    (w : World) :
  rate_min O = JNum min ->
  rate_max O = JNum max ->
  min <= max ->
  exists w',
    throttle O w = (Normal tt, w')
    /\ now w' <= Z.max (now w)
                   (lastRun w + max + Z.of_nat (lateness O (timers w)))
    /\ (max <= now w - lastRun w -> now w' = now w).
Proof.
  intros Hmin Hmax Hle.
  destruct (throttle_cases O min max w Hmin Hmax Hle)
    as (wait & w' & E & Hb & _ & Hn).
  exists w'. split; [exact E |].
  destruct (now w - lastRun w <? wait) eqn:Ew.
  - apply Z.ltb_lt in Ew. split; lia.
  - split; lia.
Qed.

Lemma throttle_wait_bounded_witness :
  exists w',
    throttle (outside env_1000 (fun _ => ok_page)) (world 400) = (Normal tt, w')
    /\ now w' <= 1000.
Proof.
  destruct (throttle_wait_bounded (P := platform)
              (outside env_1000 (fun _ => ok_page)) 1000 1000 (world 400)
              ltac:(vm_compute; reflexivity) ltac:(vm_compute; reflexivity)
              ltac:(lia))
    as (w' & E & Hle & _).
  exists w'. split; [exact E |].
  assert (Hm : Z.max (now (world 400))
                 (lastRun (world 400) + 1000
                  + Z.of_nat (lateness (outside env_1000 (fun _ => ok_page))
                                (timers (world 400)))) = 1000)
    by (vm_compute; reflexivity).
  rewrite Hm in Hle. exact Hle.
Defined.

(** X22. A bound that is not a number switches the throttle off: when
    [RATE_MIN_MS] or [RATE_MAX_MS] converts to [NaN], the wait is [NaN],
    the comparison [elapsed < wait] is false and the call returns at once,
    whatever the time since the last start. *)
Theorem throttle_nan_never_waits {P : Platform} (O : Outside) (w : World) :
  rate_min O = JNaN \/ rate_max O = JNaN ->
  exists w',
    throttle O w = (Normal tt, w')
    /\ now w' = now w
    /\ lastRun w' = now w.
Proof.
  intros Hnan.
  unfold throttle, bind, Math_random, clock, last_run.
  assert (Hw : pick_wait (rate_min O) (rate_max O)
                 (random O (timers w) mod two53) = None).
  { destruct Hnan as [-> | ->]; unfold pick_wait;
      [reflexivity | destruct (rate_min O); reflexivity]. }
  rewrite Hw. unfold lt_wait, record_start, ret.
  eexists. split; [reflexivity |]. split; reflexivity.
Qed.

Lemma throttle_nan_never_waits_witness :
  let O := outside (fun n => if (n =? "RATE_MAX_MS")%string
                             then Some "fast" else None)
             (fun _ => ok_page) in
  exists w',
    throttle O (snd (throttle O (world 1000000))) = (Normal tt, w')
    /\ now w' = 1000000.
Proof.
  intros O.
  destruct (throttle_nan_never_waits (P := platform) O
              (snd (throttle O (world 1000000)))
              ltac:(right; vm_compute; reflexivity))
    as (w' & E & Hn & _).
  exists w'. split; [exact E |]. rewrite Hn. vm_compute. reflexivity.
Defined.


